(** * BayBE: the campaign state machine and the discrete parameters

    A shallow embedding of [baybe/campaign.py] (class [Campaign]), of the
    part of [baybe/parameters.py] that validates and queries the discrete
    parameters, and of [baybe/telemetry.py].

    Conventions.
    - Python [int] is [Z]. A Python [float] in [parameters.py] is a binary64
      number with the rounding of IEEE 754, as the Standard Library
      specifies it ([SpecFloat]). A number in a cell of a table is the
      rational it denotes; where pandas changes the dtype of a column of
      whole numbers to [float64], the cell is rounded to binary64. [nan] and
      [None] are explicit missing values.
    - A method that mutates [self] is a function from the state before the
      call to an outcome (a value or the exception raised) and the state after
      it; the state after an exception is the state the mutations made so far
      have left behind.
    - Collaborators that are not defined in these files (the recommender, the
      fuzzy row matcher, the join of pandas, the telemetry functions) are
      parameters of the development; what is modelled of pandas, numpy,
      pydantic and scikit-learn says so where it stands. *)

From Stdlib Require Import ZArith QArith Qabs Ascii String List Bool Lia Lqa.
From Stdlib Require Import Floats.SpecFloat.
Import ListNotations.

Local Open Scope Z_scope.

(** ** Python exceptions *)

Module Exceptions.

(** The places where [campaign.py] and [parameters.py] raise [ValueError],
    and the [ValueError] of numpy and of scikit-learn that
    [validate_tolerance] can meet. *)
Inductive value_error : Type :=
| BatchSizeTooSmall (batch_size : Z)
| MissingTargetValues (target : string)
| MissingParameterValues (parameter : string)
| TooFewValues
| ValuesNotUnique
| ToleranceTooLarge
| EmptyReduction
| NoSamples
| InputNotFinite.

(** The places where [campaign.py] raises [TypeError]. *)
Inductive type_error : Type :=
| NonNumericTarget (target : string)
| NonNumericParameter (parameter : string).

(** The exception classes. [External] stands for whatever a collaborator
    raises; the campaign never catches anything. *)
Inductive exn : Type :=
| ValueError (why : value_error)
| TypeError (why : type_error)
| KeyError
| IncompatibilityError
| RuntimeError
| External (tag : nat).

(** An outcome of a call: the value returned or the exception raised. *)
Inductive outcome (A : Type) : Type :=
| Return (a : A)
| Raise (e : exn).

Arguments Return {A} a.
Arguments Raise {A} e.

Definition is_raise {A : Type} (o : outcome A) : bool :=
  match o with Return _ => false | Raise _ => true end.

(** What a collaborator of the campaign answers: a value, or an exception of
    its own, whatever its class. *)
Inductive foreign (A : Type) : Type :=
| Answer (a : A)
| Fails (tag : nat).

Arguments Answer {A} a.
Arguments Fails {A} tag.

(** An exception of a collaborator propagates unchanged. *)
Definition propagate {A : Type} (f : foreign A) : outcome A :=
  match f with
  | Answer a => Return a
  | Fails tag => Raise (External tag)
  end.

End Exceptions.

Export Exceptions.

(** ** binary64, the [float] of Python and of numpy *)

Module Binary64.

(** The two parameters of the format: 53 bits of mantissa, and infinities
    at the exponent 1024. *)
Definition prec : Z := 53.
Definition emax : Z := 1024.

(** A [float]: a signed zero, an infinity, [nan], or a finite number
    [m * 2^e]. The operations are those of the Standard Library's
    specification of IEEE 754, which round to nearest, ties to even. *)
Definition float64 : Type := spec_float.

Definition zero : float64 := S754_zero false.
Definition inf : float64 := S754_infinity false.

(** [float(z)] for a whole number. *)
Definition of_Z (z : Z) : float64 := binary_normalize prec emax z 0 false.

(** The [float] that a decimal literal denotes: the binary64 nearest to the
    rational. *)
Definition of_Q (q : Q) : float64 :=
  match Qnum q with
  | Z0 => zero
  | Zpos n =>
      let '(mz, ez, lz) := SFdiv_core_binary prec emax (Zpos n) 0 (Zpos (Qden q)) 0 in
      binary_round_aux prec emax false mz ez lz
  | Zneg n =>
      let '(mz, ez, lz) := SFdiv_core_binary prec emax (Zpos n) 0 (Zpos (Qden q)) 0 in
      binary_round_aux prec emax true mz ez lz
  end.

(** The rational that a finite [float] is. *)
Definition to_Q (x : float64) : Q :=
  match x with
  | S754_finite s m e => Qred (inject_Z (cond_Zopp s (Zpos m)) * Qpower (2 # 1) e)%Q
  | _ => 0%Q
  end.

Definition add : float64 -> float64 -> float64 := SFadd prec emax.
Definition sub : float64 -> float64 -> float64 := SFsub prec emax.
Definition mul : float64 -> float64 -> float64 := SFmul prec emax.
Definition div : float64 -> float64 -> float64 := SFdiv prec emax.
Definition sqrt : float64 -> float64 := SFsqrt prec emax.
Definition abs : float64 -> float64 := SFabs.

(** [x == y], [x < y] and [x <= y]: all false when one side is [nan]. *)
Definition eqb : float64 -> float64 -> bool := SFeqb.
Definition ltb : float64 -> float64 -> bool := SFltb.
Definition leb : float64 -> float64 -> bool := SFleb.

Definition is_nan (x : float64) : bool :=
  match x with S754_nan => true | _ => false end.

(** [np.isfinite]. *)
Definition is_finite (x : float64) : bool :=
  match x with S754_zero _ | S754_finite _ _ _ => true | _ => false end.

(** Neither below zero nor [-inf]: a zero of either sign, a positive
    number, [inf], or [nan]. *)
Definition not_negative (x : float64) : bool :=
  match x with S754_finite true _ _ | S754_infinity true => false | _ => true end.

(** Rounding keeps the sign it is given. *)
Lemma binary_round_aux_sign (sx : bool) (mx ex : Z) (lx : location) :
  match binary_round_aux prec emax sx mx ex lx with
  | S754_zero s | S754_infinity s | S754_finite s _ _ => s = sx
  | S754_nan => True
  end.
Proof.
  unfold binary_round_aux.
  destruct (shr_fexp prec emax mx ex lx) as [mrs' e'].
  destruct (shr_fexp prec emax _ e' loc_Exact) as [mrs'' e''].
  destruct (shr_m mrs''); [reflexivity | | exact I].
  destruct (Z.leb e'' _); reflexivity.
Qed.

Lemma sqrt_not_negative (x : float64) : not_negative (sqrt x) = true.
Proof.
  destruct x as [s|[|]| |[|] m e]; try reflexivity.
  unfold sqrt, SFsqrt. destruct (SFsqrt_core_binary prec emax (Zpos m) e) as [[mz ez] lz].
  pose proof (binary_round_aux_sign false mz ez lz) as H.
  destruct (binary_round_aux prec emax false mz ez lz) as [s|s| |s m' e']; subst; reflexivity.
Qed.

Lemma half_not_negative (x : float64) :
  not_negative x = true -> not_negative (div x (of_Z 2)) = true.
Proof.
  replace (of_Z 2) with (S754_finite false 4503599627370496 (-51)) by reflexivity.
  destruct x as [s|[|]| |[|] m e]; try discriminate; try reflexivity. intros _.
  unfold div, SFdiv.
  destruct (SFdiv_core_binary prec emax (Zpos m) e _ _) as [[mz ez] lz].
  pose proof (binary_round_aux_sign (xorb false false) mz ez lz) as H.
  destruct (binary_round_aux prec emax (xorb false false) mz ez lz) as [s|s| |s m' e'];
    cbn [xorb] in H; subst; reflexivity.
Qed.

(** Nothing that is not negative is at most a negative number. *)
Lemma leb_not_negative_negative (x t : float64) :
  not_negative x = true -> ltb t zero = true -> leb x t = false.
Proof.
  destruct t as [s|[|]| |[|] m e]; try discriminate;
    destruct x as [s'|[|]| |[|] m' e']; try discriminate; reflexivity.
Qed.

Lemma abs_not_negative (x : float64) : not_negative (abs x) = true.
Proof. destruct x; reflexivity. Qed.

(** [x - x] is zero for a finite [x]. *)
Lemma sub_diag (x : float64) : is_finite x = true -> abs (sub x x) = zero.
Proof.
  destruct x as [[|]| | |s m e]; try discriminate; try reflexivity. intros _.
  unfold sub, SFsub. rewrite Z.sub_diag. reflexivity.
Qed.

End Binary64.

(** ** [parameters.py]: the validators, [NumericDiscrete], [Categorical] *)

Module Parameters.

Import Binary64.

(** *** [_validate_value_list] *)

Section ValueList.

(** The values of a parameter and the test [==] on them. *)
Context {A : Type}.
Variable equal : A -> A -> bool.

(** [np.unique(lst)], up to the order: one of every group of equal
    elements. *)
Fixpoint np_unique (lst : list A) : list A :=
  match lst with
  | [] => []
  | x :: rest => if existsb (equal x) rest then np_unique rest else x :: np_unique rest
  end.

(** [_validate_value_list]. *)
Definition _validate_value_list (lst : list A) : outcome (list A) :=
  if (length lst <? 2)%nat then Raise (ValueError TooFewValues)
  else if negb (length lst =? length (np_unique lst))%nat then Raise (ValueError ValuesNotUnique)
  else Return lst.

(** No two positions of the list hold equal elements. *)
Definition distinct (l : list A) : Prop :=
  forall i j d, (i < j < length l)%nat -> equal (nth i l d) (nth j l d) = false.

Lemma distinct_cons (x : A) (l : list A) :
  distinct (x :: l) <-> (forall y, In y l -> equal x y = false) /\ distinct l.
Proof.
  unfold distinct. split.
  - intros H. split.
    + intros y Hy. destruct (In_nth l y x Hy) as [j [Hj <-]].
      apply (H 0%nat (Datatypes.S j) x). simpl. lia.
    + intros i j d Hij. apply (H (Datatypes.S i) (Datatypes.S j) d). simpl. lia.
  - intros [Hx Hl] [|i] [|j] d Hij; simpl in *; try lia.
    + apply Hx. apply nth_In. lia.
    + apply Hl. lia.
Qed.

Lemma length_np_unique_le (l : list A) : (length (np_unique l) <= length l)%nat.
Proof.
  induction l as [|x l IH]; simpl; [lia|].
  destruct (existsb (equal x) l); simpl; lia.
Qed.

(** [np.unique] keeps every element exactly when no two are equal. *)
Lemma length_np_unique (l : list A) : length (np_unique l) = length l <-> distinct l.
Proof.
  induction l as [|x l IH].
  - split; [intros _ i j d H; simpl in H; lia | reflexivity].
  - rewrite distinct_cons. cbn [np_unique]. destruct (existsb (equal x) l) eqn:E.
    + split.
      * intros H. pose proof (length_np_unique_le l). simpl in H. lia.
      * intros [Hx _]. apply existsb_exists in E as [y [Hy Hxy]].
        rewrite (Hx y Hy) in Hxy. discriminate.
    + simpl. split.
      * intros H. split; [|apply IH; lia].
        intros y Hy. destruct (equal x y) eqn:Hxy; [|reflexivity].
        assert (existsb (equal x) l = true) by (apply existsb_exists; eauto). congruence.
      * intros [_ Hl]. f_equal. now apply IH.
Qed.

Lemma validate_value_list_accepts_aux (lst l : list A) :
  _validate_value_list lst = Return l
  <-> l = lst /\ (2 <= length lst)%nat /\ distinct lst.
Proof.
  unfold _validate_value_list.
  destruct (Nat.ltb_spec (length lst) 2) as [Hlt|Hge].
  - split; [discriminate | intros (_ & H & _); lia].
  - destruct (Nat.eqb_spec (length lst) (length (np_unique lst))) as [He|Hne]; cbn [negb].
    + split.
      * intros [= <-]. repeat split; [assumption|]. apply length_np_unique. congruence.
      * intros (-> & _ & _). reflexivity.
    + split; [discriminate|]. intros (_ & _ & Hd).
      apply length_np_unique in Hd. congruence.
Qed.

(** [_validate_value_list] lets a list pass, unchanged, exactly when it has
    at least two elements and no two of them are equal; it raises
    [ValueError] in every other case. This holds for the values of every
    type, whatever their test of equality. *)
Theorem validate_value_list_accepts (lst : list A) :
  (forall l, _validate_value_list lst = Return l
             <-> l = lst /\ (2 <= length lst)%nat /\ distinct lst)
  /\ (forall e, _validate_value_list lst = Raise e
                -> (e = ValueError TooFewValues /\ (length lst < 2)%nat)
                   \/ (e = ValueError ValuesNotUnique /\ ~ distinct lst)).
Proof.
  split; [intros l; apply validate_value_list_accepts_aux|].
  intros e. unfold _validate_value_list.
  destruct (Nat.ltb_spec (length lst) 2) as [Hlt|Hge]; [intros [= <-]; now left|].
  destruct (Nat.eqb_spec (length lst) (length (np_unique lst))) as [He|Hne]; cbn [negb];
    [discriminate|].
  intros [= <-]. right. split; [reflexivity|]. intros Hd.
  apply length_np_unique in Hd. congruence.
Qed.

End ValueList.

(** *** [NumericDiscrete] *)

(** The test of equality of [np.unique] on an array of floats: [==], and
    every [nan] counts as equal to every other. *)
Definition np_equal (x y : float64) : bool := eqb x y || (is_nan x && is_nan y).

(** [np.maximum(a, b)] and [np.minimum(a, b)]: a [nan] on either side
    wins. *)
Definition np_maximum (a b : float64) : float64 :=
  if is_nan a then a else if is_nan b then b else if ltb a b then b else a.

Definition np_minimum (a b : float64) : float64 :=
  if is_nan a then a else if is_nan b then b else if ltb b a then b else a.

(** One row of [np.fill_diagonal(m, v)]: the entry in column [i] (counting
    from column [j]) becomes [v]. *)
Fixpoint fill_row (v : float64) (i j : nat) (row : list float64) : list float64 :=
  match row with
  | [] => []
  | d :: rest => (if (i =? j)%nat then v else d) :: fill_row v i (S j) rest
  end.

Fixpoint fill_rows (v : float64) (i : nat) (m : list (list float64)) : list (list float64) :=
  match m with
  | [] => []
  | row :: rest => fill_row v i 0 row :: fill_rows v (S i) rest
  end.

(** [np.fill_diagonal(m, v)]. *)
Definition fill_diagonal (v : float64) (m : list (list float64)) : list (list float64) :=
  fill_rows v 0 m.

(** Modelled from the documentation and the source of scikit-learn, which
    is not part of these files: the squared Euclidean distance of two
    points of the line as [euclidean_distances] computes it in binary64,
    [-2 * x * y], then [+ x * x], then [+ y * y], every step rounded, and
    what is below zero raised to zero. *)
Definition squared_distance (x y : float64) : float64 :=
  let XX := mul x x in
  let YY := mul y y in
  let distance := mul (of_Z (-2)) (mul x y) in
  let distance := add distance XX in
  let distance := add distance YY in
  np_maximum distance zero.

(** Modelled from the documentation and the source of scikit-learn:
    [pairwise_distances(X)] for a column [X] of floats. It raises
    [ValueError] for an array without sample and for an array that holds
    [nan] or an infinity; the distance of a point to itself is set to zero,
    and the square root is taken last. *)
Definition pairwise_distances (X : list float64) : outcome (list (list float64)) :=
  match X with
  | [] => Raise (ValueError NoSamples)
  | _ =>
      if forallb is_finite X
      then Return (map (map sqrt)
                       (fill_diagonal zero (map (fun x => map (squared_distance x) X) X)))
      else Raise (ValueError InputNotFinite)
  end.

(** [dists.min()]: the least entry, or [nan] when there is one; numpy raises
    [ValueError] on an empty array. *)
Definition matrix_min (m : list (list float64)) : outcome float64 :=
  match concat m with
  | [] => Raise (ValueError EmptyReduction)
  | d :: rest => Return (fold_left np_minimum rest d)
  end.

(** [validate_tolerance]: [tolerance >= max_tol] raises. *)
Definition validate_tolerance (tolerance : float64) (values : list float64) : outcome float64 :=
  match pairwise_distances values with
  | Raise e => Raise e
  | Return dists =>
      let dists := fill_diagonal inf dists in
      match matrix_min dists with
      | Raise e => Raise e
      | Return m =>
          let max_tol := div m (of_Z 2) in
          if leb max_tol tolerance then Raise (ValueError ToleranceTooLarge)
          else Return tolerance
      end
  end.

Record NumericDiscrete : Type := {
  nd_name : string;
  nd_values : list float64;
  nd_tolerance : float64
}.

(** Construction. pydantic (version 1) runs the validator of [values], then
    the one of [tolerance], and the object exists only when both pass. A
    field that failed is missing from the dictionary [values] that the next
    validator is given, so that [values["values"]] in [validate_tolerance]
    raises [KeyError], which pydantic does not catch. *)
Definition NumericDiscrete_init (name : string) (values : list float64) (tolerance : float64)
  : outcome NumericDiscrete :=
  match _validate_value_list np_equal values with
  | Raise _ => Raise KeyError
  | Return vs =>
      match validate_tolerance tolerance vs with
      | Raise e => Raise e
      | Return tol => Return {| nd_name := name; nd_values := vs; nd_tolerance := tol |}
      end
  end.

(** [np.abs(bla - item) <= self.tolerance]. *)
Definition difference_acceptable (p : NumericDiscrete) (item bla : float64) : bool :=
  leb (abs (sub bla item)) (nd_tolerance p).

(** [is_in_range]. *)
Definition is_in_range (p : NumericDiscrete) (item : float64) : bool :=
  existsb (fun b => b) (map (difference_acceptable p item) (nd_values p)).

(** *** The distances that [validate_tolerance] compares *)

Lemma fill_row_In (v : float64) (i : nat) (row : list float64) :
  forall j e, In e (fill_row v i j row) -> e = v \/ In e row.
Proof.
  induction row as [|d row IH]; intros j e H; cbn in H; [destruct H|].
  destruct H as [H|H].
  - destruct (i =? j)%nat; [now left | right; now left].
  - destruct (IH _ _ H); [now left | right; now right].
Qed.

Lemma fill_rows_In (v : float64) (m : list (list float64)) :
  forall i e, In e (concat (fill_rows v i m)) -> e = v \/ In e (concat m).
Proof.
  induction m as [|row m IH]; intros i e H; cbn in H; [destruct H|].
  apply in_app_or in H as [H|H].
  - destruct (fill_row_In _ _ _ _ _ H); [now left | right; cbn; apply in_or_app; now left].
  - destruct (IH _ _ H); [now left | right; cbn; apply in_or_app; now right].
Qed.

Lemma fold_min_In (l : list float64) :
  forall d, In (fold_left np_minimum l d) (d :: l).
Proof.
  induction l as [|x l IH]; intros d; cbn [fold_left]; [now left|].
  destruct (IH (np_minimum d x)) as [H|H]; [|right; now right].
  rewrite <- H. unfold np_minimum.
  destruct (is_nan d); [now left|]. destruct (is_nan x); [right; now left|].
  destruct (ltb x d); [right; now left | now left].
Qed.

Lemma matrix_min_In (m : list (list float64)) (d : float64) :
  matrix_min m = Return d -> In d (concat m).
Proof.
  unfold matrix_min. destruct (concat m) as [|x rest]; [discriminate|].
  intros [= <-]. apply fold_min_In.
Qed.

(** No distance that scikit-learn answers is negative. *)
Lemma pairwise_distances_not_negative (X : list float64) (dists : list (list float64))
      (e : float64) :
  pairwise_distances X = Return dists -> In e (concat dists) -> not_negative e = true.
Proof.
  unfold pairwise_distances. destruct X as [|x X]; [discriminate|].
  set (M := fill_diagonal _ _). clearbody M.
  destruct (forallb is_finite (x :: X)); [|discriminate]. intros [= <-] H.
  apply in_concat in H as [row [Hrow H]].
  apply in_map_iff in Hrow as [row' [<- _]].
  apply in_map_iff in H as [y [<- _]]. apply sqrt_not_negative.
Qed.

Lemma pairwise_distances_Return (X : list float64) :
  (1 <= length X)%nat -> forallb is_finite X = true ->
  exists dists, pairwise_distances X = Return dists /\ (1 <= length (concat dists))%nat.
Proof.
  intros Hlen Hfin. unfold pairwise_distances. destruct X as [|x X]; [simpl in Hlen; lia|].
  rewrite Hfin. eexists. split; [reflexivity|]. cbn. lia.
Qed.

Lemma length_fill_row (v : float64) (i : nat) (row : list float64) :
  forall j, length (fill_row v i j row) = length row.
Proof. induction row as [|d row IH]; intros j; cbn; [reflexivity | now rewrite IH]. Qed.

Lemma length_concat_fill_rows (v : float64) (m : list (list float64)) :
  forall i, length (concat (fill_rows v i m)) = length (concat m).
Proof.
  induction m as [|row m IH]; intros i; cbn; [reflexivity|].
  now rewrite !length_app, length_fill_row, IH.
Qed.

(** A negative tolerance passes [validate_tolerance] for every array of
    finite values. *)
Lemma validate_tolerance_negative (tolerance : float64) (values : list float64) :
  (1 <= length values)%nat -> forallb is_finite values = true -> ltb tolerance zero = true ->
  validate_tolerance tolerance values = Return tolerance.
Proof.
  intros Hlen Hfin Hneg. unfold validate_tolerance.
  destruct (pairwise_distances_Return values Hlen Hfin) as [dists [Hd Hne]]. rewrite Hd.
  destruct (matrix_min (fill_diagonal inf dists)) as [m|e] eqn:Hm.
  - apply matrix_min_In in Hm. apply fill_rows_In in Hm.
    assert (Hm' : not_negative m = true).
    { destruct Hm as [->|Hm]; [reflexivity|].
      exact (pairwise_distances_not_negative values dists m Hd Hm). }
    now rewrite (leb_not_negative_negative _ _ (half_not_negative m Hm') Hneg).
  - exfalso. unfold matrix_min, fill_diagonal in Hm.
    pose proof (length_concat_fill_rows inf dists 0) as Hl.
    destruct (concat (fill_rows inf 0 dists)); [simpl in Hl; lia | discriminate].
Qed.

Lemma is_in_range_iff (p : NumericDiscrete) (item : float64) :
  is_in_range p item = true
  <-> exists v, In v (nd_values p) /\ leb (abs (sub v item)) (nd_tolerance p) = true.
Proof.
  unfold is_in_range. rewrite existsb_exists. split.
  - intros [b [Hb ->]]. apply in_map_iff in Hb as [v [Hv Hin]]. now exists v.
  - intros [v [Hin Hv]]. exists true. split; [|reflexivity].
    apply in_map_iff. now exists v.
Qed.

(** The tolerance is not checked from below. With a tolerance that is not
    negative, every finite declared value is in range; a negative tolerance
    passes the validator for every valid list of finite values, and the
    parameter so constructed finds no item in range, its own values
    included. *)
Theorem tolerance_sign (name : string) (values : list float64) (tolerance : float64) :
  (forall p, leb zero (nd_tolerance p) = true ->
             forall v, In v (nd_values p) -> is_finite v = true -> is_in_range p v = true)
  /\ ((2 <= length values)%nat -> distinct np_equal values ->
      forallb is_finite values = true -> ltb tolerance zero = true ->
      NumericDiscrete_init name values tolerance
      = Return {| nd_name := name; nd_values := values; nd_tolerance := tolerance |}
      /\ forall item,
          is_in_range {| nd_name := name; nd_values := values; nd_tolerance := tolerance |} item
          = false).
Proof.
  split.
  - intros p Hp v Hv Hfin. apply is_in_range_iff. exists v. split; [assumption|].
    now rewrite sub_diag.
  - intros Hlen Hd Hfin Hneg. split.
    + assert (Hv : _validate_value_list np_equal values = Return values)
        by (apply validate_value_list_accepts_aux; repeat split; assumption).
      unfold NumericDiscrete_init.
      rewrite Hv, validate_tolerance_negative; [reflexivity | lia | assumption | assumption].
    + intros item.
      destruct (is_in_range _ item) eqn:E; [|reflexivity].
      apply is_in_range_iff in E as [v [_ Hv]]. cbn [nd_tolerance] in Hv.
      rewrite (leb_not_negative_negative _ _ (abs_not_negative _) Hneg) in Hv. discriminate.
Qed.

(** The values 1 and 2 with the tolerance -1/2: the parameter is
    constructed and does not find its own value 1 in range. *)
Lemma tolerance_sign_witness :
  NumericDiscrete_init "x" [of_Z 1; of_Z 2] (of_Q (-1 # 2)%Q)
  = Return {| nd_name := "x"; nd_values := [of_Z 1; of_Z 2]; nd_tolerance := of_Q (-1 # 2)%Q |}
  /\ is_in_range {| nd_name := "x"; nd_values := [of_Z 1; of_Z 2]; nd_tolerance := of_Q (-1 # 2)%Q |}
                 (of_Z 1) = false.
Proof.
  destruct (proj2 (tolerance_sign "x" [of_Z 1; of_Z 2] (of_Q (-1 # 2)%Q))) as [H1 H2].
  - simpl. lia.
  - intros [|[|i]] [|[|j]] d Hij; simpl in Hij; try lia. reflexivity.
  - reflexivity.
  - reflexivity.
  - split; [exact H1 | apply H2].
Defined.

(** C10 fails on the code. The values 300000000 and 300000003 are 3 apart,
    so that half of their distance is 3/2; scikit-learn computes their
    distance as 4, since [x * x] and [x * y] are rounded to multiples of 16
    before they cancel, and [validate_tolerance] lets the tolerance 7/4
    pass. The item 300000001.5 is then within the tolerance of both values
    of the parameter: 3/2 away from each. *)
Theorem numeric_discrete_tolerance_ambiguous :
  let v1 := of_Z 300000000 in
  let v2 := of_Z 300000003 in
  let tolerance := of_Q (7 # 4)%Q in
  let item := of_Q (600000003 # 2)%Q in
  let p := {| nd_name := "x"; nd_values := [v1; v2]; nd_tolerance := tolerance |} in
  (to_Q v1 = inject_Z 300000000 /\ to_Q v2 = inject_Z 300000003
   /\ to_Q tolerance = (7 # 4)%Q /\ to_Q item = (600000003 # 2)%Q)
  /\ pairwise_distances [v1; v2] = Return [[zero; of_Z 4]; [of_Z 4; zero]]
  /\ NumericDiscrete_init "x" [v1; v2] tolerance = Return p
  /\ to_Q (abs (sub v1 item)) = (3 # 2)%Q /\ to_Q (abs (sub v2 item)) = (3 # 2)%Q
  /\ difference_acceptable p item v1 = true
  /\ difference_acceptable p item v2 = true
  /\ filter (difference_acceptable p item) (nd_values p) = [v1; v2].
Proof. vm_compute. repeat split. Qed.

(** Two values that scikit-learn sees further apart than they are: 25.1 and
    25.2 as floats are a little less than 0.1 apart, and the tolerance 0.05
    is more than half of that, but the distance computed is a little more
    than 0.1 and the parameter is constructed. Two values that it does not
    tell apart: the distance computed for 100000000 and 100000001 is zero,
    and no tolerance but a negative one passes. *)
Lemma computed_distances :
  (exists p, NumericDiscrete_init "x" [of_Q (251 # 10)%Q; of_Q (252 # 10)%Q] (of_Q (5 # 100)%Q)
             = Return p)
  /\ Qlt (to_Q (sub (of_Q (252 # 10)%Q) (of_Q (251 # 10)%Q)) / 2) (to_Q (of_Q (5 # 100)%Q))
  /\ pairwise_distances [of_Z 100000000; of_Z 100000001]
     = Return [[zero; zero]; [zero; zero]]
  /\ NumericDiscrete_init "x" [of_Z 100000000; of_Z 100000001] zero
     = Raise (ValueError ToleranceTooLarge).
Proof.
  split; [eexists; vm_compute; reflexivity|].
  split; [vm_compute; reflexivity|]. split; vm_compute; reflexivity.
Qed.

(** *** [Categorical] *)

























End Parameters.

(** ** The fragment of pandas that [campaign.py] relies on *)

Module Pandas.

(** A cell of a table. A number is the rational it denotes, whatever its
    dtype; [SNaN] is [np.nan] and [SNone] is [None]. *)
Inductive scalar : Type :=
| SNum (q : Q)
| SBool (b : bool)
| SStr (s : string)
| SNaN
| SNone.

(** [pd.isna] on a cell. *)
Definition isna (v : scalar) : bool :=
  match v with
  | SNaN | SNone => true
  | _ => false
  end.

(** [dtype.kind]: the one-letter code of a column's type. *)
Inductive dtype_kind : Type :=
| kind_i
| kind_u
| kind_f
| kind_b
| kind_O
| kind_M.

(** [kind in "iufb"]. *)
Definition in_iufb (k : dtype_kind) : bool :=
  match k with
  | kind_i | kind_u | kind_f | kind_b => true
  | _ => false
  end.

(** A row: its cells by column name. A column that a row has no cell for
    reads as [nan], which is how pandas fills the holes of a concatenation. *)
Definition Row : Type := list (string * scalar).

Fixpoint row_get (name : string) (r : Row) : scalar :=
  match r with
  | [] => SNaN
  | (k, v) :: rest => if String.eqb k name then v else row_get name rest
  end.

Fixpoint row_set (name : string) (v : scalar) (r : Row) : Row :=
  match r with
  | [] => [(name, v)]
  | (k, x) :: rest => if String.eqb k name then (k, v) :: rest else (k, x) :: row_set name v rest
  end.

Fixpoint row_del (name : string) (r : Row) : Row :=
  match r with
  | [] => []
  | (k, x) :: rest => if String.eqb k name then row_del name rest else (k, x) :: row_del name rest
  end.

(** A [pd.DataFrame]: the columns with their dtype kinds, and the rows in
    order, each under its index label. *)
Record DataFrame : Type := {
  df_columns : list (string * dtype_kind);
  df_rows : list (Z * Row)
}.

(** [pd.DataFrame()]. *)
Definition empty_DataFrame : DataFrame := {| df_columns := []; df_rows := [] |}.

(** [df.index]. *)
Definition df_index (df : DataFrame) : list Z := map fst (df_rows df).

(** [len(df)]. *)
Definition len (df : DataFrame) : Z := Z.of_nat (length (df_rows df)).

(** [df.copy()]: a new object with the same content. *)
Definition copy (df : DataFrame) : DataFrame := df.

Fixpoint column_kind (name : string) (cols : list (string * dtype_kind)) : option dtype_kind :=
  match cols with
  | [] => None
  | (k, d) :: rest => if String.eqb k name then Some d else column_kind name rest
  end.

Fixpoint column_set (name : string) (d : dtype_kind) (cols : list (string * dtype_kind))
  : list (string * dtype_kind) :=
  match cols with
  | [] => [(name, d)]
  | (k, x) :: rest => if String.eqb k name then (k, d) :: rest else (k, x) :: column_set name d rest
  end.

(** A [pd.Series]: one column taken out of a table. *)
Record Series : Type := {
  dtype : dtype_kind;
  values : list scalar
}.

(** [df[name]]: raises [KeyError] when there is no such column. *)
Definition getitem (df : DataFrame) (name : string) : outcome Series :=
  match column_kind name (df_columns df) with
  | None => Raise KeyError
  | Some d => Return {| dtype := d; values := map (fun r => row_get name (snd r)) (df_rows df) |}
  end.

(** [series.isna().any()]. *)
Definition isna_any (s : Series) : bool := existsb isna (values s).

(** [df[name] = v] for a scalar [v] of kind [d]: every row gets the value;
    an existing column is overwritten where it stands, a new one is added
    last. *)
Definition setitem (name : string) (v : scalar) (d : dtype_kind) (df : DataFrame) : DataFrame :=
  {| df_columns := column_set name d (df_columns df);
     df_rows := map (fun r => (fst r, row_set name v (snd r))) (df_rows df) |}.

(** The dtype kind of a column that holds cells of kinds [a] and [b]. *)
Definition common_kind (a b : dtype_kind) : dtype_kind :=
  match a, b with
  | kind_i, kind_i => kind_i
  | kind_u, kind_u => kind_u
  | kind_b, kind_b => kind_b
  | kind_M, kind_M => kind_M
  | kind_i, (kind_u | kind_f) => kind_f
  | kind_u, (kind_i | kind_f) => kind_f
  | kind_f, (kind_i | kind_u | kind_f) => kind_f
  | _, _ => kind_O
  end.

(** The dtype kind of a column of kind [a] after holes were filled with
    [nan]. *)
Definition kind_with_nan (a : dtype_kind) : dtype_kind :=
  match a with
  | kind_i | kind_u | kind_f => kind_f
  | kind_M => kind_M
  | _ => kind_O
  end.

(** [astype("float64")] of a number: the nearest binary64. *)
Definition float64_of (q : Q) : Q := Binary64.to_Q (Binary64.of_Q q).

(** What becomes of a cell when its column changes from the dtype kind
    [from] to the dtype kind [to]: a number of an integer column that
    becomes a column of floats is rounded to binary64, and every other cell
    keeps its value. *)
Definition astype (from to : dtype_kind) (v : scalar) : scalar :=
  match from, to, v with
  | (kind_i | kind_u), kind_f, SNum q => SNum (float64_of q)
  | _, _, _ => v
  end.

(** The cell [v] of column [k] when a frame with the columns [from] goes into
    a frame with the columns [to]. *)
Definition cast_cell (from to : list (string * dtype_kind)) (k : string) (v : scalar) : scalar :=
  match column_kind k from, column_kind k to with
  | Some f, Some t => astype f t v
  | _, _ => v
  end.

(** What [astype("float64")] makes of a cell of a column of whole numbers. *)
Definition as_float64 (v : scalar) : scalar := astype kind_i kind_f v.

(** A column of whole numbers: the columns whose cells a concatenation may
    cast. *)
Definition whole (k : option dtype_kind) : bool :=
  match k with
  | Some (kind_i | kind_u) => true
  | _ => false
  end.

Definition cast_row (from to : list (string * dtype_kind)) (r : Row) : Row :=
  map (fun kv => (fst kv, cast_cell from to (fst kv) (snd kv))) r.

(** The columns of [pd.concat([a, b], axis=0)]: those of [a] in their order,
    then the new ones of [b]. A frame without rows does not weigh on the
    dtype. *)
Definition concat_columns (a b : DataFrame) : list (string * dtype_kind) :=
  let a_empty := (length (df_rows a) =? 0)%nat in
  let b_empty := (length (df_rows b) =? 0)%nat in
  map (fun c =>
         match column_kind (fst c) (df_columns b) with
         | Some d => (fst c, if b_empty then snd c else if a_empty then d else common_kind (snd c) d)
         | None => (fst c, if b_empty then snd c else kind_with_nan (snd c))
         end) (df_columns a)
  ++ map (fun c => (fst c, if a_empty then snd c else kind_with_nan (snd c)))
         (filter (fun c => match column_kind (fst c) (df_columns a) with
                           | Some _ => false
                           | None => true
                           end) (df_columns b)).

(** [ignore_index=True]: the rows are labelled 0, 1, 2, ... anew. *)
Definition reset_index (rows : list (Z * Row)) : list (Z * Row) :=
  combine (map Z.of_nat (seq 0 (length rows))) (map snd rows).

(** [pd.concat([a, b], axis=0, ignore_index=True)]: the rows of [a], then
    those of [b], every cell cast to the dtype of its column in the
    result. *)
Definition concat (a b : DataFrame) : DataFrame :=
  let columns := concat_columns a b in
  {| df_columns := columns;
     df_rows := reset_index
                  (map (fun r => (fst r, cast_row (df_columns a) columns (snd r))) (df_rows a)
                   ++ map (fun r => (fst r, cast_row (df_columns b) columns (snd r)))
                          (df_rows b)) |}.

(** [df.fillna({name: v}, inplace=True)]: the missing cells of column [name]
    become [v]; a name that is no column is ignored. *)
Definition fillna (name : string) (v : scalar) (df : DataFrame) : DataFrame :=
  match column_kind name (df_columns df) with
  | None => df
  | Some _ =>
      {| df_columns := df_columns df;
         df_rows := map (fun r => if isna (row_get name (snd r))
                                  then (fst r, row_set name v (snd r)) else r) (df_rows df) |}
  end.

(** [series == s] for a string [s], cell by cell. *)
Definition eq_str (v : scalar) (s : string) : bool :=
  match v with
  | SStr t => String.eqb t s
  | _ => false
  end.

(** [df.drop(index=labels)]: the rows under one of the labels go. *)
Definition drop_index (labels : list Z) (df : DataFrame) : DataFrame :=
  {| df_columns := df_columns df;
     df_rows := filter (fun r => negb (existsb (Z.eqb (fst r)) labels)) (df_rows df) |}.

(** [df.drop(name, axis=1)]: raises [KeyError] when there is no such
    column. *)
Definition drop_column (name : string) (df : DataFrame) : outcome DataFrame :=
  match column_kind name (df_columns df) with
  | None => Raise KeyError
  | Some _ =>
      Return {| df_columns := filter (fun c => negb (String.eqb (fst c) name)) (df_columns df);
                df_rows := map (fun r => (fst r, row_del name (snd r))) (df_rows df) |}
  end.

(** *** Cells of a row *)

Lemma row_get_row_set_same (k : string) (v : scalar) (r : Row) : row_get k (row_set k v r) = v.
Proof.
  induction r as [|[k' x] r IH]; cbn.
  - now rewrite String.eqb_refl.
  - destruct (String.eqb k' k) eqn:E; cbn; rewrite E; [reflexivity | exact IH].
Qed.

Lemma row_get_row_set_other (k k' : string) (v : scalar) (r : Row) :
  k <> k' -> row_get k' (row_set k v r) = row_get k' r.
Proof.
  intros Hne. induction r as [|[k0 x] r IH]; cbn.
  - destruct (String.eqb_spec k k'); [contradiction | reflexivity].
  - destruct (String.eqb_spec k0 k) as [->|Hk0]; cbn.
    + destruct (String.eqb_spec k k'); [contradiction | reflexivity].
    + destruct (String.eqb k0 k'); [reflexivity | exact IH].
Qed.

Lemma astype_SNaN (from to : dtype_kind) : astype from to SNaN = SNaN.
Proof. destruct from, to; reflexivity. Qed.

Lemma row_get_cast_row (from to : list (string * dtype_kind)) (k : string) (r : Row) :
  row_get k (cast_row from to r) = cast_cell from to k (row_get k r).
Proof.
  induction r as [|[k' x] r IH]; cbn.
  - unfold cast_cell. destruct (column_kind k from), (column_kind k to); try reflexivity.
    now rewrite astype_SNaN.
  - destruct (String.eqb_spec k' k) as [->|_]; [reflexivity | exact IH].
Qed.

(** A cast leaves a cell alone unless its column goes from whole numbers to
    floats. *)
Lemma cast_cell_same (from to : list (string * dtype_kind)) (k : string) (v : scalar) :
  (forall f t, column_kind k from = Some f -> column_kind k to = Some t ->
               in_iufb f = false \/ f = kind_f \/ f = kind_b \/ t <> kind_f) ->
  cast_cell from to k v = v.
Proof.
  unfold cast_cell. destruct (column_kind k from) as [f|]; [|reflexivity].
  destruct (column_kind k to) as [t|]; [|reflexivity].
  intros H. destruct (H f t eq_refl eq_refl) as [H1|[->|[->|H1]]].
  - destruct f; try discriminate; reflexivity.
  - reflexivity.
  - reflexivity.
  - destruct f, t, v; try reflexivity; contradiction.
Qed.

(** *** Columns of a table *)

Lemma column_kind_column_set_same (n : string) (d : dtype_kind) (cols : list (string * dtype_kind)) :
  column_kind n (column_set n d cols) = Some d.
Proof.
  induction cols as [|[k x] cols IH]; cbn.
  - now rewrite String.eqb_refl.
  - destruct (String.eqb k n) eqn:E; cbn; rewrite E; [reflexivity | exact IH].
Qed.

Lemma column_kind_column_set_other (n n' : string) (d : dtype_kind)
      (cols : list (string * dtype_kind)) :
  n <> n' -> column_kind n' (column_set n d cols) = column_kind n' cols.
Proof.
  intros Hne. induction cols as [|[k x] cols IH]; cbn.
  - destruct (String.eqb_spec n n'); [contradiction | reflexivity].
  - destruct (String.eqb_spec k n) as [->|Hk]; cbn.
    + destruct (String.eqb_spec n n'); [contradiction | reflexivity].
    + destruct (String.eqb k n'); [reflexivity | exact IH].
Qed.

Lemma column_kind_app_l (n : string) (a b : list (string * dtype_kind)) :
  column_kind n a <> None -> column_kind n (a ++ b) <> None.
Proof.
  induction a as [|[k x] a IH]; cbn; [congruence|].
  destruct (String.eqb k n); [congruence | exact IH].
Qed.

Lemma column_kind_app_r (n : string) (a b : list (string * dtype_kind)) :
  column_kind n b <> None -> column_kind n (a ++ b) <> None.
Proof.
  intros H. induction a as [|[k x] a IH]; cbn; [exact H|].
  destruct (String.eqb k n); [congruence | exact IH].
Qed.

Lemma column_kind_map (n : string) (f : string * dtype_kind -> string * dtype_kind)
      (cols : list (string * dtype_kind)) :
  (forall c, fst (f c) = fst c) ->
  column_kind n cols <> None -> column_kind n (map f cols) <> None.
Proof.
  intros Hf. induction cols as [|[k x] cols IH]; cbn; [congruence|].
  specialize (Hf (k, x)). destruct (f (k, x)) as [k' x']. cbn in Hf. subst k'.
  destruct (String.eqb k n); [congruence | exact IH].
Qed.

Lemma column_kind_filter (n : string) (keep : string * dtype_kind -> bool)
      (cols : list (string * dtype_kind)) :
  (forall d, keep (n, d) = true) ->
  column_kind n cols <> None -> column_kind n (filter keep cols) <> None.
Proof.
  intros Hkeep. induction cols as [|[k x] cols IH]; cbn; [congruence|].
  destruct (String.eqb_spec k n) as [->|Hk].
  - intros _. rewrite Hkeep. cbn. rewrite String.eqb_refl. congruence.
  - intros H. destruct (keep (k, x)); cbn; [|now apply IH].
    destruct (String.eqb_spec k n); [contradiction | now apply IH].
Qed.

Lemma column_kind_app (n : string) (a b : list (string * dtype_kind)) :
  column_kind n (a ++ b)
  = match column_kind n a with Some d => Some d | None => column_kind n b end.
Proof.
  induction a as [|[k x] a IH]; cbn; [reflexivity|].
  destruct (String.eqb k n); [reflexivity | exact IH].
Qed.

Lemma column_kind_map_eq (n : string) (f : string * dtype_kind -> string * dtype_kind)
      (cols : list (string * dtype_kind)) :
  (forall c, fst (f c) = fst c) ->
  column_kind n (map f cols)
  = match column_kind n cols with Some d => Some (snd (f (n, d))) | None => None end.
Proof.
  intros Hf. induction cols as [|[k x] cols IH]; cbn; [reflexivity|].
  pose proof (Hf (k, x)) as Hk. destruct (f (k, x)) as [k' x'] eqn:E. cbn in Hk. subst k'.
  destruct (String.eqb_spec k n) as [->|_]; [now rewrite E | exact IH].
Qed.

Lemma column_kind_filter_eq (n : string) (keep : string * dtype_kind -> bool)
      (cols : list (string * dtype_kind)) :
  (forall d, keep (n, d) = true) ->
  column_kind n (filter keep cols) = column_kind n cols.
Proof.
  intros Hkeep. induction cols as [|[k x] cols IH]; cbn; [reflexivity|].
  destruct (String.eqb_spec k n) as [->|Hk].
  - rewrite Hkeep. cbn. now rewrite String.eqb_refl.
  - destruct (keep (k, x)); cbn; [|exact IH].
    destruct (String.eqb_spec k n); [contradiction | exact IH].
Qed.

(** The dtype kind, in the concatenation, of a column of the second frame. *)
Lemma concat_columns_kind (n : string) (a b : DataFrame) (d : dtype_kind) :
  column_kind n (df_columns b) = Some d ->
  column_kind n (concat_columns a b)
  = Some (match column_kind n (df_columns a) with
          | Some da => if (length (df_rows b) =? 0)%nat then da
                       else if (length (df_rows a) =? 0)%nat then d else common_kind da d
          | None => if (length (df_rows a) =? 0)%nat then d else kind_with_nan d
          end).
Proof.
  intros Hb. unfold concat_columns. rewrite column_kind_app.
  rewrite column_kind_map_eq
    by (intros c; destruct (column_kind (fst c) (df_columns b)); reflexivity).
  destruct (column_kind n (df_columns a)) as [da|] eqn:Ha.
  - cbn [fst snd]. now rewrite Hb.
  - rewrite column_kind_map_eq by reflexivity.
    rewrite column_kind_filter_eq by (intros d'; cbn [fst]; now rewrite Ha).
    now rewrite Hb.
Qed.

(** The dtype kind of every column of a concatenation. *)
Lemma column_kind_concat_columns (n : string) (a b : DataFrame) :
  column_kind n (concat_columns a b)
  = match column_kind n (df_columns a), column_kind n (df_columns b) with
    | Some da, Some d => Some (if (length (df_rows b) =? 0)%nat then da
                               else if (length (df_rows a) =? 0)%nat then d
                                    else common_kind da d)
    | Some da, None => Some (if (length (df_rows b) =? 0)%nat then da else kind_with_nan da)
    | None, Some d => Some (if (length (df_rows a) =? 0)%nat then d else kind_with_nan d)
    | None, None => None
    end.
Proof.
  unfold concat_columns. rewrite column_kind_app.
  rewrite column_kind_map_eq
    by (intros c; destruct (column_kind (fst c) (df_columns b)); reflexivity).
  destruct (column_kind n (df_columns a)) as [da|] eqn:Ha.
  - cbn [fst snd]. destruct (column_kind n (df_columns b)); reflexivity.
  - rewrite column_kind_map_eq by reflexivity.
    rewrite column_kind_filter_eq by (intros d'; cbn [fst]; now rewrite Ha).
    destruct (column_kind n (df_columns b)); reflexivity.
Qed.

(** What a concatenation does to a cell of a first frame that has rows: it
    leaves the cell alone, or it makes a float of it, and then the column
    is one of floats, which no later concatenation casts again. *)
Lemma concat_cell (n : string) (a b : DataFrame) (v : scalar) :
  df_rows a <> [] ->
  (whole (column_kind n (df_columns a)) = false ->
   whole (column_kind n (concat_columns a b)) = false
   /\ cast_cell (df_columns a) (concat_columns a b) n v = v)
  /\ (cast_cell (df_columns a) (concat_columns a b) n v = v
      \/ (cast_cell (df_columns a) (concat_columns a b) n v = as_float64 v
          /\ whole (column_kind n (concat_columns a b)) = false)).
Proof.
  intros Ha. unfold cast_cell. rewrite column_kind_concat_columns.
  destruct (df_rows a) as [|x xs]; [contradiction|]. cbn [length Nat.eqb].
  destruct (column_kind n (df_columns a)) as [da|], (column_kind n (df_columns b)) as [d|],
           (length (df_rows b) =? 0)%nat;
    try destruct da; try destruct d; destruct v; cbn;
    (split; [intros H; try discriminate H; split; reflexivity
            | (left; reflexivity) || (right; split; reflexivity)]).
Qed.

(** A column of the second frame is a column of the concatenation. *)
Lemma concat_columns_r (n : string) (a b : DataFrame) :
  column_kind n (df_columns b) <> None -> column_kind n (concat_columns a b) <> None.
Proof.
  intros Hb. unfold concat_columns.
  destruct (column_kind n (df_columns a)) as [d|] eqn:Ha.
  - apply column_kind_app_l. apply column_kind_map.
    + intros c. destruct (column_kind (fst c) (df_columns b)); reflexivity.
    + congruence.
  - apply column_kind_app_r. apply column_kind_map; [reflexivity|].
    apply column_kind_filter; [|exact Hb].
    intros d. cbn [fst]. now rewrite Ha.
Qed.

End Pandas.

Export Pandas.

(** ** [campaign.py]: the data the campaign owns *)

Module CampaignData.

(** [SearchSpaceType]. *)
Inductive SearchSpaceType : Type :=
| DISCRETE
| CONTINUOUS
| HYBRID.

(** What the campaign reads of a [baybe.parameters.base.Parameter]. *)
Record BaseParameter : Type := {
  name : string;
  is_numerical : bool
}.

(** What the campaign reads of a [Target]. *)
Record Target : Type := {
  target_name : string
}.

Record Objective : Type := {
  objective_targets : list Target
}.

(** [searchspace.discrete]: the candidates in experimental representation
    and the exclusion defaults, one per candidate. *)
Record SubspaceDiscrete : Type := {
  exp_rep : DataFrame;
  _excluded : list bool
}.

Record SearchSpace : Type := {
  discrete : SubspaceDiscrete;
  type : SearchSpaceType;
  searchspace_parameters : list BaseParameter
}.

(** The metadata columns. *)
Inductive metadata_column : Type :=
| _RECOMMENDED
| _MEASURED
| _EXCLUDED.

(** One row of [_searchspace_metadata]. *)
Record MetadataRow : Type := {
  recommended : bool;
  measured : bool;
  excluded : bool
}.

(** [_searchspace_metadata]: the rows in order, each under its index label. *)
Definition Metadata : Type := list (Z * MetadataRow).

Definition metadata_index (md : Metadata) : list Z := map fst md.

Definition flag (col : metadata_column) (r : MetadataRow) : bool :=
  match col with
  | _RECOMMENDED => recommended r
  | _MEASURED => measured r
  | _EXCLUDED => excluded r
  end.

Definition set_flag (col : metadata_column) (v : bool) (r : MetadataRow) : MetadataRow :=
  match col with
  | _RECOMMENDED => {| recommended := v; measured := measured r; excluded := excluded r |}
  | _MEASURED => {| recommended := recommended r; measured := v; excluded := excluded r |}
  | _EXCLUDED => {| recommended := recommended r; measured := measured r; excluded := v |}
  end.

Definition mem (l : Z) (labels : list Z) : bool := existsb (Z.eqb l) labels.

(** [md.loc[labels, col] = v]: with a list of labels pandas raises [KeyError]
    when one of them is not in the index, and otherwise writes [v] into every
    row under one of the labels. *)
Definition loc_set (labels : list Z) (col : metadata_column) (v : bool) (md : Metadata)
  : outcome Metadata :=
  if forallb (fun l => mem l (metadata_index md)) labels
  then Return (map (fun r => if mem (fst r) labels then (fst r, set_flag col v (snd r)) else r) md)
  else Raise KeyError.

(** Whether some row under label [l] has the flag [col]. *)
Definition flagged (col : metadata_column) (l : Z) (md : Metadata) : bool :=
  existsb (fun r => (fst r =? l) && flag col (snd r)) md.

(** The search space as the recommender sees it during one call:
    [evolve(searchspace, discrete=AnnotatedSubspaceDiscrete.from_subspace(...))]. *)
Record AnnotatedSearchSpace : Type := {
  annotated_searchspace : SearchSpace;
  annotated_metadata : Metadata
}.

(** [RecommenderProtocol], with the two subclass tests that [get_surrogate]
    makes. [R] is the type of recommender objects, [S] the type of
    surrogates. A recommender may change its own state when it recommends:
    the object after the call is returned with the answer. *)
Class RecommenderProtocol (R S : Type) : Type := {
  recommender_recommend :
    R -> Z -> AnnotatedSearchSpace -> option Objective -> DataFrame -> option DataFrame
    -> foreign DataFrame * R;
  isinstance_MetaRecommender : R -> bool;
  get_current_recommender : R -> foreign R;
  isinstance_BayesianRecommender : R -> bool;
  recommender_get_surrogate : R -> SearchSpace -> Objective -> DataFrame -> foreign S
}.

(** The two functions of [baybe.telemetry] that the campaign calls, each
    with what it answers: nothing, or an exception of its own. The dictionary
    [TELEM_LABELS] and [telemetry_record_recommended_measurement_percentage]
    are not defined in these files; a label is named by its key in
    [TELEM_LABELS]. [telemetry_record_value] raises what [strtobool] raises
    for the value of the environment variable that switches telemetry on or
    off (module [Telemetry] below). *)
Class TelemetryFunctions : Type := {
  telemetry_record_value : string -> Z -> foreign unit;
  telemetry_record_recommended_measurement_percentage :
    DataFrame -> DataFrame -> list BaseParameter -> bool -> foreign unit
}.

(** The attributes of a [Campaign]. *)
Record Campaign (R : Type) : Type := {
  searchspace : SearchSpace;
  objective : option Objective;
  recommender : R;
  _searchspace_metadata : Metadata;
  n_batches_done : Z;
  n_fits_done : Z;
  _measurements_exp : DataFrame;
  _cached_recommendation : DataFrame
}.

Arguments searchspace {R} c.
Arguments objective {R} c.
Arguments recommender {R} c.
Arguments _searchspace_metadata {R} c.
Arguments n_batches_done {R} c.
Arguments n_fits_done {R} c.
Arguments _measurements_exp {R} c.
Arguments _cached_recommendation {R} c.

End CampaignData.

Export CampaignData.

(** ** [campaign.py]: the methods *)

Module CampaignMethods.

Section Methods.

(** The recommender objects and the surrogates they produce. *)
Context {R S : Type} {RP : RecommenderProtocol R S}.

(** The telemetry functions. *)
Context {TL : TelemetryFunctions}.

(** Modelled from the spec: [baybe.utils.dataframe.fuzzy_row_match(left,
    right, parameters, flag)] is not defined in these files. It answers the
    index labels of the rows of [left] that some row of [right] matches, and
    a row of [right] that matches nothing is no error. *)
Variable fuzzy_row_match : DataFrame -> DataFrame -> list BaseParameter -> bool -> list Z.

(** [pd.merge(left.reset_index(names="_df_index"), right, how="left",
    indicator=True).set_index("_df_index")]: the left join of pandas, whose
    rows keep the label of the left row they come from and say in the column
    ["_merge"] whether a row of [right] matched (["both"]) or not
    (["left_only"]). It raises when the frames share no column. *)
Variable merge_left_indicator : DataFrame -> DataFrame -> foreign DataFrame.

(** *** The state and the effects of a call

    A call runs in a world made of the campaign object and of the data frame
    objects that the caller and the call itself hold by reference. *)

Record World : Type := {
  self : Campaign R;
  heap : list DataFrame
}.

Definition M (A : Type) : Type := World -> outcome A * World.

Definition ret {A : Type} (a : A) : M A := fun w => (Return a, w).

Definition raise {A : Type} (e : exn) : M A := fun w => (Raise e, w).

Definition bind {A B : Type} (m : M A) (k : A -> M B) : M B :=
  fun w =>
    match m w with
    | (Return a, w') => k a w'
    | (Raise e, w') => (Raise e, w')
    end.

Notation "x <- m ;; k" := (bind m (fun x => k))
  (at level 61, m at next level, right associativity).
Notation "m ;; k" := (bind m (fun _ => k))
  (at level 61, right associativity).

(** [self.attribute]. *)
Definition attr {A : Type} (f : Campaign R -> A) : M A := fun w => (Return (f (self w)), w).

(** [self.attribute = ...]. *)
Definition assign (f : Campaign R -> Campaign R) : M unit :=
  fun w => (Return tt, {| self := f (self w); heap := heap w |}).

(** An outcome computed without effect. *)
Definition lift {A : Type} (o : outcome A) : M A := fun w => (o, w).

Definition when (b : bool) (m : M unit) : M unit := if b then m else ret tt.

Fixpoint for_each {A : Type} (l : list A) (body : A -> M unit) : M unit :=
  match l with
  | [] => ret tt
  | x :: rest => body x ;; for_each rest body
  end.

(** A new data frame object; the reference to it is its place in the heap. *)
Definition new_object (df : DataFrame) : M nat :=
  fun w => (Return (length (heap w)), {| self := self w; heap := heap w ++ [df] |}).

(** The content of the object behind a reference. *)
Definition deref (r : nat) : M DataFrame :=
  fun w => (Return (nth r (heap w) empty_DataFrame), w).

Fixpoint update_nth (r : nat) (f : DataFrame -> DataFrame) (h : list DataFrame) : list DataFrame :=
  match h, r with
  | [], _ => []
  | d :: rest, O => f d :: rest
  | d :: rest, Datatypes.S r' => d :: update_nth r' f rest
  end.

(** A mutation in place of the object behind a reference. *)
Definition mutate (r : nat) (f : DataFrame -> DataFrame) : M unit :=
  fun w => (Return tt, {| self := self w; heap := update_nth r f (heap w) |}).

Definition with_searchspace_metadata (md : Metadata) (c : Campaign R) : Campaign R :=
  {| searchspace := searchspace c; objective := objective c; recommender := recommender c;
     _searchspace_metadata := md;
     n_batches_done := n_batches_done c; n_fits_done := n_fits_done c;
     _measurements_exp := _measurements_exp c;
     _cached_recommendation := _cached_recommendation c |}.

Definition with_n_batches_done (n : Z) (c : Campaign R) : Campaign R :=
  {| searchspace := searchspace c; objective := objective c; recommender := recommender c;
     _searchspace_metadata := _searchspace_metadata c;
     n_batches_done := n; n_fits_done := n_fits_done c;
     _measurements_exp := _measurements_exp c;
     _cached_recommendation := _cached_recommendation c |}.

Definition with_n_fits_done (n : Z) (c : Campaign R) : Campaign R :=
  {| searchspace := searchspace c; objective := objective c; recommender := recommender c;
     _searchspace_metadata := _searchspace_metadata c;
     n_batches_done := n_batches_done c; n_fits_done := n;
     _measurements_exp := _measurements_exp c;
     _cached_recommendation := _cached_recommendation c |}.

Definition with_measurements_exp (df : DataFrame) (c : Campaign R) : Campaign R :=
  {| searchspace := searchspace c; objective := objective c; recommender := recommender c;
     _searchspace_metadata := _searchspace_metadata c;
     n_batches_done := n_batches_done c; n_fits_done := n_fits_done c;
     _measurements_exp := df;
     _cached_recommendation := _cached_recommendation c |}.

Definition with_cached_recommendation (df : DataFrame) (c : Campaign R) : Campaign R :=
  {| searchspace := searchspace c; objective := objective c; recommender := recommender c;
     _searchspace_metadata := _searchspace_metadata c;
     n_batches_done := n_batches_done c; n_fits_done := n_fits_done c;
     _measurements_exp := _measurements_exp c;
     _cached_recommendation := df |}.

Definition with_recommender (r : R) (c : Campaign R) : Campaign R :=
  {| searchspace := searchspace c; objective := objective c; recommender := r;
     _searchspace_metadata := _searchspace_metadata c;
     n_batches_done := n_batches_done c; n_fits_done := n_fits_done c;
     _measurements_exp := _measurements_exp c;
     _cached_recommendation := _cached_recommendation c |}.

(** *** Construction and properties *)

(** [_default_searchspace_metadata]: every flag is false, then the column
    [excluded] takes the exclusion defaults of the discrete subspace, which
    are aligned with its rows. *)
Definition _default_searchspace_metadata (ss : SearchSpace) : Metadata :=
  map (fun il => (snd il,
                  {| recommended := false; measured := false;
                     excluded := nth (fst il) (_excluded (discrete ss)) false |}))
      (combine (seq 0 (length (df_index (exp_rep (discrete ss)))))
               (df_index (exp_rep (discrete ss)))).

(** [Campaign(searchspace, objective, recommender)]. *)
Definition Campaign_init (ss : SearchSpace) (obj : option Objective) (r : R) : Campaign R :=
  {| searchspace := ss; objective := obj; recommender := r;
     _searchspace_metadata := _default_searchspace_metadata ss;
     n_batches_done := 0; n_fits_done := 0;
     _measurements_exp := empty_DataFrame;
     _cached_recommendation := empty_DataFrame |}.

(** The property [measurements]. *)
Definition measurements (c : Campaign R) : DataFrame := _measurements_exp c.

(** The property [parameters]. *)
Definition parameters (c : Campaign R) : list BaseParameter :=
  searchspace_parameters (searchspace c).

(** The property [targets]. *)
Definition targets (c : Campaign R) : list Target :=
  match objective c with
  | Some obj => objective_targets obj
  | None => []
  end.

(** [searchspace.type in (SearchSpaceType.DISCRETE, SearchSpaceType.HYBRID)]. *)
Definition has_discrete_part (c : Campaign R) : bool :=
  match type (searchspace c) with
  | DISCRETE | HYBRID => true
  | CONTINUOUS => false
  end.

(** *** [add_measurements] *)

(** [self._searchspace_metadata.loc[labels, col] = v]. *)
Definition metadata_loc_set (labels : list Z) (col : metadata_column) (v : bool) : M unit :=
  md <- attr _searchspace_metadata ;;
  md' <- lift (loc_set labels col v md) ;;
  assign (with_searchspace_metadata md').

(** [_mark_as_measured]. *)
Definition _mark_as_measured (measurements : nat) (flag_tolerance : bool) : M unit :=
  ss <- attr searchspace ;;
  ps <- attr parameters ;;
  m <- deref measurements ;;
  let idxs_matched := fuzzy_row_match (exp_rep (discrete ss)) m ps flag_tolerance in
  metadata_loc_set idxs_matched _MEASURED true.

(** The body of the loop over the targets. *)
Definition check_target (data : nat) (target : Target) : M unit :=
  d <- deref data ;;
  col <- lift (getitem d (target_name target)) ;;
  if isna_any col then raise (ValueError (MissingTargetValues (target_name target)))
  else
    col' <- lift (getitem d (target_name target)) ;;
    if negb (in_iufb (dtype col'))
    then raise (TypeError (NonNumericTarget (target_name target)))
    else ret tt.

(** The body of the loop over the parameters. *)
Definition check_parameter (data : nat) (param : BaseParameter) : M unit :=
  d <- deref data ;;
  col <- lift (getitem d (name param)) ;;
  if isna_any col then raise (ValueError (MissingParameterValues (name param)))
  else
    if is_numerical param
    then
      col' <- lift (getitem d (name param)) ;;
      if negb (in_iufb (dtype col'))
      then raise (TypeError (NonNumericParameter (name param)))
      else ret tt
    else ret tt.

(** [add_measurements(data, numerical_measurements_must_be_within_tolerance)];
    [data] is the reference to the caller's data frame. *)
Definition add_measurements (data : nat) (flag_tolerance : bool) : M unit :=
  assign (with_cached_recommendation empty_DataFrame) ;;
  ts <- attr targets ;;
  for_each ts (check_target data) ;;
  ps <- attr parameters ;;
  for_each ps (check_parameter data) ;;
  n <- attr n_batches_done ;;
  assign (with_n_batches_done (n + 1)) ;;
  d <- deref data ;;
  to_insert <- new_object (copy d) ;;
  n' <- attr n_batches_done ;;
  mutate to_insert (setitem "BatchNr" (SNum (inject_Z n')) kind_i) ;;
  mutate to_insert (setitem "FitNr" SNaN kind_f) ;;
  log <- attr _measurements_exp ;;
  ti <- deref to_insert ;;
  assign (with_measurements_exp (concat log ti)) ;;
  discrete_part <- attr has_discrete_part ;;
  when discrete_part (_mark_as_measured data flag_tolerance) ;;
  lift (propagate (telemetry_record_value "COUNT_ADD_RESULTS" 1)) ;;
  cached <- attr _cached_recommendation ;;
  d <- deref data ;;
  ps <- attr parameters ;;
  lift (propagate (telemetry_record_recommended_measurement_percentage
                     cached d ps flag_tolerance)).

(** *** [toggle_discrete_candidates] *)

Definition toggle_discrete_candidates (filter_df : DataFrame) (exclude anti dry_run : bool)
  : M DataFrame :=
  ss <- attr searchspace ;;
  let exp_rep := exp_rep (discrete ss) in
  points <- lift (propagate (merge_left_indicator exp_rep filter_df)) ;;
  merge_col <- lift (getitem points "_merge") ;;
  let to_drop := map (fun v => eq_str v (if anti then "both" else "left_only")) (values merge_col) in
  let labels := map fst (filter snd (combine (df_index points) to_drop)) in
  let points := drop_index labels points in
  points <- lift (drop_column "_merge" points) ;;
  when (negb dry_run) (metadata_loc_set (df_index points) _EXCLUDED exclude) ;;
  ret points.

(** *** [recommend] *)

(** [(pending_experiments is not None) and (len(pending_experiments) > 0)]. *)
Definition has_pending (pending_experiments : option DataFrame) : bool :=
  match pending_experiments with
  | Some p => 0 <? len p
  | None => false
  end.

Definition recommend (batch_size : Z) (pending_experiments : option DataFrame) : M DataFrame :=
  if batch_size <? 1 then raise (ValueError (BatchSizeTooSmall batch_size))
  else
    when (has_pending pending_experiments)
         (assign (with_cached_recommendation empty_DataFrame)) ;;
    cached <- attr _cached_recommendation ;;
    if len cached =? batch_size then ret cached
    else
      log <- attr _measurements_exp ;;
      when (0 <? len log)
           (n <- attr n_fits_done ;;
            assign (with_n_fits_done (n + 1)) ;;
            n' <- attr n_fits_done ;;
            log <- attr _measurements_exp ;;
            assign (with_measurements_exp (fillna "FitNr" (SNum (inject_Z n')) log))) ;;
      ss <- attr searchspace ;;
      md <- attr _searchspace_metadata ;;
      let annotated := {| annotated_searchspace := ss; annotated_metadata := md |} in
      r <- attr recommender ;;
      obj <- attr objective ;;
      log <- attr _measurements_exp ;;
      let answer := recommender_recommend r batch_size annotated obj log pending_experiments in
      assign (with_recommender (snd answer)) ;;
      rec <- lift (propagate (fst answer)) ;;
      assign (with_cached_recommendation (copy rec)) ;;
      discrete_part <- attr has_discrete_part ;;
      when discrete_part (metadata_loc_set (df_index rec) _RECOMMENDED true) ;;
      lift (propagate (telemetry_record_value "COUNT_RECOMMEND" 1)) ;;
      lift (propagate (telemetry_record_value "BATCH_SIZE" batch_size)) ;;
      ret rec.

(** *** [get_surrogate] *)

Definition get_surrogate (c : Campaign R) : outcome S :=
  match objective c with
  | None => Raise IncompatibilityError
  | Some obj =>
      match (if isinstance_MetaRecommender (recommender c)
             then propagate (get_current_recommender (recommender c))
             else Return (recommender c)) with
      | Raise e => Raise e
      | Return pure_recommender =>
          if isinstance_BayesianRecommender pure_recommender
          then propagate (recommender_get_surrogate pure_recommender (searchspace c) obj
                                                    (measurements c))
          else Raise RuntimeError
      end
  end.

(** The two exceptions with which the campaign refuses [get_surrogate]. *)
Definition unsupported {A : Type} (o : outcome A) : bool :=
  match o with
  | Raise IncompatibilityError | Raise RuntimeError => true
  | _ => false
  end.

(** *** Calls from outside *)

(** [campaign.recommend(batch_size, pending_experiments)]: the outcome and
    the campaign after the call. *)
Definition call_recommend (batch_size : Z) (pending_experiments : option DataFrame)
           (c : Campaign R) : outcome DataFrame * Campaign R :=
  let r := recommend batch_size pending_experiments {| self := c; heap := [] |} in
  (fst r, self (snd r)).

(** [campaign.add_measurements(data, flag)]: the outcome, the campaign after
    the call, and the caller's object [data] after the call. *)
Definition call_add_measurements (data : DataFrame) (flag_tolerance : bool) (c : Campaign R)
  : outcome unit * Campaign R * DataFrame :=
  let r := add_measurements 0 flag_tolerance {| self := c; heap := [data] |} in
  (fst r, self (snd r), nth 0 (heap (snd r)) empty_DataFrame).

(** [campaign.toggle_discrete_candidates(filter, exclude, anti, dry_run)]. *)
Definition call_toggle_discrete_candidates (filter_df : DataFrame) (exclude anti dry_run : bool)
           (c : Campaign R) : outcome DataFrame * Campaign R :=
  let r := toggle_discrete_candidates filter_df exclude anti dry_run {| self := c; heap := [] |} in
  (fst r, self (snd r)).

(** A call of one of the three methods that change the campaign. *)
Inductive call : Type :=
| Recommend (batch_size : Z) (pending_experiments : option DataFrame)
| AddMeasurements (data : DataFrame) (flag_tolerance : bool)
| ToggleDiscreteCandidates (filter_df : DataFrame) (exclude anti dry_run : bool).

(** The campaign after a call, whether it returned or raised. *)
Definition after (k : call) (c : Campaign R) : Campaign R :=
  match k with
  | Recommend batch_size pending => snd (call_recommend batch_size pending c)
  | AddMeasurements data flag_tolerance => snd (fst (call_add_measurements data flag_tolerance c))
  | ToggleDiscreteCandidates filter_df exclude anti dry_run =>
      snd (call_toggle_discrete_candidates filter_df exclude anti dry_run c)
  end.

(** The campaign after a sequence of calls. *)
Definition after_all (ks : list call) (c : Campaign R) : Campaign R :=
  fold_left (fun c k => after k c) ks c.

(** Whether [recommend] answers from the cache. *)
Definition served_from_cache (batch_size : Z) (pending_experiments : option DataFrame)
           (c : Campaign R) : bool :=
  len (if has_pending pending_experiments then empty_DataFrame else _cached_recommendation c)
  =? batch_size.

(** Whether some row of the log has no fit number yet. *)
Definition has_unfit_row (log : DataFrame) : bool :=
  existsb (fun r => isna (row_get "FitNr" (snd r))) (df_rows log).

(** The metadata has one row per row of [exp_rep], under the same label. *)
Definition aligned (c : Campaign R) : Prop :=
  metadata_index (_searchspace_metadata c) = df_index (exp_rep (discrete (searchspace c))).

(** *** The methods, effect by effect *)

(** The campaign after the bookkeeping of a fit. *)
Definition fit_bookkeeping (c : Campaign R) : Campaign R :=
  if 0 <? len (_measurements_exp c)
  then with_measurements_exp
         (fillna "FitNr" (SNum (inject_Z (n_fits_done c + 1))) (_measurements_exp c))
         (with_n_fits_done (n_fits_done c + 1) c)
  else c.

(** What the caller of [recommend] gets for the batch [rec] once the two
    telemetry calls that end the method were made: the batch, or the
    exception of the first of them that raises. *)
Definition recommend_telemetry (batch_size : Z) (rec : DataFrame) : outcome DataFrame :=
  match telemetry_record_value "COUNT_RECOMMEND" 1 with
  | Fails tag => Raise (External tag)
  | Answer _ =>
      match telemetry_record_value "BATCH_SIZE" batch_size with
      | Fails tag => Raise (External tag)
      | Answer _ => Return rec
      end
  end.

(** The outcome of the two telemetry calls that end [add_measurements]; the
    cache that the second is given was emptied when the method began. *)
Definition add_measurements_telemetry (data : DataFrame) (flag_tolerance : bool)
           (c : Campaign R) : outcome unit :=
  match telemetry_record_value "COUNT_ADD_RESULTS" 1 with
  | Fails tag => Raise (External tag)
  | Answer _ =>
      propagate (telemetry_record_recommended_measurement_percentage
                   empty_DataFrame data (parameters c) flag_tolerance)
  end.

Arguments recommend_telemetry : simpl never.
Arguments add_measurements_telemetry : simpl never.

Lemma recommend_telemetry_cases (batch_size : Z) (rec : DataFrame) :
  (recommend_telemetry batch_size rec = Return rec
   /\ telemetry_record_value "COUNT_RECOMMEND" 1 = Answer tt
   /\ telemetry_record_value "BATCH_SIZE" batch_size = Answer tt)
  \/ exists tag, recommend_telemetry batch_size rec = Raise (External tag)
                 /\ (telemetry_record_value "COUNT_RECOMMEND" 1 = Fails tag
                     \/ telemetry_record_value "BATCH_SIZE" batch_size = Fails tag).
Proof.
  unfold recommend_telemetry.
  destruct (telemetry_record_value "COUNT_RECOMMEND" 1) as [[]|tag]; [|right; eauto].
  destruct (telemetry_record_value "BATCH_SIZE" batch_size) as [[]|tag]; [now left | right; eauto].
Qed.

Lemma recommend_telemetry_Return (batch_size : Z) (rec rec' : DataFrame) :
  recommend_telemetry batch_size rec = Return rec' -> rec' = rec.
Proof.
  destruct (recommend_telemetry_cases batch_size rec) as [[-> _]|[tag [-> _]]];
    [congruence | discriminate].
Qed.

Lemma add_measurements_telemetry_cases (data : DataFrame) (flag_tolerance : bool)
      (c : Campaign R) :
  (add_measurements_telemetry data flag_tolerance c = Return tt
   /\ telemetry_record_value "COUNT_ADD_RESULTS" 1 = Answer tt
   /\ telemetry_record_recommended_measurement_percentage
        empty_DataFrame data (parameters c) flag_tolerance = Answer tt)
  \/ exists tag, add_measurements_telemetry data flag_tolerance c = Raise (External tag)
                 /\ (telemetry_record_value "COUNT_ADD_RESULTS" 1 = Fails tag
                     \/ (telemetry_record_value "COUNT_ADD_RESULTS" 1 = Answer tt
                         /\ telemetry_record_recommended_measurement_percentage
                              empty_DataFrame data (parameters c) flag_tolerance = Fails tag)).
Proof.
  unfold add_measurements_telemetry.
  destruct (telemetry_record_value "COUNT_ADD_RESULTS" 1) as [[]|tag];
    [|right; exists tag; split; [reflexivity | now left]].
  destruct (telemetry_record_recommended_measurement_percentage _ _ _ _) as [[]|tag];
    [now left | right; exists tag; split; [reflexivity | right; now split]].
Qed.

Lemma call_recommend_eq (batch_size : Z) (pending : option DataFrame) (c : Campaign R) :
  call_recommend batch_size pending c =
  if batch_size <? 1 then (Raise (ValueError (BatchSizeTooSmall batch_size)), c)
  else
    let c1 := if has_pending pending then with_cached_recommendation empty_DataFrame c else c in
    if len (_cached_recommendation c1) =? batch_size then (Return (_cached_recommendation c1), c1)
    else
      let c2 := fit_bookkeeping c1 in
      let answer := recommender_recommend
                      (recommender c2) batch_size
                      {| annotated_searchspace := searchspace c2;
                         annotated_metadata := _searchspace_metadata c2 |}
                      (objective c2) (_measurements_exp c2) pending in
      let c3 := with_recommender (snd answer) c2 in
      match fst answer with
      | Fails tag => (Raise (External tag), c3)
      | Answer rec =>
          let c4 := with_cached_recommendation rec c3 in
          if has_discrete_part c4
          then match loc_set (df_index rec) _RECOMMENDED true (_searchspace_metadata c4) with
               | Raise e => (Raise e, c4)
               | Return md => (recommend_telemetry batch_size rec,
                               with_searchspace_metadata md c4)
               end
          else (recommend_telemetry batch_size rec, c4)
      end.
Proof.
  unfold call_recommend, recommend.
  destruct (batch_size <? 1); [reflexivity|].
  unfold bind, when, attr, assign, ret; cbn [self heap fst snd].
  destruct (has_pending pending); cbn [self heap fst snd].
  - destruct (len _ =? batch_size); [reflexivity|].
    unfold fit_bookkeeping.
    destruct (0 <? len _); cbn [self heap fst snd];
      destruct (recommender_recommend _ _ _ _ _ _) as [[rec|tag] r']; cbn; try reflexivity;
      unfold has_discrete_part; cbn;
      unfold metadata_loc_set, bind, attr, assign, lift, ret, recommend_telemetry; cbn;
      destruct (type _); cbn; try reflexivity;
      try (destruct (loc_set _ _ _ _); [|reflexivity]); cbn;
      destruct (telemetry_record_value "COUNT_RECOMMEND" 1); cbn; try reflexivity;
      destruct (telemetry_record_value "BATCH_SIZE" batch_size); reflexivity.
  - destruct (len _ =? batch_size); [reflexivity|].
    unfold fit_bookkeeping.
    destruct (0 <? len _); cbn [self heap fst snd];
      destruct (recommender_recommend _ _ _ _ _ _) as [[rec|tag] r']; cbn; try reflexivity;
      unfold has_discrete_part; cbn;
      unfold metadata_loc_set, bind, attr, assign, lift, ret, recommend_telemetry; cbn;
      destruct (type _); cbn; try reflexivity;
      try (destruct (loc_set _ _ _ _); [|reflexivity]); cbn;
      destruct (telemetry_record_value "COUNT_RECOMMEND" 1); cbn; try reflexivity;
      destruct (telemetry_record_value "BATCH_SIZE" batch_size); reflexivity.
Qed.

(** The outcome of the loop over the targets on the data frame [d]. *)
Fixpoint targets_checked (d : DataFrame) (ts : list Target) : outcome unit :=
  match ts with
  | [] => Return tt
  | t :: rest =>
      match getitem d (target_name t) with
      | Raise e => Raise e
      | Return col =>
          if isna_any col then Raise (ValueError (MissingTargetValues (target_name t)))
          else if negb (in_iufb (dtype col)) then Raise (TypeError (NonNumericTarget (target_name t)))
               else targets_checked d rest
      end
  end.

(** The outcome of the loop over the parameters on the data frame [d]. *)
Fixpoint parameters_checked (d : DataFrame) (ps : list BaseParameter) : outcome unit :=
  match ps with
  | [] => Return tt
  | p :: rest =>
      match getitem d (name p) with
      | Raise e => Raise e
      | Return col =>
          if isna_any col then Raise (ValueError (MissingParameterValues (name p)))
          else if is_numerical p && negb (in_iufb (dtype col))
               then Raise (TypeError (NonNumericParameter (name p)))
               else parameters_checked d rest
      end
  end.

Lemma for_each_check_target (data : nat) (ts : list Target) (w : World) :
  for_each ts (check_target data) w = (targets_checked (nth data (heap w) empty_DataFrame) ts, w).
Proof.
  induction ts as [|t ts IH]; [reflexivity|].
  cbn [for_each targets_checked]. unfold bind at 1. unfold check_target at 1.
  unfold bind, deref, lift, raise, ret; cbn [fst snd].
  destruct (getitem _ (target_name t)) as [col|e]; [|reflexivity].
  destruct (isna_any col); [reflexivity|].
  destruct (negb (in_iufb (dtype col))); [reflexivity|].
  apply IH.
Qed.

Lemma for_each_check_parameter (data : nat) (ps : list BaseParameter) (w : World) :
  for_each ps (check_parameter data) w
  = (parameters_checked (nth data (heap w) empty_DataFrame) ps, w).
Proof.
  induction ps as [|p ps IH]; [reflexivity|].
  cbn [for_each parameters_checked]. unfold bind at 1. unfold check_parameter at 1.
  unfold bind, deref, lift, raise, ret; cbn [fst snd].
  destruct (getitem _ (name p)) as [col|e]; [|reflexivity].
  destruct (isna_any col); [reflexivity|].
  destruct (is_numerical p); cbn [andb].
  - destruct (negb (in_iufb (dtype col))); [reflexivity|]. apply IH.
  - apply IH.
Qed.

(** The rows that [add_measurements] inserts for the batch number [n]. *)
Definition to_insert_of (n : Z) (data : DataFrame) : DataFrame :=
  setitem "FitNr" SNaN kind_f (setitem "BatchNr" (SNum (inject_Z n)) kind_i (copy data)).

Lemma add_measurements_eq (data : DataFrame) (flag_tolerance : bool) (c : Campaign R) :
  add_measurements 0 flag_tolerance {| self := c; heap := [data] |} =
  let c1 := with_cached_recommendation empty_DataFrame c in
  match targets_checked data (targets c1) with
  | Raise e => (Raise e, {| self := c1; heap := [data] |})
  | Return _ =>
      match parameters_checked data (parameters c1) with
      | Raise e => (Raise e, {| self := c1; heap := [data] |})
      | Return _ =>
          let c2 := with_n_batches_done (n_batches_done c1 + 1) c1 in
          let to_insert := to_insert_of (n_batches_done c2) data in
          let c3 := with_measurements_exp (concat (_measurements_exp c2) to_insert) c2 in
          if has_discrete_part c3
          then match loc_set (fuzzy_row_match (exp_rep (discrete (searchspace c3))) data
                                              (parameters c3) flag_tolerance)
                             _MEASURED true (_searchspace_metadata c3) with
               | Raise e => (Raise e, {| self := c3; heap := [data; to_insert] |})
               | Return md => (add_measurements_telemetry data flag_tolerance c,
                               {| self := with_searchspace_metadata md c3;
                                  heap := [data; to_insert] |})
               end
          else (add_measurements_telemetry data flag_tolerance c,
                {| self := c3; heap := [data; to_insert] |})
      end
  end.
Proof.
  unfold add_measurements.
  unfold bind at 1. unfold assign at 1. cbn [fst snd self heap].
  unfold bind at 1. unfold attr at 1. cbn [fst snd self heap].
  unfold bind at 1. rewrite for_each_check_target. cbn [fst snd self heap nth].
  destruct (targets_checked data _) as [[]|e]; [|reflexivity].
  unfold bind at 1. unfold attr at 1. cbn [fst snd self heap].
  unfold bind at 1. rewrite for_each_check_parameter. cbn [fst snd self heap nth].
  destruct (parameters_checked data _) as [[]|e]; [|reflexivity].
  unfold bind, attr, assign, deref, new_object, mutate, when, ret;
    cbn [fst snd self heap nth length update_nth app].
  unfold has_discrete_part. cbn.
  destruct (type (searchspace c)); cbn;
    unfold _mark_as_measured, metadata_loc_set, bind, attr, assign, deref, lift, ret,
           add_measurements_telemetry, parameters; cbn;
    try (destruct (loc_set _ _ _ _); [|reflexivity]); cbn;
    destruct (telemetry_record_value "COUNT_ADD_RESULTS" 1); cbn; try reflexivity;
    destruct (telemetry_record_recommended_measurement_percentage _ _ _ _); reflexivity.
Qed.

Lemma call_add_measurements_eq (data : DataFrame) (flag_tolerance : bool) (c : Campaign R) :
  call_add_measurements data flag_tolerance c =
  let c1 := with_cached_recommendation empty_DataFrame c in
  match targets_checked data (targets c1) with
  | Raise e => (Raise e, c1, data)
  | Return _ =>
      match parameters_checked data (parameters c1) with
      | Raise e => (Raise e, c1, data)
      | Return _ =>
          let c2 := with_n_batches_done (n_batches_done c1 + 1) c1 in
          let c3 := with_measurements_exp
                      (concat (_measurements_exp c2) (to_insert_of (n_batches_done c2) data)) c2 in
          if has_discrete_part c3
          then match loc_set (fuzzy_row_match (exp_rep (discrete (searchspace c3))) data
                                              (parameters c3) flag_tolerance)
                             _MEASURED true (_searchspace_metadata c3) with
               | Raise e => (Raise e, c3, data)
               | Return md => (add_measurements_telemetry data flag_tolerance c,
                               with_searchspace_metadata md c3, data)
               end
          else (add_measurements_telemetry data flag_tolerance c, c3, data)
      end
  end.
Proof.
  unfold call_add_measurements. rewrite add_measurements_eq. cbv zeta.
  destruct (targets_checked data _) as [[]|e]; [|reflexivity].
  destruct (parameters_checked data _) as [[]|e]; [|reflexivity].
  destruct (has_discrete_part _); [|reflexivity].
  destruct (loc_set _ _ _ _); reflexivity.
Qed.

(** The subset that [toggle_discrete_candidates] selects: the outcome of the
    steps before the metadata is touched. *)
Definition selected_points (filter_df : DataFrame) (anti : bool) (c : Campaign R)
  : outcome DataFrame :=
  match propagate (merge_left_indicator (exp_rep (discrete (searchspace c))) filter_df) with
  | Raise e => Raise e
  | Return points =>
      match getitem points "_merge" with
      | Raise e => Raise e
      | Return merge_col =>
          let to_drop := map (fun v => eq_str v (if anti then "both" else "left_only"))
                             (values merge_col) in
          let labels := map fst (filter snd (combine (df_index points) to_drop)) in
          drop_column "_merge" (drop_index labels points)
      end
  end.

Lemma call_toggle_discrete_candidates_eq (filter_df : DataFrame) (exclude anti dry_run : bool)
      (c : Campaign R) :
  call_toggle_discrete_candidates filter_df exclude anti dry_run c =
  match selected_points filter_df anti c with
  | Raise e => (Raise e, c)
  | Return points =>
      if dry_run then (Return points, c)
      else match loc_set (df_index points) _EXCLUDED exclude (_searchspace_metadata c) with
           | Raise e => (Raise e, c)
           | Return md => (Return points, with_searchspace_metadata md c)
           end
  end.
Proof.
  unfold call_toggle_discrete_candidates, toggle_discrete_candidates, selected_points.
  unfold bind, attr, lift, when, ret; cbn [fst snd self heap].
  destruct (propagate _) as [points|e]; [|reflexivity].
  destruct (getitem points "_merge") as [merge_col|e]; [|reflexivity].
  destruct (drop_column _ _) as [points'|e]; [|reflexivity].
  destruct dry_run; cbn; [reflexivity|].
  unfold metadata_loc_set, bind, attr, assign, lift, ret; cbn.
  destruct (loc_set _ _ _ _); reflexivity.
Qed.

(** *** [recommend]: the fit counter and the cache *)

Lemma has_unfit_row_nonempty (log : DataFrame) : has_unfit_row log = true -> 0 < len log.
Proof.
  unfold has_unfit_row, len. destruct (df_rows log); simpl; [discriminate | lia].
Qed.

(** A call that passes the check of [batch_size] and is not answered from
    the cache leaves the fit counter and the log as the bookkeeping of the
    fit made them, whatever the recommender does afterwards. *)
Lemma recommend_not_cached_fields (batch_size : Z) (pending : option DataFrame) (c : Campaign R) :
  1 <= batch_size -> served_from_cache batch_size pending c = false ->
  n_fits_done (snd (call_recommend batch_size pending c)) = n_fits_done (fit_bookkeeping c)
  /\ _measurements_exp (snd (call_recommend batch_size pending c))
     = _measurements_exp (fit_bookkeeping c).
Proof.
  intros Hb Hc. rewrite call_recommend_eq.
  destruct (Z.ltb_spec batch_size 1) as [|_]; [lia|].
  unfold served_from_cache in Hc. cbv zeta.
  assert (Hfit : forall d, fit_bookkeeping (with_cached_recommendation d c)
                           = with_cached_recommendation d (fit_bookkeeping c)).
  { intros d. unfold fit_bookkeeping. cbn. destruct (0 <? len _); reflexivity. }
  destruct (has_pending pending).
  - cbn [_cached_recommendation with_cached_recommendation]. rewrite Hc. rewrite Hfit.
    destruct (fst (recommender_recommend _ _ _ _ _ _)) as [rec|tag]; [|split; reflexivity].
    destruct (has_discrete_part _); [|split; reflexivity].
    destruct (loc_set _ _ _ _); split; reflexivity.
  - rewrite Hc.
    destruct (fst (recommender_recommend _ _ _ _ _ _)) as [rec|tag]; [|split; reflexivity].
    destruct (has_discrete_part _); [|split; reflexivity].
    destruct (loc_set _ _ _ _); split; reflexivity.
Qed.

Lemma fillna_no_unfit_row (n : Z) (log : DataFrame) :
  column_kind "FitNr" (df_columns log) <> None ->
  has_unfit_row (fillna "FitNr" (SNum (inject_Z n)) log) = false.
Proof.
  unfold fillna, has_unfit_row. destruct (column_kind _ _); [intros _|congruence].
  cbn [df_rows]. induction (df_rows log) as [|r rows IH]; [reflexivity|].
  cbn [map existsb]. rewrite IH, orb_false_r.
  destruct (isna (row_get "FitNr" (snd r))) eqn:E; [|exact E].
  cbn [snd]. now rewrite row_get_row_set_same.
Qed.

(** C1 (as the code has it): a [recommend] call that passes the check of
    [batch_size] and is not answered from the cache increments [n_fits_done]
    if and only if the measurement log has at least one row, with or without
    a fit number; it then gives the new fit number to the rows of the log
    whose [FitNr] is missing ([fillna]) and leaves the other rows alone, so
    that no row of a log with a [FitNr] column is left without number. A log
    with a row whose [FitNr] is missing is not empty, so such a row always
    triggers the increment. This holds whether the recommender answers or
    raises. *)
Theorem recommend_fit_accounting (batch_size : Z) (pending : option DataFrame) (c : Campaign R) :
  1 <= batch_size -> served_from_cache batch_size pending c = false ->
  let c' := after (Recommend batch_size pending) c in
  let log := _measurements_exp c in
  (n_fits_done c' = n_fits_done c + 1 <-> 0 < len log)
  /\ (n_fits_done c' = n_fits_done c <-> len log = 0)
  /\ _measurements_exp c'
     = (if 0 <? len log then fillna "FitNr" (SNum (inject_Z (n_fits_done c + 1))) log else log)
  /\ (has_unfit_row log = true -> n_fits_done c' = n_fits_done c + 1)
  /\ (column_kind "FitNr" (df_columns log) <> None ->
      has_unfit_row (_measurements_exp c') = false).
Proof.
  intros Hb Hc. cbn [after]. cbv zeta.
  destruct (recommend_not_cached_fields batch_size pending c Hb Hc) as [-> ->].
  unfold fit_bookkeeping.
  assert (Hlen : 0 <= len (_measurements_exp c)) by (unfold len; lia).
  destruct (Z.ltb_spec 0 (len (_measurements_exp c))) as [Hpos|Hzero]; cbn.
  - split; [split; intros; [assumption | reflexivity]|].
    split; [split; intros; lia|].
    split; [reflexivity|].
    split; [reflexivity|]. apply fillna_no_unfit_row.
  - split; [split; intros; lia|].
    split; [split; intros; [lia | reflexivity]|].
    split; [reflexivity|].
    split.
    + intros H. apply has_unfit_row_nonempty in H. lia.
    + intros _. unfold has_unfit_row. unfold len in Hzero.
      destruct (df_rows (_measurements_exp c)); [reflexivity | cbn in Hzero; lia].
Qed.

(** A call that is not answered from the cache returns what the recommender
    answers for the metadata of the campaign. *)
Lemma recommend_not_cached_delegates (batch_size : Z) (pending : option DataFrame)
      (c : Campaign R) (rec : DataFrame) :
  served_from_cache batch_size pending c = false ->
  fst (call_recommend batch_size pending c) = Return rec ->
  exists log,
    fst (recommender_recommend
           (recommender c) batch_size
           {| annotated_searchspace := searchspace c;
              annotated_metadata := _searchspace_metadata c |}
           (objective c) log pending) = Answer rec.
Proof.
  intros Hc. rewrite call_recommend_eq.
  destruct (batch_size <? 1); [discriminate|]. cbv zeta.
  unfold served_from_cache in Hc.
  destruct (has_pending pending);
    cbn [_cached_recommendation with_cached_recommendation] in *; rewrite Hc;
    unfold fit_bookkeeping, has_discrete_part; cbn;
    destruct (0 <? len _); cbn;
    (destruct (recommender_recommend _ _ _ _ _ _) as [[rec'|tag] r'] eqn:Hans; cbn;
     [|discriminate]);
    intros H; eexists; rewrite Hans; cbn;
    (destruct (type (searchspace c)); cbn in H;
     [destruct (loc_set _ _ _ _); [|discriminate]| |destruct (loc_set _ _ _ _); [|discriminate]]);
    cbn in H; apply recommend_telemetry_Return in H; subst; reflexivity.
Qed.

Lemma recommend_cache_hit (batch_size : Z) (pending : option DataFrame) (c : Campaign R) :
  1 <= batch_size -> has_pending pending = false ->
  len (_cached_recommendation c) = batch_size ->
  call_recommend batch_size pending c = (Return (_cached_recommendation c), c).
Proof.
  intros Hb Hp Hlen. rewrite call_recommend_eq.
  destruct (Z.ltb_spec batch_size 1) as [|_]; [lia|].
  rewrite Hp. cbv zeta. rewrite Hlen, Z.eqb_refl. reflexivity.
Qed.

Lemma recommend_Return_cached (batch_size : Z) (pending : option DataFrame) (c c' : Campaign R)
      (rec : DataFrame) :
  call_recommend batch_size pending c = (Return rec, c') -> _cached_recommendation c' = rec.
Proof.
  rewrite call_recommend_eq.
  destruct (batch_size <? 1); [discriminate|]. cbv zeta.
  destruct (len _ =? batch_size).
  - intros [= <- <-]. reflexivity.
  - destruct (fst (recommender_recommend _ _ _ _ _ _)) as [rec'|tag]; [|discriminate].
    destruct (has_discrete_part _).
    + destruct (loc_set _ _ _ _); [|discriminate]. intros [= H <-].
      apply recommend_telemetry_Return in H. now subst.
    + intros [= H <-]. apply recommend_telemetry_Return in H. now subst.
Qed.

(** C2: when [recommend(batch_size)] has returned a batch of [batch_size]
    rows (which is what a recommender owes), the same call made again at
    once, without pending experiments, returns an equal batch and leaves the
    whole campaign as it was: the counters, the log with its [FitNr] column,
    the metadata, the cache and the recommender. *)
Theorem recommend_twice_is_idempotent (batch_size : Z) (pending pending' : option DataFrame)
        (c c1 : Campaign R) (rec : DataFrame) :
  1 <= batch_size ->
  has_pending pending' = false ->
  call_recommend batch_size pending c = (Return rec, c1) ->
  len rec = batch_size ->
  call_recommend batch_size pending' c1 = (Return rec, c1).
Proof.
  intros Hb Hp Hfirst Hlen.
  pose proof (recommend_Return_cached _ _ _ _ _ Hfirst) as Hcache.
  subst rec. now apply recommend_cache_hit.
Qed.

(** *** [add_measurements] *)

(** A target column that passes the loop over the targets: present, without
    missing value, of a numeric kind. *)
Definition target_ok (d : DataFrame) (t : Target) : bool :=
  match getitem d (target_name t) with
  | Return col => negb (isna_any col) && in_iufb (dtype col)
  | Raise _ => false
  end.

(** A parameter column that passes the loop over the parameters. *)
Definition parameter_ok (d : DataFrame) (p : BaseParameter) : bool :=
  match getitem d (name p) with
  | Return col => negb (isna_any col) && (negb (is_numerical p) || in_iufb (dtype col))
  | Raise _ => false
  end.

(** The exception [e] is the one that the column of target [t] in [d]
    calls for: [KeyError] when there is no such column, the [ValueError] of
    [t] when the column has a missing value, and the [TypeError] of [t] when
    the column is complete and not numeric. *)
Definition offence (d : DataFrame) (t : Target) (e : exn) : Prop :=
  (column_kind (target_name t) (df_columns d) = None /\ e = KeyError)
  \/ (exists col, getitem d (target_name t) = Return col /\ isna_any col = true
                  /\ e = ValueError (MissingTargetValues (target_name t)))
  \/ (exists col, getitem d (target_name t) = Return col /\ isna_any col = false
                  /\ in_iufb (dtype col) = false
                  /\ e = TypeError (NonNumericTarget (target_name t))).

Lemma targets_checked_ok (d : DataFrame) (ts : list Target) :
  forallb (target_ok d) ts = true -> targets_checked d ts = Return tt.
Proof.
  induction ts as [|t ts IH]; [reflexivity|].
  cbn [forallb targets_checked]. unfold target_ok at 1.
  destruct (getitem d (target_name t)) as [col|e]; [|discriminate].
  destruct (isna_any col); [discriminate|].
  destruct (in_iufb (dtype col)); [|discriminate]. exact IH.
Qed.

Lemma parameters_checked_ok (d : DataFrame) (ps : list BaseParameter) :
  forallb (parameter_ok d) ps = true -> parameters_checked d ps = Return tt.
Proof.
  induction ps as [|p ps IH]; [reflexivity|].
  cbn [forallb parameters_checked]. unfold parameter_ok at 1.
  destruct (getitem d (name p)) as [col|e]; [|discriminate].
  destruct (isna_any col); [discriminate|].
  destruct (is_numerical p), (in_iufb (dtype col)); try discriminate; exact IH.
Qed.

(** The loop over the targets raises for the first target whose column does
    not pass, and what it raises is the offence of that target. *)
Lemma targets_checked_missing (d : DataFrame) (ts : list Target) (t : Target) (col : Series) :
  In t ts -> getitem d (target_name t) = Return col -> isna_any col = true ->
  exists pre u post e,
    ts = pre ++ u :: post
    /\ forallb (target_ok d) pre = true
    /\ target_ok d u = false
    /\ targets_checked d ts = Raise e
    /\ offence d u e.
Proof.
  intros Hin Hcol Hna. induction ts as [|u ts IH]; [destruct Hin|].
  cbn [targets_checked].
  destruct (target_ok d u) eqn:Hok.
  - unfold target_ok in Hok.
    destruct (getitem d (target_name u)) as [ucol|e] eqn:Hu; [|discriminate].
    apply andb_prop in Hok as [Hn Hk]. apply negb_true_iff in Hn. rewrite Hn, Hk. cbn [negb].
    destruct Hin as [->|Hin]; [congruence|].
    destruct (IH Hin) as (pre & v & post & e & -> & Hpre & Hv & Hraise & Hoff).
    exists (u :: pre), v, post, e. split; [reflexivity|].
    split; [cbn [forallb]; unfold target_ok at 1; now rewrite Hu, Hn, Hk|].
    repeat split; assumption.
  - exists [], u, ts. pose proof Hok as Hok'. unfold target_ok in Hok. unfold offence.
    destruct (getitem d (target_name u)) as [ucol|e] eqn:Hu.
    + destruct (isna_any ucol) eqn:Huna.
      * eexists. split; [reflexivity|]. split; [reflexivity|]. split; [exact Hok'|].
        split; [reflexivity|]. right. left. now exists ucol.
      * cbn [negb andb] in Hok. rewrite Hok. cbn [negb].
        eexists. split; [reflexivity|]. split; [reflexivity|]. split; [exact Hok'|].
        split; [reflexivity|]. right. right. now exists ucol.
    + exists e. split; [reflexivity|]. split; [reflexivity|]. split; [exact Hok'|].
      split; [reflexivity|]. left.
      unfold getitem in Hu. destruct (column_kind _ _); [discriminate|]. split; congruence.
Qed.

Lemma targets_checked_first (d : DataFrame) (pre post : list Target) (t : Target) (col : Series) :
  forallb (target_ok d) pre = true ->
  getitem d (target_name t) = Return col -> isna_any col = true ->
  targets_checked d (pre ++ t :: post) = Raise (ValueError (MissingTargetValues (target_name t))).
Proof.
  intros Hpre Hcol Hna. induction pre as [|u pre IH]; cbn [app targets_checked].
  - now rewrite Hcol, Hna.
  - cbn [forallb] in Hpre. apply andb_prop in Hpre as [Hu Hpre].
    unfold target_ok in Hu.
    destruct (getitem d (target_name u)) as [ucol|e]; [|discriminate].
    destruct (isna_any ucol); [discriminate|].
    destruct (in_iufb (dtype ucol)); [|discriminate]. now apply IH.
Qed.

(** C3 (as the code has it): when the column of some target has a missing
    value, [add_measurements] raises before anything but the cache has
    changed: the log, [n_batches_done] and the metadata are those of before,
    the cache is empty, and the caller's data frame is untouched. The
    exception is the one of the first target [u], in the order of the
    objective, whose column does not pass: every target before [u] has a
    column that is present, complete and numeric, and the exception is
    [KeyError] when the column of [u] is absent, the missing-value
    [ValueError] of [u] when it has a missing value, and the [TypeError] of
    [u] when it is complete and not numeric. In particular it is the
    missing-value [ValueError] of target [t] when every target before [t]
    has a column that passes. *)
Theorem add_measurements_missing_target_value (data : DataFrame) (flag_tolerance : bool)
        (c : Campaign R) (t : Target) (col : Series) :
  In t (targets c) -> getitem data (target_name t) = Return col -> isna_any col = true ->
  (exists pre u post e,
      targets c = pre ++ u :: post
      /\ forallb (target_ok data) pre = true
      /\ target_ok data u = false
      /\ call_add_measurements data flag_tolerance c
         = (Raise e, with_cached_recommendation empty_DataFrame c, data)
      /\ offence data u e)
  /\ (forall pre post, targets c = pre ++ t :: post -> forallb (target_ok data) pre = true ->
                       call_add_measurements data flag_tolerance c
                       = (Raise (ValueError (MissingTargetValues (target_name t))),
                          with_cached_recommendation empty_DataFrame c, data)).
Proof.
  intros Hin Hcol Hna. split.
  - destruct (targets_checked_missing data (targets c) t col Hin Hcol Hna)
      as (pre & u & post & e & Hts & Hpre & Hu & He & Hoff).
    exists pre, u, post, e. repeat split; try assumption.
    rewrite call_add_measurements_eq. cbv zeta.
    change (targets (with_cached_recommendation empty_DataFrame c)) with (targets c).
    now rewrite He.
  - intros pre post Hts Hpre.
    rewrite call_add_measurements_eq. cbv zeta.
    change (targets (with_cached_recommendation empty_DataFrame c)) with (targets c).
    rewrite Hts. now rewrite (targets_checked_first data pre post t col Hpre Hcol Hna).
Qed.

(** *** Rows of the log *)

Lemma map_snd_combine {A B : Type} (l : list A) (l' : list B) :
  length l = length l' -> map snd (combine l l') = l'.
Proof.
  revert l'. induction l as [|a l IH]; intros [|b l'] H; simpl in *; try discriminate; [reflexivity|].
  f_equal. apply IH. lia.
Qed.

Lemma map_snd_reset_index (rows : list (Z * Row)) : map snd (reset_index rows) = map snd rows.
Proof.
  unfold reset_index. apply map_snd_combine. now rewrite !length_map, length_seq.
Qed.

Lemma length_reset_index (rows : list (Z * Row)) : length (reset_index rows) = length rows.
Proof.
  rewrite <- (length_map snd (reset_index rows)), map_snd_reset_index. apply length_map.
Qed.

Lemma mem_In (l : Z) (labels : list Z) : mem l labels = true <-> In l labels.
Proof.
  unfold mem. rewrite existsb_exists. split.
  - intros [x [Hx E]]. apply Z.eqb_eq in E. now subst.
  - intros H. exists l. split; [assumption | apply Z.eqb_refl].
Qed.

Lemma loc_set_Return (labels : list Z) (col : metadata_column) (v : bool) (md : Metadata) :
  (forall l, In l labels -> In l (metadata_index md)) ->
  loc_set labels col v md
  = Return (map (fun r => if mem (fst r) labels then (fst r, set_flag col v (snd r)) else r) md).
Proof.
  intros H. unfold loc_set.
  assert (forallb (fun l => mem l (metadata_index md)) labels = true) as ->; [|reflexivity].
  apply forallb_forall. intros l Hl. apply mem_In. now apply H.
Qed.

(** The log is empty, or has its bookkeeping columns with the dtypes that
    [add_measurements] gives them: whole numbers for [BatchNr], floats for
    [FitNr]. *)
Definition log_typed (c : Campaign R) : Prop :=
  df_rows (_measurements_exp c) = []
  \/ (column_kind "BatchNr" (df_columns (_measurements_exp c)) = Some kind_i
      /\ column_kind "FitNr" (df_columns (_measurements_exp c)) = Some kind_f).

Lemma to_insert_of_kinds (n : Z) (data : DataFrame) :
  column_kind "BatchNr" (df_columns (to_insert_of n data)) = Some kind_i
  /\ column_kind "FitNr" (df_columns (to_insert_of n data)) = Some kind_f
  /\ forall k, k <> "BatchNr"%string -> k <> "FitNr"%string ->
               column_kind k (df_columns (to_insert_of n data)) = column_kind k (df_columns data).
Proof.
  unfold to_insert_of, setitem, copy. cbn [df_columns]. split; [|split].
  - rewrite column_kind_column_set_other by discriminate. apply column_kind_column_set_same.
  - apply column_kind_column_set_same.
  - intros k Hb Hf. rewrite !column_kind_column_set_other by congruence. reflexivity.
Qed.

Lemma length_to_insert_of (n : Z) (data : DataFrame) :
  length (df_rows (to_insert_of n data)) = length (df_rows data).
Proof. unfold to_insert_of, setitem, copy. cbn [df_rows]. now rewrite !length_map. Qed.

(** The bookkeeping columns keep their dtypes when a batch goes into a log
    that has them. *)
Lemma concat_log_kinds (log data : DataFrame) (n : Z) :
  (df_rows log = []
   \/ (column_kind "BatchNr" (df_columns log) = Some kind_i
       /\ column_kind "FitNr" (df_columns log) = Some kind_f)) ->
  (df_rows log = [] /\ df_rows data = [])
  \/ (column_kind "BatchNr" (concat_columns log (to_insert_of n data)) = Some kind_i
      /\ column_kind "FitNr" (concat_columns log (to_insert_of n data)) = Some kind_f).
Proof.
  intros Hlog. destruct (to_insert_of_kinds n data) as (HB & HF & _).
  rewrite (concat_columns_kind _ _ _ _ HB), (concat_columns_kind _ _ _ _ HF).
  rewrite length_to_insert_of.
  destruct (df_rows log) as [|r rows] eqn:Hr.
  - destruct (df_rows data) as [|x xs]; [now left|]. right. cbn.
    destruct (column_kind "BatchNr" (df_columns log)), (column_kind "FitNr" (df_columns log));
      split; reflexivity.
  - destruct Hlog as [Hlog|[-> ->]]; [discriminate|]. right. cbn.
    destruct (df_rows data); split; reflexivity.
Qed.

Lemma rows_concat (a b : DataFrame) :
  map snd (df_rows (concat a b))
  = map (cast_row (df_columns a) (concat_columns a b)) (map snd (df_rows a))
    ++ map (cast_row (df_columns b) (concat_columns a b)) (map snd (df_rows b)).
Proof.
  unfold concat. cbn [df_rows]. rewrite map_snd_reset_index, map_app, !map_map. reflexivity.
Qed.

Lemma len_concat (a b : DataFrame) : len (concat a b) = len a + len b.
Proof.
  unfold concat, len. cbn [df_rows].
  rewrite length_reset_index, length_app, !length_map. lia.
Qed.

(** The row that [add_measurements] makes of a submitted row for the batch
    number [n]. *)
Definition stamped (n : Z) (r : Row) : Row :=
  row_set "FitNr" SNaN (row_set "BatchNr" (SNum (inject_Z n)) r).

Lemma rows_to_insert_of (n : Z) (data : DataFrame) :
  map snd (df_rows (to_insert_of n data)) = map (fun r => stamped n (snd r)) (df_rows data).
Proof. unfold to_insert_of, setitem, copy. cbn [df_rows]. now rewrite !map_map. Qed.

(** The cells of a stamped row once it stands in a log whose bookkeeping
    columns have their dtypes. *)
Lemma stamped_cells (n : Z) (data : DataFrame) (columns : list (string * dtype_kind)) (r : Row) :
  column_kind "BatchNr" columns = Some kind_i ->
  row_get "BatchNr" (cast_row (df_columns (to_insert_of n data)) columns (stamped n r))
  = SNum (inject_Z n)
  /\ row_get "FitNr" (cast_row (df_columns (to_insert_of n data)) columns (stamped n r)) = SNaN
  /\ forall k, k <> "BatchNr"%string -> k <> "FitNr"%string ->
               row_get k (cast_row (df_columns (to_insert_of n data)) columns (stamped n r))
               = cast_cell (df_columns data) columns k (row_get k r).
Proof.
  intros HB. destruct (to_insert_of_kinds n data) as (TB & TF & TK).
  rewrite !row_get_cast_row. unfold stamped. split; [|split].
  - rewrite row_get_row_set_other by discriminate. rewrite row_get_row_set_same.
    unfold cast_cell. now rewrite TB, HB.
  - rewrite row_get_row_set_same. unfold cast_cell. rewrite TF.
    destruct (column_kind "FitNr" columns); [apply astype_SNaN | reflexivity].
  - intros k Hb Hf. rewrite row_get_cast_row, !row_get_row_set_other by congruence.
    unfold cast_cell. now rewrite TK.
Qed.

(** C4 (as the code has it): when every target column and every parameter
    column of [data] is present and valid, [add_measurements] has, when it
    is left, counted one more batch and put [len(data)] more rows into the
    log: the submitted rows in their order, after the rows the log had, each
    with the new value of the counter as [BatchNr], a missing [FitNr], and
    its other cells as submitted, cast to the dtype that the column has in
    the log. The method ends with two telemetry calls. It returns when both
    answer; when one of them raises, its exception leaves the method, and
    the batch stays counted and logged. The metadata is assumed to be
    aligned with the candidates, the bookkeeping columns of the log to have
    their dtypes, and the matcher to answer labels of candidates, as they do
    in every campaign that was constructed. *)
Theorem add_measurements_appends_batch (data : DataFrame) (flag_tolerance : bool)
        (c : Campaign R) :
  forallb (target_ok data) (targets c) = true ->
  forallb (parameter_ok data) (parameters c) = true ->
  aligned c -> log_typed c ->
  (forall l, In l (fuzzy_row_match (exp_rep (discrete (searchspace c))) data (parameters c)
                                   flag_tolerance) ->
             In l (df_index (exp_rep (discrete (searchspace c))))) ->
  let outcome_of_call := fst (fst (call_add_measurements data flag_tolerance c)) in
  let c' := snd (fst (call_add_measurements data flag_tolerance c)) in
  let n := n_batches_done c + 1 in
  let columns := df_columns (_measurements_exp c') in
  let appended := fun r : Row => cast_row (df_columns (to_insert_of n data)) columns (stamped n r) in
  (telemetry_record_value "COUNT_ADD_RESULTS" 1 = Answer tt ->
   telemetry_record_recommended_measurement_percentage
     empty_DataFrame data (parameters c) flag_tolerance = Answer tt ->
   outcome_of_call = Return tt)
  /\ (forall tag, telemetry_record_value "COUNT_ADD_RESULTS" 1 = Fails tag ->
                  outcome_of_call = Raise (External tag))
  /\ (forall tag, telemetry_record_value "COUNT_ADD_RESULTS" 1 = Answer tt ->
                  telemetry_record_recommended_measurement_percentage
                    empty_DataFrame data (parameters c) flag_tolerance = Fails tag ->
                  outcome_of_call = Raise (External tag))
  /\ n_batches_done c' = n
  /\ len (_measurements_exp c') = len (_measurements_exp c) + len data
  /\ map snd (df_rows (_measurements_exp c'))
     = map (cast_row (df_columns (_measurements_exp c)) columns)
           (map snd (df_rows (_measurements_exp c)))
       ++ map (fun r => appended (snd r)) (df_rows data)
  /\ (forall r, In r (df_rows data) ->
                row_get "BatchNr" (appended (snd r)) = SNum (inject_Z n)
                /\ row_get "FitNr" (appended (snd r)) = SNaN
                /\ forall k, k <> "BatchNr"%string -> k <> "FitNr"%string ->
                              row_get k (appended (snd r))
                              = cast_cell (df_columns data) columns k (row_get k (snd r))).
Proof.
  intros Hts Hps Hal Hty Hfz. cbv zeta.
  rewrite call_add_measurements_eq. cbv zeta.
  change (targets (with_cached_recommendation empty_DataFrame c)) with (targets c).
  change (parameters (with_cached_recommendation empty_DataFrame c)) with (parameters c).
  rewrite (targets_checked_ok _ _ Hts), (parameters_checked_ok _ _ Hps).
  set (c3 := with_measurements_exp _ _).
  set (log' := concat (_measurements_exp c) (to_insert_of (n_batches_done c + 1) data)).
  assert (Hlog3 : _measurements_exp c3 = log') by reflexivity.
  assert (Hn3 : n_batches_done c3 = n_batches_done c + 1) by reflexivity.
  assert (Hloc : has_discrete_part c3 = true ->
                 exists md, loc_set (fuzzy_row_match (exp_rep (discrete (searchspace c3))) data
                                                     (parameters c3) flag_tolerance)
                                    _MEASURED true (_searchspace_metadata c3) = Return md).
  { intros _. eexists. apply loc_set_Return. intros l Hl.
    change (In l (metadata_index (_searchspace_metadata c))). rewrite Hal. now apply Hfz. }
  clearbody c3.
  assert (Hcall : exists c',
             (if has_discrete_part c3
              then match loc_set (fuzzy_row_match (exp_rep (discrete (searchspace c3))) data
                                                  (parameters c3) flag_tolerance)
                                 _MEASURED true (_searchspace_metadata c3) with
                   | Raise e => (Raise e, c3, data)
                   | Return md => (add_measurements_telemetry data flag_tolerance c,
                                   with_searchspace_metadata md c3, data)
                   end
              else (add_measurements_telemetry data flag_tolerance c, c3, data))
             = (add_measurements_telemetry data flag_tolerance c, c', data)
             /\ n_batches_done c' = n_batches_done c + 1
             /\ _measurements_exp c' = log').
  { destruct (has_discrete_part c3) eqn:Hd.
    - destruct (Hloc eq_refl) as [md ->]. eexists. split; [reflexivity|].
      split; [exact Hn3 | exact Hlog3].
    - eexists. split; [reflexivity|]. split; [exact Hn3 | exact Hlog3]. }
  destruct Hcall as (c' & -> & Hn & Hlog). cbn [fst snd]. rewrite Hlog.
  assert (Hrows : map snd (df_rows log')
                  = map (cast_row (df_columns (_measurements_exp c)) (df_columns log'))
                        (map snd (df_rows (_measurements_exp c)))
                    ++ map (fun r => cast_row (df_columns (to_insert_of (n_batches_done c + 1) data))
                                              (df_columns log')
                                              (stamped (n_batches_done c + 1) (snd r)))
                           (df_rows data)).
  { subst log'. rewrite rows_concat, rows_to_insert_of. f_equal. now rewrite map_map. }
  destruct (add_measurements_telemetry_cases data flag_tolerance c) as [(E & E1 & E2)|(tag & E & Ht)].
  all: rewrite E.
  all: split; [|split; [|split; [|split; [exact Hn|split; [|split; [exact Hrows|]]]]]].
  all: try (intros; congruence).
  all: try (unfold len; rewrite <- (length_map snd (df_rows log')), Hrows;
            rewrite length_app, !length_map; lia).
  all: try (intros r Hr; apply stamped_cells;
            destruct (concat_log_kinds (_measurements_exp c) data (n_batches_done c + 1) Hty)
              as [[_ Hnil]|[HB _]]; [rewrite Hnil in Hr; destruct Hr | exact HB]).
  - intros H1 H2. destruct Ht as [Ht|[_ Ht]]; congruence.
  - intros tag' H1. destruct Ht as [Ht|[Ht _]]; congruence.
  - intros tag' H1 H2. destruct Ht as [Ht|[_ Ht]]; congruence.
Qed.

(** C5 (what the code does): [add_measurements] works on a copy,
    [to_insert = data.copy()], and gives the columns [BatchNr] and [FitNr] to
    the copy; the caller's data frame is after the call what it was before,
    whether the call returns or raises. *)
Theorem add_measurements_leaves_data_untouched (data : DataFrame) (flag_tolerance : bool)
        (c : Campaign R) :
  snd (call_add_measurements data flag_tolerance c) = data.
Proof.
  rewrite call_add_measurements_eq. cbv zeta.
  destruct (targets_checked data _) as [[]|e]; [|reflexivity].
  destruct (parameters_checked data _) as [[]|e]; [|reflexivity].
  destruct (has_discrete_part _); [|reflexivity].
  destruct (loc_set _ _ _ _); reflexivity.
Qed.

(** *** The metadata flags *)

Definition column_eqb (a b : metadata_column) : bool :=
  match a, b with
  | _RECOMMENDED, _RECOMMENDED | _MEASURED, _MEASURED | _EXCLUDED, _EXCLUDED => true
  | _, _ => false
  end.

Lemma flag_set_flag (col col' : metadata_column) (v : bool) (r : MetadataRow) :
  flag col' (set_flag col v r) = if column_eqb col col' then v else flag col' r.
Proof. destruct col, col'; reflexivity. Qed.

Lemma loc_set_inv (labels : list Z) (col : metadata_column) (v : bool) (md md' : Metadata) :
  loc_set labels col v md = Return md' ->
  md' = map (fun r => if mem (fst r) labels then (fst r, set_flag col v (snd r)) else r) md.
Proof. unfold loc_set. destruct (forallb _ _); [congruence | discriminate]. Qed.

Lemma loc_set_index (labels : list Z) (col : metadata_column) (v : bool) (md md' : Metadata) :
  loc_set labels col v md = Return md' -> metadata_index md' = metadata_index md.
Proof.
  intros H. apply loc_set_inv in H as ->. unfold metadata_index. rewrite map_map.
  apply map_ext. intros r. now destruct (mem (fst r) labels).
Qed.

(** A flag that is up after [loc_set] was up before, or was just written. *)
Lemma flagged_loc_set_inv (labels : list Z) (col col' : metadata_column) (v : bool)
      (md md' : Metadata) (l : Z) :
  loc_set labels col v md = Return md' -> flagged col' l md' = true ->
  flagged col' l md = true \/ (col' = col /\ v = true /\ In l labels).
Proof.
  intros H. apply loc_set_inv in H as ->. unfold flagged.
  rewrite !existsb_exists. intros [x [Hx Hf]].
  apply in_map_iff in Hx as [r [<- Hr]].
  destruct (mem (fst r) labels) eqn:Hm; cbn [fst snd] in Hf.
  - apply andb_prop in Hf as [Hl Hf]. rewrite flag_set_flag in Hf.
    destruct (column_eqb col col') eqn:Hc.
    + right. apply Z.eqb_eq in Hl. subst. repeat split.
      * destruct col, col'; try discriminate; reflexivity.
      * apply mem_In. assumption.
    + left. exists r. split; [assumption|]. now rewrite Hl, Hf.
  - left. exists r. now split.
Qed.

(** A flag outlives [loc_set] on another column and [loc_set] of [True]. *)
Lemma flagged_loc_set_keeps (labels : list Z) (col col' : metadata_column) (v : bool)
      (md md' : Metadata) (l : Z) :
  loc_set labels col v md = Return md' -> column_eqb col col' = false \/ v = true ->
  flagged col' l md = true -> flagged col' l md' = true.
Proof.
  intros H Hv. apply loc_set_inv in H as ->. unfold flagged.
  rewrite !existsb_exists. intros [r [Hr Hf]].
  exists (if mem (fst r) labels then (fst r, set_flag col v (snd r)) else r). split.
  - apply in_map_iff. now exists r.
  - destruct (mem (fst r) labels); [|assumption]. cbn [fst snd].
    apply andb_prop in Hf as [Hl Hf]. rewrite Hl, flag_set_flag. cbn.
    destruct (column_eqb col col'); [|assumption].
    destruct Hv as [Hv|Hv]; [discriminate | assumption].
Qed.

(** What the recommender is asked in a call that is not answered from the
    cache, in terms of the campaign before the call. *)
Lemma recommender_asked (batch_size : Z) (pending : option DataFrame) (c : Campaign R) :
  recommender_recommend
    (recommender (fit_bookkeeping (if has_pending pending
                                   then with_cached_recommendation empty_DataFrame c else c)))
    batch_size
    {| annotated_searchspace :=
         searchspace (fit_bookkeeping (if has_pending pending
                                       then with_cached_recommendation empty_DataFrame c else c));
       annotated_metadata :=
         _searchspace_metadata
           (fit_bookkeeping (if has_pending pending
                             then with_cached_recommendation empty_DataFrame c else c)) |}
    (objective (fit_bookkeeping (if has_pending pending
                                 then with_cached_recommendation empty_DataFrame c else c)))
    (_measurements_exp (fit_bookkeeping (if has_pending pending
                                         then with_cached_recommendation empty_DataFrame c
                                         else c)))
    pending
  = recommender_recommend
      (recommender c) batch_size
      {| annotated_searchspace := searchspace c;
         annotated_metadata := _searchspace_metadata c |}
      (objective c) (_measurements_exp (fit_bookkeeping c)) pending.
Proof.
  destruct (has_pending pending); unfold fit_bookkeeping; cbn;
    destruct (0 <? len _); reflexivity.
Qed.

(** What a call does to the metadata: nothing, or one [loc_set]. A
    [recommend] that writes was not answered from the cache: it writes to
    the candidates of the batch that the recommender answered, which it has
    cached, and its caller gets that batch or the exception of a telemetry
    call. *)
Lemma after_metadata (k : call) (c : Campaign R) :
  _searchspace_metadata (after k c) = _searchspace_metadata c
  \/ (exists batch_size pending rec,
         k = Recommend batch_size pending
         /\ served_from_cache batch_size pending c = false
         /\ fst (recommender_recommend
                   (recommender c) batch_size
                   {| annotated_searchspace := searchspace c;
                      annotated_metadata := _searchspace_metadata c |}
                   (objective c) (_measurements_exp (fit_bookkeeping c)) pending) = Answer rec
         /\ fst (call_recommend batch_size pending c) = recommend_telemetry batch_size rec
         /\ _cached_recommendation (after k c) = rec
         /\ loc_set (df_index rec) _RECOMMENDED true (_searchspace_metadata c)
            = Return (_searchspace_metadata (after k c)))
  \/ (exists data flag_tolerance,
         k = AddMeasurements data flag_tolerance
         /\ loc_set (fuzzy_row_match (exp_rep (discrete (searchspace c))) data (parameters c)
                                     flag_tolerance)
                    _MEASURED true (_searchspace_metadata c)
            = Return (_searchspace_metadata (after k c)))
  \/ (exists filter_df exclude anti points,
         k = ToggleDiscreteCandidates filter_df exclude anti false
         /\ loc_set (df_index points) _EXCLUDED exclude (_searchspace_metadata c)
            = Return (_searchspace_metadata (after k c))).
Proof.
  destruct k as [batch_size pending|data flag_tolerance|filter_df exclude anti dry_run];
    cbn [after].
  - destruct (call_recommend batch_size pending c) as [o c'] eqn:Hcall. cbn [snd].
    pose proof Hcall as Hcall0. rewrite call_recommend_eq in Hcall.
    destruct (batch_size <? 1); [injection Hcall as <- <-; now left|]. cbv zeta in Hcall.
    rewrite (recommender_asked batch_size pending c) in Hcall.
    assert (Hfit : forall x, _searchspace_metadata (fit_bookkeeping x) = _searchspace_metadata x).
    { intros x. unfold fit_bookkeeping. destruct (0 <? len _); reflexivity. }
    set (c1 := if has_pending pending then _ else c) in Hcall.
    assert (Hc1 : _searchspace_metadata c1 = _searchspace_metadata c)
      by (subst c1; destruct (has_pending pending); reflexivity).
    destruct (len (_cached_recommendation c1) =? batch_size) eqn:Hcache;
      [injection Hcall as <- <-; now left|].
    assert (Hserved : served_from_cache batch_size pending c = false).
    { unfold served_from_cache. subst c1. destruct (has_pending pending); exact Hcache. }
    destruct (fst (recommender_recommend _ _ _ _ _ _)) as [rec|tag] eqn:Hans;
      [|injection Hcall as <- <-; left; cbn; now rewrite Hfit].
    destruct (has_discrete_part _); [|injection Hcall as <- <-; left; cbn; now rewrite Hfit].
    destruct (loc_set _ _ _ _) as [md|e] eqn:Hloc;
      [|injection Hcall as <- <-; left; cbn; now rewrite Hfit].
    injection Hcall as <- <-.
    right. left. exists batch_size, pending, rec. split; [reflexivity|].
    split; [exact Hserved|]. split; [exact Hans|].
    split; [now rewrite Hcall0|]. split; [reflexivity|].
    cbn in Hloc |- *. rewrite Hfit, Hc1 in Hloc. exact Hloc.
  - rewrite call_add_measurements_eq. cbv zeta.
    destruct (targets_checked data _) as [[]|e]; [|now left].
    destruct (parameters_checked data _) as [[]|e]; [|now left].
    destruct (has_discrete_part _); [|now left].
    destruct (loc_set _ _ _ _) as [md|e] eqn:Hloc; [|now left].
    right. right. left. exists data, flag_tolerance. split; [reflexivity|]. exact Hloc.
  - rewrite call_toggle_discrete_candidates_eq.
    destruct (selected_points filter_df anti c) as [points|e]; [|now left].
    destruct dry_run; [now left|].
    destruct (loc_set _ _ _ _) as [md|e] eqn:Hloc; [|now left].
    right. right. right. exists filter_df, exclude, anti, points. split; [reflexivity|]. exact Hloc.
Qed.

(** One call never lowers [recommended] or [measured]. *)
Lemma after_keeps_flag (k : call) (c : Campaign R) (col : metadata_column) (l : Z) :
  column_eqb _EXCLUDED col = false ->
  flagged col l (_searchspace_metadata c) = true ->
  flagged col l (_searchspace_metadata (after k c)) = true.
Proof.
  intros Hcol Hf.
  destruct (after_metadata k c) as [->|[H|[H|H]]]; [assumption| | |].
  - destruct H as (bs & p & rec & _ & _ & _ & _ & _ & Hloc).
    eapply flagged_loc_set_keeps; [exact Hloc | now right | assumption].
  - destruct H as (data & fl & _ & Hloc).
    eapply flagged_loc_set_keeps; [exact Hloc | now right | assumption].
  - destruct H as (F & e & a & points & _ & Hloc).
    eapply flagged_loc_set_keeps; [exact Hloc | now left | assumption].
Qed.

Lemma after_all_keeps_flag (ks : list call) (c : Campaign R) (col : metadata_column) (l : Z) :
  column_eqb _EXCLUDED col = false ->
  flagged col l (_searchspace_metadata c) = true ->
  flagged col l (_searchspace_metadata (after_all ks c)) = true.
Proof.
  intros Hcol. revert c. induction ks as [|k ks IH]; intros c Hf; [exact Hf|].
  cbn [after_all fold_left]. apply IH. now apply after_keeps_flag.
Qed.

(** C6 (as the code has it): over every sequence of [recommend],
    [add_measurements] and [toggle_discrete_candidates] calls, a candidate
    whose [measured] flag is up keeps it, and so for [recommended]; a call
    that raises [measured] is an [add_measurements] whose fuzzy matching
    answered the candidate; and a call that raises [recommended] is a
    [recommend] that was not answered from the cache and whose recommender
    answered a batch with the candidate in it. That batch is cached. It is
    also what the call returns, unless one of the two telemetry calls that
    end the method raises: then the call raises that exception, after the
    flag was raised. *)
Theorem flags_only_rise (ks : list call) (c : Campaign R) (l : Z) :
  (flagged _MEASURED l (_searchspace_metadata c) = true ->
   flagged _MEASURED l (_searchspace_metadata (after_all ks c)) = true)
  /\ (flagged _RECOMMENDED l (_searchspace_metadata c) = true ->
      flagged _RECOMMENDED l (_searchspace_metadata (after_all ks c)) = true)
  /\ (forall k, flagged _MEASURED l (_searchspace_metadata c) = false ->
                flagged _MEASURED l (_searchspace_metadata (after k c)) = true ->
                exists data flag_tolerance,
                  k = AddMeasurements data flag_tolerance
                  /\ In l (fuzzy_row_match (exp_rep (discrete (searchspace c))) data
                                           (parameters c) flag_tolerance))
  /\ (forall k, flagged _RECOMMENDED l (_searchspace_metadata c) = false ->
                flagged _RECOMMENDED l (_searchspace_metadata (after k c)) = true ->
                exists batch_size pending rec,
                  k = Recommend batch_size pending
                  /\ served_from_cache batch_size pending c = false
                  /\ fst (recommender_recommend
                            (recommender c) batch_size
                            {| annotated_searchspace := searchspace c;
                               annotated_metadata := _searchspace_metadata c |}
                            (objective c) (_measurements_exp (fit_bookkeeping c)) pending)
                     = Answer rec
                  /\ In l (df_index rec)
                  /\ _cached_recommendation (after k c) = rec
                  /\ (fst (call_recommend batch_size pending c) = Return rec
                      \/ exists tag,
                          fst (call_recommend batch_size pending c) = Raise (External tag)
                          /\ (telemetry_record_value "COUNT_RECOMMEND" 1 = Fails tag
                              \/ telemetry_record_value "BATCH_SIZE" batch_size = Fails tag))).
Proof.
  split; [now apply after_all_keeps_flag|].
  split; [now apply after_all_keeps_flag|].
  split.
  - intros k H0 H1.
    destruct (after_metadata k c) as [E|[H|[H|H]]].
    + rewrite E in H1. congruence.
    + destruct H as (bs & p & rec & _ & _ & _ & _ & _ & Hloc).
      destruct (flagged_loc_set_inv _ _ _ _ _ _ l Hloc H1) as [H|[H _]]; [congruence | discriminate].
    + destruct H as (data & fl & -> & Hloc).
      destruct (flagged_loc_set_inv _ _ _ _ _ _ l Hloc H1) as [H|[_ [_ H]]]; [congruence|].
      now exists data, fl.
    + destruct H as (F & e & a & points & _ & Hloc).
      destruct (flagged_loc_set_inv _ _ _ _ _ _ l Hloc H1) as [H|[H _]]; [congruence | discriminate].
  - intros k H0 H1.
    destruct (after_metadata k c) as [E|[H|[H|H]]].
    + rewrite E in H1. congruence.
    + destruct H as (bs & p & rec & -> & Hserved & Hans & Hret & Hcache & Hloc).
      destruct (flagged_loc_set_inv _ _ _ _ _ _ l Hloc H1) as [H|[_ [_ H]]]; [congruence|].
      exists bs, p, rec. repeat (split; [assumption || reflexivity|]).
      rewrite Hret.
      destruct (recommend_telemetry_cases bs rec) as [[-> _]|[tag [-> Ht]]];
        [now left | right; now exists tag].
    + destruct H as (data & fl & _ & Hloc).
      destruct (flagged_loc_set_inv _ _ _ _ _ _ l Hloc H1) as [H|[H _]]; [congruence | discriminate].
    + destruct H as (F & e & a & points & _ & Hloc).
      destruct (flagged_loc_set_inv _ _ _ _ _ _ l Hloc H1) as [H|[H _]]; [congruence | discriminate].
Qed.

(** *** [toggle_discrete_candidates] *)

Lemma selected_points_index (filter_df : DataFrame) (anti : bool) (c : Campaign R)
      (points : DataFrame) :
  selected_points filter_df anti c = Return points ->
  exists m, merge_left_indicator (exp_rep (discrete (searchspace c))) filter_df = Answer m
            /\ incl (df_index points) (df_index m).
Proof.
  unfold selected_points.
  destruct (merge_left_indicator _ _) as [m|tag]; [|discriminate]. cbn [propagate].
  destruct (getitem m "_merge") as [merge_col|e]; [|discriminate].
  unfold drop_column. cbn [df_columns drop_index].
  destruct (column_kind _ _); [|discriminate].
  intros [= <-]. exists m. split; [reflexivity|].
  unfold df_index. cbn [df_rows]. rewrite map_map. cbn [fst].
  intros l Hl. apply in_map_iff in Hl as [r [<- Hr]].
  apply filter_In in Hr as [Hr _]. now apply in_map.
Qed.

(** C9: with [dry_run=True], [toggle_discrete_candidates] returns the subset
    that the same call with [dry_run=False] returns and writes to, and leaves
    the campaign, the [excluded] column with it, as it was; with
    [dry_run=False] the rows of the metadata under a label of the subset get
    [excluded = exclude] and nothing else changes. The subset is returned in
    both cases, and a call that raises with one value of [dry_run] raises
    with the other. The metadata is assumed to be aligned with the
    candidates and the join to keep the labels of the candidates, as they do
    in every campaign that was constructed. *)
Theorem toggle_dry_run_previews (filter_df : DataFrame) (exclude anti : bool) (c : Campaign R) :
  aligned c ->
  (forall m, merge_left_indicator (exp_rep (discrete (searchspace c))) filter_df = Answer m ->
             incl (df_index m) (df_index (exp_rep (discrete (searchspace c))))) ->
  let dry := call_toggle_discrete_candidates filter_df exclude anti true c in
  let wet := call_toggle_discrete_candidates filter_df exclude anti false c in
  snd dry = c
  /\ fst wet = fst dry
  /\ (forall points, fst dry = Return points ->
                     snd wet
                     = with_searchspace_metadata
                         (map (fun r => if mem (fst r) (df_index points)
                                        then (fst r, set_flag _EXCLUDED exclude (snd r)) else r)
                              (_searchspace_metadata c)) c)
  /\ (forall e, fst dry = Raise e -> snd wet = c).
Proof.
  intros Hal Hmerge. cbv zeta. rewrite !call_toggle_discrete_candidates_eq.
  destruct (selected_points filter_df anti c) as [points|e] eqn:Hsel.
  - destruct (selected_points_index _ _ _ _ Hsel) as [m [Hm Hincl]].
    rewrite loc_set_Return.
    + cbn [fst snd]. repeat split; try reflexivity.
      * intros points' [= <-]. reflexivity.
      * intros e [=].
    + intros l Hl. unfold aligned in Hal. rewrite Hal. apply (Hmerge m Hm). now apply Hincl.
  - cbn [fst snd]. repeat split; try reflexivity. intros points [=].
Qed.

(** *** [get_surrogate] *)

(** C8: let [pure_recommender] be the recommender in use, which is what
    [get_current_recommender] answers when the recommender of the campaign
    is a meta recommender, and that recommender itself otherwise; and, when
    it is a [BayesianRecommender], let its own [get_surrogate] answer
    [surrogate] for the search space, the objective and the whole
    measurement log of the campaign. Then [get_surrogate] raises
    [IncompatibilityError] when there is no objective, raises
    [RuntimeError] when there is one and [pure_recommender] is no
    [BayesianRecommender], and returns [surrogate] in every other case: it
    refuses in these two cases and in no other. *)
Theorem get_surrogate_unsupported_cases (c : Campaign R) (pure_recommender : R) (surrogate : S) :
  (if isinstance_MetaRecommender (recommender c)
   then get_current_recommender (recommender c) = Answer pure_recommender
   else pure_recommender = recommender c) ->
  (forall obj, objective c = Some obj ->
               isinstance_BayesianRecommender pure_recommender = true ->
               recommender_get_surrogate pure_recommender (searchspace c) obj
                                         (_measurements_exp c) = Answer surrogate) ->
  (objective c = None -> get_surrogate c = Raise IncompatibilityError)
  /\ (objective c <> None -> isinstance_BayesianRecommender pure_recommender = false ->
      get_surrogate c = Raise RuntimeError)
  /\ (objective c <> None -> isinstance_BayesianRecommender pure_recommender = true ->
      get_surrogate c = Return surrogate)
  /\ (unsupported (get_surrogate c) = true
      <-> objective c = None \/ isinstance_BayesianRecommender pure_recommender = false).
Proof.
  intros Hpure Hfit. unfold get_surrogate, measurements.
  destruct (objective c) as [obj|].
  - specialize (Hfit obj eq_refl).
    assert (E : (if isinstance_MetaRecommender (recommender c)
                 then propagate (get_current_recommender (recommender c))
                 else Return (recommender c)) = Return pure_recommender).
    { destruct (isinstance_MetaRecommender (recommender c)); [now rewrite Hpure | now subst]. }
    rewrite E.
    destruct (isinstance_BayesianRecommender pure_recommender);
      [rewrite (Hfit eq_refl); cbn [propagate]|]; cbn [unsupported].
    + split; [discriminate|]. split; [discriminate|]. split; [reflexivity|].
      split; [discriminate | intros [H|H]; discriminate].
    + split; [discriminate|]. split; [reflexivity|]. split; [discriminate|].
      split; [now right | reflexivity].
  - split; [reflexivity|]. split; [congruence|]. split; [congruence|].
    split; [now left | reflexivity].
Qed.

(** What [get_surrogate] does with the exceptions of its collaborators: it
    lets them pass. *)
Lemma get_surrogate_propagates (c : Campaign R) (obj : Objective) (tag : nat) :
  objective c = Some obj ->
  (isinstance_MetaRecommender (recommender c) = true ->
   get_current_recommender (recommender c) = Fails tag ->
   get_surrogate c = Raise (External tag))
  /\ (forall pure_recommender,
        (if isinstance_MetaRecommender (recommender c)
         then get_current_recommender (recommender c) = Answer pure_recommender
         else pure_recommender = recommender c) ->
        isinstance_BayesianRecommender pure_recommender = true ->
        recommender_get_surrogate pure_recommender (searchspace c) obj (_measurements_exp c)
        = Fails tag ->
        get_surrogate c = Raise (External tag)).
Proof.
  intros Hobj. unfold get_surrogate, measurements. rewrite Hobj. split.
  - intros -> ->. reflexivity.
  - intros pr Hpure Hb Hfit.
    destruct (isinstance_MetaRecommender (recommender c)); [rewrite Hpure | subst pr];
      cbn [propagate]; now rewrite Hb, Hfit.
Qed.

(** *** The campaigns that calls can reach *)

Lemma aligned_init (ss : SearchSpace) (obj : option Objective) (r : R) :
  aligned (Campaign_init ss obj r).
Proof.
  unfold aligned, Campaign_init, _default_searchspace_metadata, metadata_index.
  cbn [_searchspace_metadata searchspace]. rewrite map_map. cbn [fst].
  apply map_snd_combine. now rewrite length_seq.
Qed.

Lemma after_searchspace (k : call) (c : Campaign R) : searchspace (after k c) = searchspace c.
Proof.
  destruct k as [batch_size pending|data flag_tolerance|filter_df exclude anti dry_run];
    cbn [after].
  - rewrite call_recommend_eq.
    destruct (batch_size <? 1); [reflexivity|]. cbv zeta.
    assert (Hfit : forall x, searchspace (fit_bookkeeping x) = searchspace x).
    { intros x. unfold fit_bookkeeping. destruct (0 <? len _); reflexivity. }
    destruct (len _ =? batch_size); [destruct (has_pending pending); reflexivity|].
    destruct (fst (recommender_recommend _ _ _ _ _ _));
      [destruct (has_discrete_part _); [destruct (loc_set _ _ _ _)|]|];
      cbn; rewrite Hfit; destruct (has_pending pending); reflexivity.
  - rewrite call_add_measurements_eq. cbv zeta.
    destruct (targets_checked data _) as [[]|e]; [|reflexivity].
    destruct (parameters_checked data _) as [[]|e]; [|reflexivity].
    destruct (has_discrete_part _); [|reflexivity].
    destruct (loc_set _ _ _ _); reflexivity.
  - rewrite call_toggle_discrete_candidates_eq.
    destruct (selected_points filter_df anti c); [|reflexivity].
    destruct dry_run; [reflexivity|].
    destruct (loc_set _ _ _ _); reflexivity.
Qed.

(** No call adds, removes or relabels a row of the metadata. *)
Lemma aligned_after (k : call) (c : Campaign R) : aligned c -> aligned (after k c).
Proof.
  unfold aligned. intros Hal. rewrite after_searchspace, <- Hal.
  destruct (after_metadata k c) as [->|[H|[H|H]]]; [reflexivity| | |].
  - destruct H as (bs & p & rec & _ & _ & _ & _ & _ & Hloc).
    exact (loc_set_index _ _ _ _ _ Hloc).
  - destruct H as (data & fl & _ & Hloc). exact (loc_set_index _ _ _ _ _ Hloc).
  - destruct H as (F & e & a & points & _ & Hloc). exact (loc_set_index _ _ _ _ _ Hloc).
Qed.

(** Every campaign that was constructed and then called has its metadata
    aligned with its candidates. *)
Lemma aligned_after_all (ks : list call) (ss : SearchSpace) (obj : option Objective) (r : R) :
  aligned (after_all ks (Campaign_init ss obj r)).
Proof.
  unfold after_all.
  generalize (aligned_init ss obj r). generalize (Campaign_init ss obj r).
  induction ks as [|k ks IH]; intros c Hal; [exact Hal|].
  cbn [fold_left]. apply IH. now apply aligned_after.
Qed.

(** The log is empty or has the column [FitNr]. *)
Definition log_ready (c : Campaign R) : Prop :=
  df_rows (_measurements_exp c) = []
  \/ column_kind "FitNr" (df_columns (_measurements_exp c)) <> None.

Lemma log_ready_fit_bookkeeping (c : Campaign R) : log_ready c -> log_ready (fit_bookkeeping c).
Proof.
  unfold log_ready, fit_bookkeeping. intros H.
  destruct (0 <? len _); [|exact H]. cbn. unfold fillna.
  destruct (column_kind "FitNr" _) eqn:E; [right; cbn; congruence|].
  destruct H as [H|H]; [now left | congruence].
Qed.

Lemma log_ready_after (k : call) (c : Campaign R) : log_ready c -> log_ready (after k c).
Proof.
  intros H.
  destruct k as [batch_size pending|data flag_tolerance|filter_df exclude anti dry_run];
    cbn [after].
  - rewrite call_recommend_eq.
    destruct (batch_size <? 1); [exact H|]. cbv zeta.
    set (c1 := if has_pending pending then _ else c).
    assert (H1 : log_ready c1) by (subst c1; destruct (has_pending pending); exact H).
    apply log_ready_fit_bookkeeping in H1.
    destruct (len _ =? batch_size);
      [subst c1; destruct (has_pending pending); exact H|].
    destruct (fst (recommender_recommend _ _ _ _ _ _)); [|exact H1].
    destruct (has_discrete_part _); [|exact H1].
    destruct (loc_set _ _ _ _); exact H1.
  - rewrite call_add_measurements_eq. cbv zeta.
    destruct (targets_checked data _) as [[]|e]; [|exact H].
    destruct (parameters_checked data _) as [[]|e]; [|exact H].
    assert (H3 : forall md : option Metadata,
               log_ready
                 (with_measurements_exp
                    (concat (_measurements_exp c)
                            (to_insert_of (n_batches_done c + 1) data))
                    (with_n_batches_done (n_batches_done c + 1)
                                         (with_cached_recommendation empty_DataFrame c)))).
    { intros _. right. cbn. apply concat_columns_r. unfold to_insert_of, setitem.
      cbn [df_columns]. rewrite column_kind_column_set_same. congruence. }
    destruct (has_discrete_part _); [|exact (H3 None)].
    destruct (loc_set _ _ _ _); exact (H3 None).
  - rewrite call_toggle_discrete_candidates_eq.
    destruct (selected_points filter_df anti c); [|exact H].
    destruct dry_run; [exact H|].
    destruct (loc_set _ _ _ _); exact H.
Qed.

(** In every campaign that was constructed and then called, a log with rows
    has the column [FitNr]. *)
Lemma log_ready_after_all (ks : list call) (ss : SearchSpace) (obj : option Objective) (r : R) :
  log_ready (after_all ks (Campaign_init ss obj r)).
Proof.
  unfold after_all.
  assert (H0 : log_ready (Campaign_init ss obj r)) by (left; reflexivity).
  revert H0. generalize (Campaign_init ss obj r).
  induction ks as [|k ks IH]; intros c H; [exact H|].
  cbn [fold_left]. apply IH. now apply log_ready_after.
Qed.

(** *** More on the writes to the metadata *)

(** What a flag is after [loc_set]: the value written, for a label that was
    written to and is in the index; the flag of before otherwise. *)
Lemma flagged_loc_set_eq (labels : list Z) (col col' : metadata_column) (v : bool)
      (md md' : Metadata) (l : Z) :
  loc_set labels col v md = Return md' ->
  flagged col' l md'
  = if column_eqb col col' && mem l labels
    then v && mem l (metadata_index md)
    else flagged col' l md.
Proof.
  intros H. apply loc_set_inv in H as ->. unfold flagged, metadata_index.
  induction md as [|[k x] md IH]; cbn [map existsb fst snd].
  - destruct (column_eqb col col' && mem l labels), v; reflexivity.
  - rewrite IH. clear IH.
    change (mem l (k :: map fst md)) with ((l =? k) || mem l (map fst md)).
    rewrite (Z.eqb_sym l k).
    generalize (existsb (fun r0 : Z * MetadataRow => (fst r0 =? l) && flag col' (snd r0)) md).
    generalize (mem l (map fst md)). intros b1 b2.
    destruct (Z.eqb_spec k l) as [->|Hne].
    + destruct (mem l labels) eqn:Hm; cbn [fst snd]; rewrite Z.eqb_refl, ?flag_set_flag;
        destruct (column_eqb col col'), v, (flag col' x), b1, b2; reflexivity.
    + apply Z.eqb_neq in Hne.
      destruct (mem k labels); cbn [fst snd]; rewrite Hne;
        destruct (column_eqb col col'), (mem l labels), v, b1, b2; reflexivity.
Qed.

Lemma loc_set_Return_inv (labels : list Z) (col : metadata_column) (v : bool)
      (md md' : Metadata) (l : Z) :
  loc_set labels col v md = Return md' -> In l labels -> mem l (metadata_index md) = true.
Proof.
  unfold loc_set. destruct (forallb _ labels) eqn:E; [|discriminate].
  intros _ Hl. rewrite forallb_forall in E. now apply E.
Qed.

(** *** [add_measurements]: validation and marking *)

Lemma targets_checked_Return (d : DataFrame) (ts : list Target) :
  targets_checked d ts = Return tt -> forallb (target_ok d) ts = true.
Proof.
  induction ts as [|t ts IH]; [reflexivity|].
  cbn [forallb targets_checked]. unfold target_ok at 1.
  destruct (getitem d (target_name t)) as [col|e]; [|discriminate].
  destruct (isna_any col); [discriminate|].
  destruct (in_iufb (dtype col)); [|discriminate]. exact IH.
Qed.

Lemma parameters_checked_Return (d : DataFrame) (ps : list BaseParameter) :
  parameters_checked d ps = Return tt -> forallb (parameter_ok d) ps = true.
Proof.
  induction ps as [|p ps IH]; [reflexivity|].
  cbn [forallb parameters_checked]. unfold parameter_ok at 1.
  destruct (getitem d (name p)) as [col|e]; [|discriminate].
  destruct (isna_any col); [discriminate|].
  destruct (is_numerical p), (in_iufb (dtype col)); try discriminate; exact IH.
Qed.

(** With aligned metadata and a matcher that answers labels of candidates,
    [add_measurements] returns exactly when every target column and every
    parameter column of the data passes its check and the two telemetry
    calls that end the method answer. *)
Theorem add_measurements_succeeds_iff_valid (data : DataFrame) (flag_tolerance : bool)
        (c : Campaign R) :
  aligned c ->
  (forall l, In l (fuzzy_row_match (exp_rep (discrete (searchspace c))) data (parameters c)
                                   flag_tolerance) ->
             In l (df_index (exp_rep (discrete (searchspace c))))) ->
  fst (fst (call_add_measurements data flag_tolerance c)) = Return tt
  <-> forallb (target_ok data) (targets c) = true
      /\ forallb (parameter_ok data) (parameters c) = true
      /\ telemetry_record_value "COUNT_ADD_RESULTS" 1 = Answer tt
      /\ telemetry_record_recommended_measurement_percentage
           empty_DataFrame data (parameters c) flag_tolerance = Answer tt.
Proof.
  intros Hal Hfz. rewrite call_add_measurements_eq. cbv zeta.
  change (targets (with_cached_recommendation empty_DataFrame c)) with (targets c).
  change (parameters (with_cached_recommendation empty_DataFrame c)) with (parameters c).
  set (c3 := with_measurements_exp _ _).
  assert (Hloc : exists md,
             loc_set (fuzzy_row_match (exp_rep (discrete (searchspace c3))) data
                                      (parameters c3) flag_tolerance)
                     _MEASURED true (_searchspace_metadata c3) = Return md).
  { eexists. apply loc_set_Return. intros l Hl.
    change (In l (metadata_index (_searchspace_metadata c))). rewrite Hal. now apply Hfz. }
  destruct Hloc as [md Hloc]. clearbody c3. split.
  - destruct (targets_checked data (targets c)) as [[]|e] eqn:Ht; [|discriminate].
    destruct (parameters_checked data (parameters c)) as [[]|e] eqn:Hp; [|discriminate].
    intros H.
    assert (Htel : add_measurements_telemetry data flag_tolerance c = Return tt).
    { destruct (has_discrete_part c3); [rewrite Hloc in H|]; exact H. }
    split; [now apply targets_checked_Return|]. split; [now apply parameters_checked_Return|].
    destruct (add_measurements_telemetry_cases data flag_tolerance c)
      as [(_ & E1 & E2)|(tag & E & _)]; [now split | congruence].
  - intros (Ht & Hp & E1 & E2).
    rewrite (targets_checked_ok _ _ Ht), (parameters_checked_ok _ _ Hp).
    assert (Htel : add_measurements_telemetry data flag_tolerance c = Return tt).
    { unfold add_measurements_telemetry. now rewrite E1, E2. }
    destruct (has_discrete_part c3); [rewrite Hloc|]; exact Htel.
Qed.

(** With aligned metadata and a matcher that answers labels of candidates,
    an [add_measurements] that raises has done nothing or everything.
    Either some column of the data did not pass its check: then nothing but
    the cache has changed, which is empty, and the counters, the log, the
    metadata and the recommender are those of before. Or every column
    passed and the exception is that of one of the two telemetry calls that
    end the method: then the batch is counted and logged as if the call had
    returned. The caller's data frame is untouched in both cases. *)
Theorem add_measurements_raises_early_or_late (data : DataFrame) (flag_tolerance : bool)
        (c : Campaign R) (e : exn) :
  aligned c ->
  (forall l, In l (fuzzy_row_match (exp_rep (discrete (searchspace c))) data (parameters c)
                                   flag_tolerance) ->
             In l (df_index (exp_rep (discrete (searchspace c))))) ->
  fst (fst (call_add_measurements data flag_tolerance c)) = Raise e ->
  (forallb (target_ok data) (targets c) && forallb (parameter_ok data) (parameters c) = false
   /\ call_add_measurements data flag_tolerance c
      = (Raise e, with_cached_recommendation empty_DataFrame c, data))
  \/ (forallb (target_ok data) (targets c) && forallb (parameter_ok data) (parameters c) = true
      /\ (exists tag,
             e = External tag
             /\ (telemetry_record_value "COUNT_ADD_RESULTS" 1 = Fails tag
                 \/ (telemetry_record_value "COUNT_ADD_RESULTS" 1 = Answer tt
                     /\ telemetry_record_recommended_measurement_percentage
                          empty_DataFrame data (parameters c) flag_tolerance = Fails tag)))
      /\ n_batches_done (snd (fst (call_add_measurements data flag_tolerance c)))
         = n_batches_done c + 1
      /\ len (_measurements_exp (snd (fst (call_add_measurements data flag_tolerance c))))
         = len (_measurements_exp c) + len data
      /\ snd (call_add_measurements data flag_tolerance c) = data).
Proof.
  intros Hal Hfz. rewrite call_add_measurements_eq. cbv zeta.
  change (targets (with_cached_recommendation empty_DataFrame c)) with (targets c).
  change (parameters (with_cached_recommendation empty_DataFrame c)) with (parameters c).
  set (c3 := with_measurements_exp _ _).
  assert (Hloc : exists md,
             loc_set (fuzzy_row_match (exp_rep (discrete (searchspace c3))) data
                                      (parameters c3) flag_tolerance)
                     _MEASURED true (_searchspace_metadata c3) = Return md).
  { eexists. apply loc_set_Return. intros l Hl.
    change (In l (metadata_index (_searchspace_metadata c))). rewrite Hal. now apply Hfz. }
  destruct Hloc as [md Hloc].
  assert (Hn3 : n_batches_done c3 = n_batches_done c + 1) by reflexivity.
  assert (Hlen3 : len (_measurements_exp c3) = len (_measurements_exp c) + len data).
  { subst c3. cbn [_measurements_exp with_measurements_exp]. rewrite len_concat.
    unfold len. now rewrite length_to_insert_of. }
  clearbody c3.
  destruct (targets_checked data (targets c)) as [[]|e1] eqn:Ht.
  - destruct (parameters_checked data (parameters c)) as [[]|e1] eqn:Hp.
    + apply targets_checked_Return in Ht. apply parameters_checked_Return in Hp.
      rewrite Ht, Hp. intros H. right. split; [reflexivity|].
      assert (Htel : add_measurements_telemetry data flag_tolerance c = Raise e).
      { destruct (has_discrete_part c3); [rewrite Hloc in H|]; exact H. }
      destruct (add_measurements_telemetry_cases data flag_tolerance c)
        as [(E & _)|(tag & E & Hcase)]; [congruence|].
      split; [exists tag; split; [congruence | exact Hcase]|].
      destruct (has_discrete_part c3); [rewrite Hloc|]; repeat split; assumption.
    + intros [= ->]. left. split; [|reflexivity].
      destruct (forallb (parameter_ok data) (parameters c)) eqn:E; [|apply andb_false_r].
      apply parameters_checked_ok in E. congruence.
  - intros [= ->]. left. split; [|reflexivity].
    destruct (forallb (target_ok data) (targets c)) eqn:E; [|reflexivity].
    apply targets_checked_ok in E. congruence.
Qed.

(** Whatever its outcome, [add_measurements] leaves an empty cache behind,
    so that the next [recommend] with a batch size of at least one is never
    answered from the cache. *)
Theorem add_measurements_invalidates_cache (data : DataFrame) (flag_tolerance : bool)
        (c : Campaign R) (batch_size : Z) (pending : option DataFrame) :
  _cached_recommendation (after (AddMeasurements data flag_tolerance) c) = empty_DataFrame
  /\ (1 <= batch_size ->
      served_from_cache batch_size pending (after (AddMeasurements data flag_tolerance) c)
      = false).
Proof.
  assert (H : _cached_recommendation (after (AddMeasurements data flag_tolerance) c)
              = empty_DataFrame).
  { cbn [after]. rewrite call_add_measurements_eq. cbv zeta.
    destruct (targets_checked data _) as [[]|e]; [|reflexivity].
    destruct (parameters_checked data _) as [[]|e]; [|reflexivity].
    destruct (has_discrete_part _); [|reflexivity].
    destruct (loc_set _ _ _ _); reflexivity. }
  split; [exact H|]. intros Hb. unfold served_from_cache. rewrite H.
  destruct (has_pending pending); change ((0 =? batch_size) = false); apply Z.eqb_neq; lia.
Qed.

(** An [add_measurements] that returns on a search space with a discrete
    part raises the [measured] flag of every candidate that the matcher
    answered, leaves the [measured] flag of the others alone, and touches no
    [recommended] or [excluded] flag; on a continuous search space it leaves
    the metadata as it was. *)
Theorem add_measurements_marks_matches (data : DataFrame) (flag_tolerance : bool)
        (c : Campaign R) (l : Z) :
  fst (fst (call_add_measurements data flag_tolerance c)) = Return tt ->
  let c' := after (AddMeasurements data flag_tolerance) c in
  let matched := fuzzy_row_match (exp_rep (discrete (searchspace c))) data (parameters c)
                                 flag_tolerance in
  (has_discrete_part c = true ->
   (In l matched -> flagged _MEASURED l (_searchspace_metadata c') = true)
   /\ (~ In l matched ->
       flagged _MEASURED l (_searchspace_metadata c')
       = flagged _MEASURED l (_searchspace_metadata c)))
  /\ (has_discrete_part c = false -> _searchspace_metadata c' = _searchspace_metadata c)
  /\ flagged _RECOMMENDED l (_searchspace_metadata c')
     = flagged _RECOMMENDED l (_searchspace_metadata c)
  /\ flagged _EXCLUDED l (_searchspace_metadata c')
     = flagged _EXCLUDED l (_searchspace_metadata c).
Proof.
  cbn [after]. rewrite call_add_measurements_eq. cbv zeta.
  destruct (targets_checked data _) as [[]|e]; [|discriminate].
  destruct (parameters_checked data _) as [[]|e]; [|discriminate].
  change (has_discrete_part (with_measurements_exp _ _)) with (has_discrete_part c).
  destruct (has_discrete_part c) eqn:Hd.
  - destruct (loc_set _ _ _ _) as [md|e] eqn:Hloc; [|discriminate]. intros _.
    cbn [fst snd with_searchspace_metadata _searchspace_metadata] in *.
    change (loc_set (fuzzy_row_match (exp_rep (discrete (searchspace c))) data (parameters c)
                                     flag_tolerance)
                    _MEASURED true (_searchspace_metadata c) = Return md) in Hloc.
    pose proof (flagged_loc_set_eq _ _ _MEASURED _ _ _ l Hloc) as Hm.
    pose proof (flagged_loc_set_eq _ _ _RECOMMENDED _ _ _ l Hloc) as Hr.
    pose proof (flagged_loc_set_eq _ _ _EXCLUDED _ _ _ l Hloc) as He.
    cbn [column_eqb andb] in Hm, Hr, He.
    split; [intros _; split|split; [discriminate|split; assumption]].
    + intros Hin. rewrite Hm. apply mem_In in Hin as Hin'. rewrite Hin'.
      cbn. exact (loc_set_Return_inv _ _ _ _ _ l Hloc Hin).
    + intros Hnin. rewrite Hm.
      destruct (mem l _) eqn:E; [apply mem_In in E; contradiction | reflexivity].
  - intros _. cbn. repeat split; try reflexivity. discriminate.
Qed.

(** *** [recommend]: what it writes and what it leaves *)

Lemma fit_bookkeeping_frame (c : Campaign R) :
  searchspace (fit_bookkeeping c) = searchspace c
  /\ objective (fit_bookkeeping c) = objective c
  /\ recommender (fit_bookkeeping c) = recommender c
  /\ _searchspace_metadata (fit_bookkeeping c) = _searchspace_metadata c
  /\ n_batches_done (fit_bookkeeping c) = n_batches_done c
  /\ _cached_recommendation (fit_bookkeeping c) = _cached_recommendation c.
Proof. unfold fit_bookkeeping. destruct (0 <? len _); repeat split. Qed.

(** [recommend] never changes [n_batches_done], the search space, the
    objective, or a [measured] or [excluded] flag; and with a batch size
    below one it raises [ValueError] before it has changed anything, the
    cache included, even when pending experiments are given. *)
Theorem recommend_leaves_rest (batch_size : Z) (pending : option DataFrame) (c : Campaign R)
        (l : Z) :
  let c' := after (Recommend batch_size pending) c in
  n_batches_done c' = n_batches_done c
  /\ searchspace c' = searchspace c
  /\ objective c' = objective c
  /\ flagged _MEASURED l (_searchspace_metadata c') = flagged _MEASURED l (_searchspace_metadata c)
  /\ flagged _EXCLUDED l (_searchspace_metadata c') = flagged _EXCLUDED l (_searchspace_metadata c)
  /\ (batch_size < 1 ->
      call_recommend batch_size pending c
      = (Raise (ValueError (BatchSizeTooSmall batch_size)), c)).
Proof.
  cbv zeta.
  assert (Hflags : flagged _MEASURED l (_searchspace_metadata (after (Recommend batch_size pending) c))
                   = flagged _MEASURED l (_searchspace_metadata c)
                   /\ flagged _EXCLUDED l (_searchspace_metadata (after (Recommend batch_size pending) c))
                      = flagged _EXCLUDED l (_searchspace_metadata c)).
  { destruct (after_metadata (Recommend batch_size pending) c) as [->|[H|[H|H]]].
    - split; reflexivity.
    - destruct H as (bs & p & rec & _ & _ & _ & _ & _ & Hloc).
      rewrite (flagged_loc_set_eq _ _ _MEASURED _ _ _ l Hloc).
      rewrite (flagged_loc_set_eq _ _ _EXCLUDED _ _ _ l Hloc). split; reflexivity.
    - destruct H as (data & fl & [=] & _).
    - destruct H as (F & e & a & points & [=] & _). }
  destruct Hflags as [Hm He].
  split; [|split; [apply (after_searchspace (Recommend batch_size pending))|
                   split; [|split; [exact Hm|split; [exact He|]]]]].
  - cbn [after]. rewrite call_recommend_eq.
    destruct (batch_size <? 1); [reflexivity|]. cbv zeta.
    set (c1 := if has_pending pending then _ else c).
    assert (E : n_batches_done c1 = n_batches_done c)
      by (subst c1; destruct (has_pending pending); reflexivity).
    destruct (fit_bookkeeping_frame c1) as (_ & _ & _ & _ & F & _).
    destruct (len _ =? batch_size); [exact E|].
    destruct (fst (recommender_recommend _ _ _ _ _ _));
      [destruct (has_discrete_part _); [destruct (loc_set _ _ _ _)|]|];
      cbn; congruence.
  - cbn [after]. rewrite call_recommend_eq.
    destruct (batch_size <? 1); [reflexivity|]. cbv zeta.
    set (c1 := if has_pending pending then _ else c).
    assert (E : objective c1 = objective c)
      by (subst c1; destruct (has_pending pending); reflexivity).
    destruct (fit_bookkeeping_frame c1) as (_ & F & _).
    destruct (len _ =? batch_size); [exact E|].
    destruct (fst (recommender_recommend _ _ _ _ _ _));
      [destruct (has_discrete_part _); [destruct (loc_set _ _ _ _)|]|];
      cbn; congruence.
  - intros Hb. rewrite call_recommend_eq.
    destruct (Z.ltb_spec batch_size 1); [reflexivity | lia].
Qed.

(** A [recommend] that returns a batch which was not answered from the cache
    has cached that batch; on a search space with a discrete part it has
    raised the [recommended] flag of every candidate of the batch and left
    the [recommended] flag of the others alone. *)
Theorem recommend_marks_batch (batch_size : Z) (pending : option DataFrame) (c : Campaign R)
        (rec : DataFrame) (l : Z) :
  served_from_cache batch_size pending c = false ->
  fst (call_recommend batch_size pending c) = Return rec ->
  let c' := after (Recommend batch_size pending) c in
  _cached_recommendation c' = rec
  /\ (has_discrete_part c = true ->
      (In l (df_index rec) -> flagged _RECOMMENDED l (_searchspace_metadata c') = true)
      /\ (~ In l (df_index rec) ->
          flagged _RECOMMENDED l (_searchspace_metadata c')
          = flagged _RECOMMENDED l (_searchspace_metadata c)))
  /\ (has_discrete_part c = false -> _searchspace_metadata c' = _searchspace_metadata c).
Proof.
  intros Hc. cbn [after]. rewrite call_recommend_eq.
  destruct (batch_size <? 1); [discriminate|]. cbv zeta.
  unfold served_from_cache in Hc.
  set (c1 := if has_pending pending then _ else c).
  assert (E : _cached_recommendation c1
              = (if has_pending pending then empty_DataFrame else _cached_recommendation c)
              /\ _searchspace_metadata c1 = _searchspace_metadata c
              /\ searchspace c1 = searchspace c)
    by (subst c1; destruct (has_pending pending); repeat split).
  destruct E as (E0 & E1 & E2). rewrite E0, Hc.
  destruct (fit_bookkeeping_frame c1) as (F1 & _ & _ & F2 & _).
  destruct (fst (recommender_recommend _ _ _ _ _ _)) as [rec'|tag]; [|discriminate].
  assert (Hd : has_discrete_part
                 (with_cached_recommendation
                    rec' (with_recommender
                            (snd (recommender_recommend
                                    (recommender (fit_bookkeeping c1)) batch_size
                                    {| annotated_searchspace := searchspace (fit_bookkeeping c1);
                                       annotated_metadata :=
                                         _searchspace_metadata (fit_bookkeeping c1) |}
                                    (objective (fit_bookkeeping c1))
                                    (_measurements_exp (fit_bookkeeping c1)) pending))
                            (fit_bookkeeping c1)))
               = has_discrete_part c).
  { unfold has_discrete_part. cbn [searchspace with_cached_recommendation with_recommender].
    now rewrite F1, E2. }
  rewrite Hd. destruct (has_discrete_part c).
  - destruct (loc_set _ _ _ _) as [md|e] eqn:Hloc; [|discriminate].
    cbn [fst snd]. intros Hret. apply recommend_telemetry_Return in Hret. subst rec'.
    cbn [with_searchspace_metadata with_cached_recommendation with_recommender
         _searchspace_metadata _cached_recommendation] in *.
    rewrite F2, E1 in Hloc.
    pose proof (flagged_loc_set_eq _ _ _RECOMMENDED _ _ _ l Hloc) as Hr.
    cbn [column_eqb andb] in Hr.
    split; [reflexivity|]. split; [intros _; split | discriminate].
    + intros Hin. rewrite Hr. apply mem_In in Hin as Hin'. rewrite Hin'. cbn.
      exact (loc_set_Return_inv _ _ _ _ _ l Hloc Hin).
    + intros Hnin. rewrite Hr.
      destruct (mem l _) eqn:E; [apply mem_In in E; contradiction | reflexivity].
  - cbn [fst snd]. intros Hret. apply recommend_telemetry_Return in Hret. subst rec'.
    cbn. split; [reflexivity|].
    split; [discriminate|]. intros _. now rewrite F2, E1.
Qed.

(** When the recommender raises, its exception reaches the caller as it is,
    and nothing is rolled back: the fit that was counted stays counted and
    the rows stay numbered. The metadata and [n_batches_done] are those of
    before, and the cache holds what it held, or nothing when pending
    experiments were given. *)
Theorem recommender_failure_keeps_bookkeeping (batch_size : Z) (pending : option DataFrame)
        (c : Campaign R) (tag : nat) :
  1 <= batch_size -> served_from_cache batch_size pending c = false ->
  fst (recommender_recommend
         (recommender c) batch_size
         {| annotated_searchspace := searchspace c;
            annotated_metadata := _searchspace_metadata c |}
         (objective c) (_measurements_exp (fit_bookkeeping c)) pending) = Fails tag ->
  let c' := after (Recommend batch_size pending) c in
  fst (call_recommend batch_size pending c) = Raise (External tag)
  /\ n_fits_done c' = n_fits_done (fit_bookkeeping c)
  /\ _measurements_exp c' = _measurements_exp (fit_bookkeeping c)
  /\ _searchspace_metadata c' = _searchspace_metadata c
  /\ n_batches_done c' = n_batches_done c
  /\ _cached_recommendation c'
     = (if has_pending pending then empty_DataFrame else _cached_recommendation c).
Proof.
  intros Hb Hc. cbn [after]. rewrite call_recommend_eq.
  destruct (Z.ltb_spec batch_size 1); [lia|]. cbv zeta.
  unfold served_from_cache in Hc.
  destruct (has_pending pending);
    cbn [_cached_recommendation with_cached_recommendation] in *; rewrite Hc;
    unfold fit_bookkeeping; cbn;
    destruct (0 <? len _); cbn;
    intros Hans; rewrite Hans; cbn; repeat split.
Qed.

(** Pending experiments make the cache useless: with a batch size of at
    least one and a non-empty table of pending experiments, a batch that
    [recommend] returns is the answer of the recommender, even when the
    cache held a batch of the requested size. *)
Theorem recommend_with_pending_asks_recommender (batch_size : Z) (pending : option DataFrame)
        (c : Campaign R) (rec : DataFrame) :
  1 <= batch_size -> has_pending pending = true ->
  fst (call_recommend batch_size pending c) = Return rec ->
  served_from_cache batch_size pending c = false
  /\ exists log,
      fst (recommender_recommend
             (recommender c) batch_size
             {| annotated_searchspace := searchspace c;
                annotated_metadata := _searchspace_metadata c |}
             (objective c) log pending) = Answer rec.
Proof.
  intros Hb Hp Hret.
  assert (Hc : served_from_cache batch_size pending c = false).
  { unfold served_from_cache. rewrite Hp. change ((0 =? batch_size) = false).
    apply Z.eqb_neq. lia. }
  split; [exact Hc|]. exact (recommend_not_cached_delegates batch_size pending c rec Hc Hret).
Qed.

(** *** [toggle_discrete_candidates]: what it writes and what it leaves *)

(** [toggle_discrete_candidates] changes nothing but the column [excluded]
    of the metadata: the counters, the log, the recommender and also the
    cached recommendation are those of before, no row of the metadata is
    added or removed, and no [recommended] or [measured] flag changes. *)
Theorem toggle_leaves_rest (filter_df : DataFrame) (exclude anti dry_run : bool)
        (c : Campaign R) (l : Z) :
  let c' := after (ToggleDiscreteCandidates filter_df exclude anti dry_run) c in
  c' = with_searchspace_metadata (_searchspace_metadata c') c
  /\ metadata_index (_searchspace_metadata c') = metadata_index (_searchspace_metadata c)
  /\ flagged _RECOMMENDED l (_searchspace_metadata c')
     = flagged _RECOMMENDED l (_searchspace_metadata c)
  /\ flagged _MEASURED l (_searchspace_metadata c')
     = flagged _MEASURED l (_searchspace_metadata c)
  /\ _cached_recommendation c' = _cached_recommendation c.
Proof.
  cbn [after]. cbv zeta. rewrite call_toggle_discrete_candidates_eq.
  assert (Hc : c = with_searchspace_metadata (_searchspace_metadata c) c) by (destruct c; reflexivity).
  destruct (selected_points filter_df anti c) as [points|e];
    [|cbn [snd]; repeat split; exact Hc].
  destruct dry_run; [cbn [snd]; repeat split; exact Hc|].
  destruct (loc_set _ _ _ _) as [md|e] eqn:Hloc; [|cbn [snd]; repeat split; exact Hc].
  cbn [snd with_searchspace_metadata _searchspace_metadata _cached_recommendation].
  split; [reflexivity|]. split; [exact (loc_set_index _ _ _ _ _ Hloc)|].
  rewrite (flagged_loc_set_eq _ _ _RECOMMENDED _ _ _ l Hloc).
  rewrite (flagged_loc_set_eq _ _ _MEASURED _ _ _ l Hloc). repeat split.
Qed.

(** A [toggle_discrete_candidates] without [dry_run] that returns a subset
    has set [excluded] to [exclude] for every candidate of the subset and
    left the [excluded] flag of every other candidate alone. *)
Theorem toggle_sets_excluded (filter_df : DataFrame) (exclude anti : bool) (c : Campaign R)
        (points : DataFrame) (l : Z) :
  fst (call_toggle_discrete_candidates filter_df exclude anti false c) = Return points ->
  let c' := after (ToggleDiscreteCandidates filter_df exclude anti false) c in
  (In l (df_index points) -> flagged _EXCLUDED l (_searchspace_metadata c') = exclude)
  /\ (~ In l (df_index points) ->
      flagged _EXCLUDED l (_searchspace_metadata c')
      = flagged _EXCLUDED l (_searchspace_metadata c)).
Proof.
  cbn [after]. cbv zeta. rewrite call_toggle_discrete_candidates_eq.
  destruct (selected_points filter_df anti c) as [points'|e]; [|discriminate].
  destruct (loc_set _ _ _ _) as [md|e] eqn:Hloc; [|discriminate].
  cbn [fst snd with_searchspace_metadata _searchspace_metadata]. intros [= ->].
  pose proof (flagged_loc_set_eq _ _ _EXCLUDED _ _ _ l Hloc) as He.
  cbn [column_eqb andb] in He. split.
  - intros Hin. rewrite He. apply mem_In in Hin as Hin'. rewrite Hin'.
    rewrite (loc_set_Return_inv _ _ _ _ _ l Hloc Hin). apply andb_true_r.
  - intros Hnin. rewrite He.
    destruct (mem l _) eqn:E; [apply mem_In in E; contradiction | reflexivity].
Qed.

Lemma set_flag_set_flag (col : metadata_column) (v : bool) (r : MetadataRow) :
  set_flag col v (set_flag col v r) = set_flag col v r.
Proof. destruct col; reflexivity. Qed.

Lemma loc_set_twice (labels : list Z) (col : metadata_column) (v : bool) (md md' : Metadata) :
  loc_set labels col v md = Return md' -> loc_set labels col v md' = Return md'.
Proof.
  intros H. pose proof (loc_set_index _ _ _ _ _ H) as Hidx.
  unfold loc_set in *. rewrite Hidx.
  destruct (forallb _ labels); [|discriminate]. injection H as <-.
  apply f_equal. rewrite map_map. apply map_ext. intros r.
  destruct (mem (fst r) labels) eqn:E; cbn [fst snd]; rewrite E; [|reflexivity].
  now rewrite set_flag_set_flag.
Qed.

(** [toggle_discrete_candidates] is idempotent: the same call made again
    has the same outcome and leaves the campaign as the first call left
    it. *)
Theorem toggle_twice (filter_df : DataFrame) (exclude anti dry_run : bool) (c : Campaign R) :
  call_toggle_discrete_candidates
    filter_df exclude anti dry_run
    (snd (call_toggle_discrete_candidates filter_df exclude anti dry_run c))
  = call_toggle_discrete_candidates filter_df exclude anti dry_run c.
Proof.
  rewrite (call_toggle_discrete_candidates_eq filter_df exclude anti dry_run c).
  destruct (selected_points filter_df anti c) as [points|e] eqn:Hsel.
  - destruct dry_run.
    + cbn [snd]. rewrite call_toggle_discrete_candidates_eq, Hsel. reflexivity.
    + destruct (loc_set _ _ _ _) as [md|e] eqn:Hloc; cbn [snd].
      * rewrite call_toggle_discrete_candidates_eq.
        change (selected_points filter_df anti (with_searchspace_metadata md c))
          with (selected_points filter_df anti c).
        rewrite Hsel. cbn [_searchspace_metadata with_searchspace_metadata].
        now rewrite (loc_set_twice _ _ _ _ _ Hloc).
      * rewrite call_toggle_discrete_candidates_eq, Hsel, Hloc. reflexivity.
  - cbn [snd]. rewrite call_toggle_discrete_candidates_eq, Hsel. reflexivity.
Qed.

(** The labels that [toggle_discrete_candidates] drops: those of the rows
    whose indicator is the given text. *)
Lemma dropped_labels_In (m : DataFrame) (text : string) (l : Z) :
  In l (map fst (filter snd (combine (df_index m)
                                     (map (fun v => eq_str v text)
                                          (map (fun r => row_get "_merge" (snd r))
                                               (df_rows m))))))
  <-> exists r, In r (df_rows m) /\ fst r = l /\ eq_str (row_get "_merge" (snd r)) text = true.
Proof.
  unfold df_index. induction (df_rows m) as [|r rows IH]; cbn [map combine filter].
  - split; [intros [] | intros [r [[] _]]].
  - cbn [snd]. destruct (eq_str (row_get "_merge" (snd r)) text) eqn:E; cbn [map fst In].
    + rewrite IH. split.
      * intros [<-|[r' [H1 H2]]]; [exists r; auto | exists r'; auto].
      * intros [r' [[<-|H1] [H2 H3]]]; [now left | right; exists r'; auto].
    + rewrite IH. split.
      * intros [r' [H1 H2]]. exists r'. auto.
      * intros [r' [[<-|H1] [H2 H3]]]; [congruence | exists r'; auto].
Qed.

(** The candidates that [selected_points] keeps. *)
Lemma selected_points_In (filter_df : DataFrame) (anti : bool) (c : Campaign R)
      (m points : DataFrame) (l : Z) :
  merge_left_indicator (exp_rep (discrete (searchspace c))) filter_df = Answer m ->
  selected_points filter_df anti c = Return points ->
  In l (df_index points)
  <-> In l (df_index m)
      /\ ~ exists r, In r (df_rows m) /\ fst r = l
                     /\ eq_str (row_get "_merge" (snd r)) (if anti then "both" else "left_only")
                        = true.
Proof.
  intros Hm. unfold selected_points. rewrite Hm. cbn [propagate].
  unfold getitem. destruct (column_kind "_merge" (df_columns m)) eqn:Hcol; [|discriminate].
  cbn [values]. unfold drop_column. cbn [drop_index df_columns df_rows]. rewrite Hcol.
  intros [= <-]. unfold df_index at 1. cbn [df_rows]. rewrite map_map. cbn [fst].
  rewrite <- dropped_labels_In.
  set (labels := map fst (filter snd _)).
  rewrite in_map_iff. split.
  - intros [r [<- Hr]]. apply filter_In in Hr as [Hr Hn]. split.
    + unfold df_index. now apply in_map.
    + intros Hin. apply negb_true_iff in Hn.
      assert (existsb (Z.eqb (fst r)) labels = true) by (apply mem_In; exact Hin). congruence.
  - intros [Hin Hn]. unfold df_index in Hin. apply in_map_iff in Hin as [r [<- Hr]].
    exists r. split; [reflexivity|]. apply filter_In. split; [assumption|].
    apply negb_true_iff. destruct (existsb (Z.eqb (fst r)) labels) eqn:E; [|reflexivity].
    exfalso. apply Hn. now apply mem_In.
Qed.

(** When the join marks every row with ["both"] or ["left_only"], and the
    rows under one label alike, the subset of [anti=True] is the complement,
    among the candidates of the join, of the subset of [anti=False]: a
    candidate is in one of them and not in both. The subset of
    [anti=False] holds the candidates marked ["both"]. *)
Theorem toggle_anti_is_complement (filter_df : DataFrame) (c : Campaign R) (m : DataFrame)
        (l : Z) :
  merge_left_indicator (exp_rep (discrete (searchspace c))) filter_df = Answer m ->
  column_kind "_merge" (df_columns m) <> None ->
  (forall r, In r (df_rows m) ->
             row_get "_merge" (snd r) = SStr "both"
             \/ row_get "_merge" (snd r) = SStr "left_only") ->
  (forall r r', In r (df_rows m) -> In r' (df_rows m) -> fst r = fst r' ->
                row_get "_merge" (snd r) = row_get "_merge" (snd r')) ->
  exists selected unselected,
    selected_points filter_df false c = Return selected
    /\ selected_points filter_df true c = Return unselected
    /\ (In l (df_index m) -> (In l (df_index selected) <-> ~ In l (df_index unselected)))
    /\ (In l (df_index selected)
        <-> exists r, In r (df_rows m) /\ fst r = l /\ row_get "_merge" (snd r) = SStr "both").
Proof.
  intros Hm Hcol Hind Hsame.
  assert (Hsel : forall anti, exists points, selected_points filter_df anti c = Return points).
  { intros anti. unfold selected_points. rewrite Hm. cbn [propagate]. unfold getitem.
    destruct (column_kind "_merge" (df_columns m)) eqn:E; [|congruence].
    unfold drop_column. cbn [drop_index df_columns]. rewrite E. eauto. }
  destruct (Hsel false) as [selected Hs]. destruct (Hsel true) as [unselected Hu].
  exists selected, unselected. split; [exact Hs|]. split; [exact Hu|].
  pose proof (selected_points_In filter_df false c m selected l Hm Hs) as Is.
  pose proof (selected_points_In filter_df true c m unselected l Hm Hu) as Iu.
  cbv iota in Is, Iu.
  assert (Hboth : In l (df_index selected)
                  <-> exists r, In r (df_rows m) /\ fst r = l
                                /\ row_get "_merge" (snd r) = SStr "both").
  { rewrite Is. split.
    - intros [Hin Hn]. unfold df_index in Hin. apply in_map_iff in Hin as [r [Hl Hr]].
      exists r. split; [assumption|]. split; [assumption|].
      destruct (Hind r Hr) as [H|H]; [assumption|].
      exfalso. apply Hn. exists r. rewrite H. repeat split; assumption.
    - intros [r [Hr [Hl Hb]]]. split; [unfold df_index; rewrite <- Hl; now apply in_map|].
      intros [r' [Hr' [Hl' Hlo]]].
      rewrite (Hsame r' r Hr' Hr) in Hlo by congruence. rewrite Hb in Hlo. discriminate. }
  split; [|exact Hboth].
  intros Hin. rewrite Hboth, Iu. split.
  - intros [r [Hr [Hl Hb]]] [_ Hn]. apply Hn. exists r. rewrite Hb. repeat split; assumption.
  - intros Hn. unfold df_index in Hin. apply in_map_iff in Hin as [r [Hl Hr]].
    exists r. split; [assumption|]. split; [assumption|].
    destruct (Hind r Hr) as [H|H]; [assumption|].
    exfalso. apply Hn. split; [unfold df_index; rewrite <- Hl; now apply in_map|].
    intros [r' [Hr' [Hl' Hb]]].
    rewrite (Hsame r' r Hr' Hr) in Hb by congruence. rewrite H in Hb. discriminate.
Qed.

(** *** Sequences of calls: the counters and the log *)

(** What a call does to the counters and to the log: nothing, or the
    bookkeeping of one fit, or the insertion of one batch. *)
Lemma after_log (k : call) (c : Campaign R) :
  (n_batches_done (after k c) = n_batches_done c
   /\ n_fits_done (after k c) = n_fits_done c
   /\ _measurements_exp (after k c) = _measurements_exp c)
  \/ (n_batches_done (after k c) = n_batches_done c
      /\ n_fits_done (after k c) = n_fits_done c + 1
      /\ _measurements_exp (after k c)
         = fillna "FitNr" (SNum (inject_Z (n_fits_done c + 1))) (_measurements_exp c))
  \/ (exists data,
        n_batches_done (after k c) = n_batches_done c + 1
        /\ n_fits_done (after k c) = n_fits_done c
        /\ _measurements_exp (after k c)
           = concat (_measurements_exp c) (to_insert_of (n_batches_done c + 1) data)).
Proof.
  destruct k as [batch_size pending|data flag_tolerance|filter_df exclude anti dry_run];
    cbn [after].
  - rewrite call_recommend_eq.
    destruct (batch_size <? 1); [left; repeat split|]. cbv zeta.
    destruct (len _ =? batch_size);
      [left; destruct (has_pending pending); repeat split|].
    assert (H : forall x : Campaign R,
               (n_batches_done x = n_batches_done c /\ n_fits_done x = n_fits_done c
                /\ _measurements_exp x = _measurements_exp c) ->
               (n_batches_done (fit_bookkeeping x) = n_batches_done c
                /\ n_fits_done (fit_bookkeeping x) = n_fits_done c
                /\ _measurements_exp (fit_bookkeeping x) = _measurements_exp c)
               \/ (n_batches_done (fit_bookkeeping x) = n_batches_done c
                   /\ n_fits_done (fit_bookkeeping x) = n_fits_done c + 1
                   /\ _measurements_exp (fit_bookkeeping x)
                      = fillna "FitNr" (SNum (inject_Z (n_fits_done c + 1)))
                               (_measurements_exp c))).
    { intros x (E1 & E2 & E3). unfold fit_bookkeeping.
      destruct (0 <? len _); [right | left]; cbn; rewrite ?E1, ?E2, ?E3; repeat split. }
    set (c1 := if has_pending pending then _ else c).
    assert (H1 : n_batches_done c1 = n_batches_done c /\ n_fits_done c1 = n_fits_done c
                 /\ _measurements_exp c1 = _measurements_exp c)
      by (subst c1; destruct (has_pending pending); repeat split).
    specialize (H c1 H1).
    destruct (fst (recommender_recommend _ _ _ _ _ _));
      [destruct (has_discrete_part _); [destruct (loc_set _ _ _ _)|]|];
      cbn [snd with_searchspace_metadata with_cached_recommendation with_recommender
           n_batches_done n_fits_done _measurements_exp];
      destruct H as [H|H]; [left| right; left|left| right; left|left| right; left|left| right; left];
      exact H.
  - rewrite call_add_measurements_eq. cbv zeta.
    destruct (targets_checked data _) as [[]|e]; [|left; repeat split].
    destruct (parameters_checked data _) as [[]|e]; [|left; repeat split].
    right. right. exists data.
    destruct (has_discrete_part _); [destruct (loc_set _ _ _ _)|]; repeat split.
  - rewrite call_toggle_discrete_candidates_eq.
    destruct (selected_points filter_df anti c); [|left; repeat split].
    destruct dry_run; [left; repeat split|].
    destruct (loc_set _ _ _ _); left; repeat split.
Qed.

Lemma after_objective (k : call) (c : Campaign R) : objective (after k c) = objective c.
Proof.
  destruct k as [batch_size pending|data flag_tolerance|filter_df exclude anti dry_run];
    cbn [after].
  - rewrite call_recommend_eq.
    destruct (batch_size <? 1); [reflexivity|]. cbv zeta.
    set (c1 := if has_pending pending then _ else c).
    assert (E : objective c1 = objective c)
      by (subst c1; destruct (has_pending pending); reflexivity).
    destruct (fit_bookkeeping_frame c1) as (_ & F & _).
    destruct (len _ =? batch_size); [exact E|].
    destruct (fst (recommender_recommend _ _ _ _ _ _));
      [destruct (has_discrete_part _); [destruct (loc_set _ _ _ _)|]|];
      cbn; congruence.
  - rewrite call_add_measurements_eq. cbv zeta.
    destruct (targets_checked data _) as [[]|e]; [|reflexivity].
    destruct (parameters_checked data _) as [[]|e]; [|reflexivity].
    destruct (has_discrete_part _); [|reflexivity].
    destruct (loc_set _ _ _ _); reflexivity.
  - rewrite call_toggle_discrete_candidates_eq.
    destruct (selected_points filter_df anti c); [|reflexivity].
    destruct dry_run; [reflexivity|].
    destruct (loc_set _ _ _ _); reflexivity.
Qed.

Lemma len_fillna (name : string) (v : scalar) (df : DataFrame) : len (fillna name v df) = len df.
Proof.
  unfold fillna, len. destruct (column_kind _ _); [|reflexivity].
  cbn [df_rows]. now rewrite length_map.
Qed.

(** Over every sequence of calls the two counters and the number of rows of
    the log never decrease, and the search space and the objective stay the
    ones the campaign was given. *)
Theorem counters_never_decrease (ks : list call) (c : Campaign R) :
  n_batches_done c <= n_batches_done (after_all ks c)
  /\ n_fits_done c <= n_fits_done (after_all ks c)
  /\ len (_measurements_exp c) <= len (_measurements_exp (after_all ks c))
  /\ searchspace (after_all ks c) = searchspace c
  /\ objective (after_all ks c) = objective c.
Proof.
  unfold after_all. revert c. induction ks as [|k ks IH]; intros c; cbn [fold_left].
  - repeat split; lia.
  - destruct (IH (after k c)) as (H1 & H2 & H3 & H4 & H5).
    rewrite H4, H5, after_searchspace, after_objective.
    assert (Hlen : 0 <= len (to_insert_of (n_batches_done c + 1) empty_DataFrame))
      by (unfold len; lia).
    destruct (after_log k c) as [(E1 & E2 & E3)|[(E1 & E2 & E3)|(data & E1 & E2 & E3)]];
      rewrite E1 in H1; rewrite E2 in H2; rewrite E3 in H3;
      rewrite ?len_fillna, ?len_concat in H3;
      repeat split; try lia.
    unfold len in *. lia.
Qed.

(** A row of the log that carries a batch number between 1 and [nb] and,
    when it has a fit number, one between 1 and [nf]. *)
Definition row_numbered (nb nf : Z) (r : Row) : Prop :=
  (exists k, row_get "BatchNr" r = SNum (inject_Z k) /\ 1 <= k <= nb)
  /\ (row_get "FitNr" r = SNaN
      \/ exists j, row_get "FitNr" r = SNum (inject_Z j) /\ 1 <= j <= nf).

Definition log_numbered (c : Campaign R) : Prop :=
  0 <= n_batches_done c /\ 0 <= n_fits_done c
  /\ Forall (row_numbered (n_batches_done c) (n_fits_done c))
            (map snd (df_rows (_measurements_exp c))).

Lemma row_numbered_weaken (nb nf nb' nf' : Z) (r : Row) :
  nb <= nb' -> nf <= nf' -> row_numbered nb nf r -> row_numbered nb' nf' r.
Proof.
  intros Hb Hf [[k [Hk Hkb]] H]. split; [exists k; split; [assumption | lia]|].
  destruct H as [H|[j [Hj Hjb]]]; [now left | right; exists j; split; [assumption | lia]].
Qed.

Lemma log_typed_after (k : call) (c : Campaign R) : log_typed c -> log_typed (after k c).
Proof.
  intros H. unfold log_typed.
  destruct (after_log k c) as [(_ & _ & E3)|[(_ & _ & E3)|(data & _ & _ & E3)]]; rewrite E3.
  - exact H.
  - unfold fillna. destruct (column_kind "FitNr" _); [|exact H]. cbn [df_rows df_columns].
    destruct H as [H|H]; [left; now rewrite H | right; exact H].
  - destruct (concat_log_kinds _ data (n_batches_done c + 1) H) as [[Ha Hb]|Hk].
    + left. apply length_zero_iff_nil.
      pose proof (len_concat (_measurements_exp c)
                             (to_insert_of (n_batches_done c + 1) data)) as L.
      unfold len in L. rewrite length_to_insert_of, Ha, Hb in L. cbn [length] in L. lia.
    + right. exact Hk.
Qed.

Lemma log_typed_after_all (ks : list call) (c : Campaign R) :
  log_typed c -> log_typed (after_all ks c).
Proof.
  unfold after_all. revert c. induction ks as [|k ks IH]; intros c H; [exact H|].
  cbn [fold_left]. apply IH. now apply log_typed_after.
Qed.

Lemma log_typed_init (ss : SearchSpace) (obj : option Objective) (r : R) :
  log_typed (Campaign_init ss obj r).
Proof. left. reflexivity. Qed.

(** A concatenation leaves the bookkeeping cells of a log alone when the
    bookkeeping columns have their dtypes. *)
Lemma bookkeeping_cells_kept (log b : DataFrame) (v : scalar) :
  column_kind "BatchNr" (df_columns log) = Some kind_i ->
  column_kind "FitNr" (df_columns log) = Some kind_f ->
  column_kind "BatchNr" (concat_columns log b) = Some kind_i ->
  cast_cell (df_columns log) (concat_columns log b) "BatchNr" v = v
  /\ cast_cell (df_columns log) (concat_columns log b) "FitNr" v = v.
Proof.
  intros TB TF KB. unfold cast_cell. rewrite TB, TF, KB. split; [reflexivity|].
  destruct (column_kind "FitNr" (concat_columns log b)) as [t|]; [destruct t|]; reflexivity.
Qed.

Lemma log_numbered_after (k : call) (c : Campaign R) :
  log_typed c -> log_numbered c -> log_numbered (after k c).
Proof.
  intros Ht (Hb & Hf & Hrows). unfold log_numbered.
  destruct (after_log k c) as [(E1 & E2 & E3)|[(E1 & E2 & E3)|(data & E1 & E2 & E3)]];
    rewrite E1, E2, E3.
  - repeat split; assumption.
  - split; [assumption|]. split; [lia|].
    unfold fillna. destruct (column_kind _ _).
    + cbn [df_rows]. rewrite map_map. rewrite Forall_map in Hrows |- *.
      eapply Forall_impl; [|exact Hrows]. intros r Hr. cbn beta.
      destruct (isna (row_get "FitNr" (snd r))).
      * cbn [snd]. destruct Hr as [[kb [Hk Hkb]] _]. split.
        -- exists kb. rewrite row_get_row_set_other by discriminate. now split.
        -- right. exists (n_fits_done c + 1). rewrite row_get_row_set_same. split; [reflexivity | lia].
      * eapply row_numbered_weaken; [| |exact Hr]; lia.
    + eapply Forall_impl; [|exact Hrows]. intros r Hr.
      eapply row_numbered_weaken; [| |exact Hr]; lia.
  - split; [lia|]. split; [assumption|].
    rewrite rows_concat. apply Forall_app. split.
    + destruct Ht as [Ht|[TB TF]]; [rewrite Ht; constructor|].
      destruct (concat_log_kinds _ data (n_batches_done c + 1) (or_intror (conj TB TF)))
        as [[Ha _]|[KB _]]; [rewrite Ha; constructor|].
      rewrite Forall_map. eapply Forall_impl; [|exact Hrows]. intros r Hr.
      assert (Hr' : row_numbered (n_batches_done c) (n_fits_done c)
                                 (cast_row (df_columns (_measurements_exp c))
                                           (concat_columns
                                              (_measurements_exp c)
                                              (to_insert_of (n_batches_done c + 1) data)) r)).
      { unfold row_numbered. rewrite !row_get_cast_row.
        destruct (bookkeeping_cells_kept _ _ (row_get "BatchNr" r) TB TF KB) as [-> _].
        destruct (bookkeeping_cells_kept _ _ (row_get "FitNr" r) TB TF KB) as [_ ->].
        exact Hr. }
      eapply row_numbered_weaken; [| |exact Hr']; lia.
    + destruct (concat_log_kinds _ data (n_batches_done c + 1) Ht) as [[_ Hd]|[KB _]].
      * rewrite rows_to_insert_of, Hd. constructor.
      * rewrite rows_to_insert_of, map_map. apply Forall_map. apply Forall_forall.
        intros r _.
        destruct (stamped_cells (n_batches_done c + 1) data _ (snd r) KB) as (S1 & S2 & _).
        split; [exists (n_batches_done c + 1); split; [exact S1 | lia] | left; exact S2].
Qed.

(** In every campaign that was constructed and then called, every row of the
    log carries as [BatchNr] a whole number between 1 and [n_batches_done],
    and as [FitNr] either nothing or a whole number between 1 and
    [n_fits_done]; the two counters are not negative. *)
Theorem log_numbered_after_all (ks : list call) (ss : SearchSpace) (obj : option Objective)
        (r : R) :
  log_numbered (after_all ks (Campaign_init ss obj r)).
Proof.
  unfold after_all.
  assert (H0 : log_typed (Campaign_init ss obj r) /\ log_numbered (Campaign_init ss obj r)).
  { split; [apply log_typed_init|].
    unfold log_numbered. cbn. repeat split; try lia. constructor. }
  revert H0. generalize (Campaign_init ss obj r).
  induction ks as [|k ks IH]; intros c [Ht H]; [exact H|].
  cbn [fold_left]. apply IH. split; [now apply log_typed_after | now apply log_numbered_after].
Qed.

(** A row that was kept: its batch number is the same, and so is its fit
    number once it is set; every other cell is the same, or is the float
    that a column of whole numbers makes of it when it becomes a column of
    floats. *)
Definition row_kept (r r' : Row) : Prop :=
  row_get "BatchNr" r' = row_get "BatchNr" r
  /\ (isna (row_get "FitNr" r) = false -> row_get "FitNr" r' = row_get "FitNr" r)
  /\ (forall col, col <> "FitNr"%string ->
                  row_get col r' = row_get col r
                  \/ row_get col r' = as_float64 (row_get col r)).

(** The rows of [rows] are kept in [rows'], each in its place. *)
Definition rows_kept (rows rows' : list Row) : Prop :=
  forall i r, nth_error rows i = Some r ->
              exists r', nth_error rows' i = Some r' /\ row_kept r r'.

(** [row_kept] with the dtypes of the columns in the logs [log] and [log'] of
    the two rows: a cell of a column that is not one of whole numbers is the
    same, and a cell that was cast stands in such a column. *)
Definition row_kept_from (log log' : DataFrame) (r r' : Row) : Prop :=
  row_get "BatchNr" r' = row_get "BatchNr" r
  /\ (isna (row_get "FitNr" r) = false -> row_get "FitNr" r' = row_get "FitNr" r)
  /\ (forall col, col <> "FitNr"%string ->
        (whole (column_kind col (df_columns log)) = false ->
         whole (column_kind col (df_columns log')) = false
         /\ row_get col r' = row_get col r)
        /\ (row_get col r' = row_get col r
            \/ (row_get col r' = as_float64 (row_get col r)
                /\ whole (column_kind col (df_columns log')) = false))).

Lemma row_kept_from_refl (log : DataFrame) (r : Row) : row_kept_from log log r r.
Proof. repeat split; auto. Qed.

Lemma row_kept_from_trans (l0 l1 l2 : DataFrame) (r0 r1 r2 : Row) :
  row_kept_from l0 l1 r0 r1 -> row_kept_from l1 l2 r1 r2 -> row_kept_from l0 l2 r0 r2.
Proof.
  intros (B1 & F1 & C1) (B2 & F2 & C2). split; [congruence|]. split.
  - intros Hna. rewrite F2, F1 by (rewrite ?F1; assumption). reflexivity.
  - intros col Hcol. destruct (C1 col Hcol) as [P1 Q1]. destruct (C2 col Hcol) as [P2 Q2].
    split.
    + intros Hw. destruct (P1 Hw) as [Hw1 E1]. destruct (P2 Hw1) as [Hw2 E2].
      split; [assumption | congruence].
    + destruct Q1 as [E1|[E1 Hw1]].
      * destruct Q2 as [E2|[E2 Hw2]]; [left; congruence | right; split; [congruence | assumption]].
      * destruct (P2 Hw1) as [Hw2 E2]. right. split; [congruence | assumption].
Qed.

Lemma row_kept_from_kept (log log' : DataFrame) (r r' : Row) :
  row_kept_from log log' r r' -> row_kept r r'.
Proof.
  intros (B & F & C). split; [assumption|]. split; [assumption|].
  intros col Hcol. destruct (C col Hcol) as [_ [E|[E _]]]; [now left | now right].
Qed.

Lemma rows_kept_after (k : call) (c : Campaign R) (i : nat) (r : Row) :
  log_typed c ->
  nth_error (map snd (df_rows (_measurements_exp c))) i = Some r ->
  exists r', nth_error (map snd (df_rows (_measurements_exp (after k c)))) i = Some r'
             /\ row_kept_from (_measurements_exp c) (_measurements_exp (after k c)) r r'.
Proof.
  intros Ht Hr.
  destruct (after_log k c) as [(_ & _ & E3)|[(_ & _ & E3)|(data & _ & _ & E3)]]; rewrite E3.
  - exists r. split; [assumption | apply row_kept_from_refl].
  - unfold fillna. destruct (column_kind _ _);
      [|exists r; split; [assumption | apply row_kept_from_refl]].
    cbn [df_rows df_columns]. rewrite map_map.
    rewrite nth_error_map in Hr |- *.
    destruct (nth_error (df_rows (_measurements_exp c)) i) as [x|]; [|discriminate].
    cbn in Hr. injection Hr as <-. cbn [option_map].
    eexists. split; [reflexivity|].
    unfold row_kept_from. cbn [df_columns].
    destruct (isna (row_get "FitNr" (snd x))) eqn:E; cbn [snd];
      [|repeat split; auto].
    split; [apply row_get_row_set_other; discriminate|]. split; [congruence|].
    intros col Hc. rewrite row_get_row_set_other by congruence. auto.
  - assert (Hne : df_rows (_measurements_exp c) <> []).
    { intros E. rewrite E in Hr. destruct i; discriminate. }
    destruct Ht as [Ht|[TB TF]]; [contradiction|].
    destruct (concat_log_kinds _ data (n_batches_done c + 1) (or_intror (conj TB TF)))
      as [[Ha _]|[KB _]]; [contradiction|].
    rewrite rows_concat. cbn [df_columns concat].
    exists (cast_row (df_columns (_measurements_exp c))
                     (concat_columns (_measurements_exp c)
                                     (to_insert_of (n_batches_done c + 1) data)) r).
    split.
    + rewrite nth_error_app1
        by (rewrite length_map; apply nth_error_Some; congruence).
      rewrite nth_error_map, Hr. reflexivity.
    + unfold row_kept_from. rewrite !row_get_cast_row.
      destruct (bookkeeping_cells_kept _ _ (row_get "BatchNr" r) TB TF KB) as [EB _].
      destruct (bookkeeping_cells_kept _ _ (row_get "FitNr" r) TB TF KB) as [_ EF].
      split; [exact EB|]. split; [intros _; exact EF|].
      intros col _. rewrite !row_get_cast_row. now apply concat_cell.
Qed.

Lemma rows_kept_after_all (ks : list call) (c : Campaign R) (i : nat) (r : Row) :
  log_typed c ->
  nth_error (map snd (df_rows (_measurements_exp c))) i = Some r ->
  exists r', nth_error (map snd (df_rows (_measurements_exp (after_all ks c)))) i = Some r'
             /\ row_kept_from (_measurements_exp c) (_measurements_exp (after_all ks c)) r r'.
Proof.
  unfold after_all. revert c r. induction ks as [|k ks IH]; intros c r Ht Hr; cbn [fold_left].
  - exists r. split; [assumption | apply row_kept_from_refl].
  - destruct (rows_kept_after k c i r Ht Hr) as [r1 [H1 K1]].
    destruct (IH (after k c) r1 (log_typed_after k c Ht) H1) as [r2 [H2 K2]].
    exists r2. split; [assumption|]. exact (row_kept_from_trans _ _ _ _ _ _ K1 K2).
Qed.

(** The log is append-only. In a campaign that was constructed and then
    called, every further sequence of calls leaves each row of the log in
    its place, with its batch number, with its fit number once it has one,
    and with the cells it was submitted with, up to the one cast that the
    concatenation of a later batch can bring: a cell of a column of whole
    numbers becomes the nearest float when the column becomes one of floats,
    as it does when a later batch has no such column or has floats in it. *)
Theorem log_rows_are_kept (ks0 ks : list call) (ss : SearchSpace) (obj : option Objective)
        (r : R) :
  let c := after_all ks0 (Campaign_init ss obj r) in
  rows_kept (map snd (df_rows (_measurements_exp c)))
            (map snd (df_rows (_measurements_exp (after_all ks c)))).
Proof.
  intros c i row Hrow.
  assert (Ht : log_typed c) by (apply log_typed_after_all, log_typed_init).
  destruct (rows_kept_after_all ks c i row Ht Hrow) as [r' [H K]].
  exists r'. split; [assumption|]. exact (row_kept_from_kept _ _ _ _ K).
Qed.

(** *** A new campaign *)

Lemma nth_error_combine_seq {A : Type} (idx : list A) :
  forall start i label,
    nth_error idx i = Some label ->
    nth_error (combine (seq start (length idx)) idx) i = Some ((start + i)%nat, label).
Proof.
  induction idx as [|a idx IH]; intros start [|i] label H; cbn in *; try discriminate.
  - injection H as <-. now rewrite Nat.add_0_r.
  - rewrite (IH (Datatypes.S start) i label H). f_equal. f_equal. lia.
Qed.

Lemma flagged_false (col : metadata_column) (l : Z) (md : Metadata) :
  (forall r, In r md -> flag col (snd r) = false) -> flagged col l md = false.
Proof.
  intros H. unfold flagged. induction md as [|r md IH]; [reflexivity|].
  cbn [existsb]. rewrite (H r (or_introl eq_refl)), andb_false_r. cbn.
  apply IH. intros r' Hr'. apply H. now right.
Qed.

(** A campaign that was just constructed has counted no batch and no fit
    and has an empty log and an empty cache; its metadata has one row per
    candidate, under the label and in the place of the candidate, with
    [recommended] and [measured] down and [excluded] as the exclusion
    default of the candidate says; and its first [recommend] with a batch
    size of at least one asks the recommender and counts no fit. *)
Theorem new_campaign (ss : SearchSpace) (obj : option Objective) (r : R) (l : Z)
        (batch_size : Z) (pending : option DataFrame) :
  let c := Campaign_init ss obj r in
  n_batches_done c = 0 /\ n_fits_done c = 0
  /\ len (_measurements_exp c) = 0 /\ len (_cached_recommendation c) = 0
  /\ flagged _RECOMMENDED l (_searchspace_metadata c) = false
  /\ flagged _MEASURED l (_searchspace_metadata c) = false
  /\ (forall i label,
        nth_error (df_index (exp_rep (discrete ss))) i = Some label ->
        nth_error (_searchspace_metadata c) i
        = Some (label, {| recommended := false; measured := false;
                          excluded := nth i (_excluded (discrete ss)) false |}))
  /\ length (_searchspace_metadata c) = length (df_index (exp_rep (discrete ss)))
  /\ (1 <= batch_size ->
      served_from_cache batch_size pending c = false
      /\ n_fits_done (after (Recommend batch_size pending) c) = 0).
Proof.
  cbv zeta.
  assert (Hrows : forall x, In x (_searchspace_metadata (Campaign_init ss obj r)) ->
                            recommended (snd x) = false /\ measured (snd x) = false).
  { cbn. unfold _default_searchspace_metadata. intros x Hx.
    apply in_map_iff in Hx as [il [<- _]]. split; reflexivity. }
  split; [reflexivity|]. split; [reflexivity|]. split; [reflexivity|]. split; [reflexivity|].
  split; [apply flagged_false; intros x Hx; apply (Hrows x Hx)|].
  split; [apply flagged_false; intros x Hx; apply (Hrows x Hx)|].
  split; [|split].
  - intros i label Hi. cbn [Campaign_init _searchspace_metadata].
    unfold _default_searchspace_metadata. rewrite nth_error_map.
    rewrite (nth_error_combine_seq _ 0%nat i label Hi). reflexivity.
  - cbn [Campaign_init _searchspace_metadata]. unfold _default_searchspace_metadata.
    rewrite length_map, length_combine, length_seq. lia.
  - intros Hb.
    assert (Hc : served_from_cache batch_size pending (Campaign_init ss obj r) = false).
    { unfold served_from_cache.
      destruct (has_pending pending); change ((0 =? batch_size) = false); apply Z.eqb_neq; lia. }
    split; [exact Hc|].
    destruct (recommend_not_cached_fields batch_size pending _ Hb Hc) as [H _].
    cbn [after]. rewrite H. reflexivity.
Qed.

(** *** [posterior] *)

(** What [posterior] asks of a surrogate: whether it has a method
    [posterior] ([hasattr]), and what the method answers. *)
Context {P : Type}.
Variable hasattr_posterior : S -> bool.
Variable surrogate_posterior : S -> DataFrame -> foreign P.

(** [posterior(candidates)]. The import of [torch], a dependency of the
    package, is taken to succeed, and [torch.no_grad()] has no bearing on
    the value that is returned. *)
Definition posterior (candidates : DataFrame) (c : Campaign R) : outcome P :=
  match get_surrogate c with
  | Raise e => Raise e
  | Return surrogate =>
      if negb (hasattr_posterior surrogate) then Raise IncompatibilityError
      else propagate (surrogate_posterior surrogate candidates)
  end.

(** Let [pure_recommender] be the recommender in use, as for
    [get_surrogate], and, when it is a [BayesianRecommender], let its
    [get_surrogate] answer [surrogate]. Then [posterior] raises
    [IncompatibilityError] without objective, [RuntimeError] with an
    objective and a recommender in use that is not Bayesian, and
    [IncompatibilityError] again for a surrogate without method
    [posterior]. In the one case that is left it asks the surrogate: it
    returns the posterior that the surrogate answers for the candidates, and
    raises what the surrogate raises. *)
Theorem posterior_unsupported_cases (candidates : DataFrame) (c : Campaign R)
        (pure_recommender : R) (surrogate : S) :
  (if isinstance_MetaRecommender (recommender c)
   then get_current_recommender (recommender c) = Answer pure_recommender
   else pure_recommender = recommender c) ->
  (forall obj, objective c = Some obj ->
               isinstance_BayesianRecommender pure_recommender = true ->
               recommender_get_surrogate pure_recommender (searchspace c) obj
                                         (_measurements_exp c) = Answer surrogate) ->
  (objective c = None -> posterior candidates c = Raise IncompatibilityError)
  /\ (objective c <> None -> isinstance_BayesianRecommender pure_recommender = false ->
      posterior candidates c = Raise RuntimeError)
  /\ (objective c <> None -> isinstance_BayesianRecommender pure_recommender = true ->
      hasattr_posterior surrogate = false ->
      posterior candidates c = Raise IncompatibilityError)
  /\ (objective c <> None -> isinstance_BayesianRecommender pure_recommender = true ->
      hasattr_posterior surrogate = true ->
      (forall post, surrogate_posterior surrogate candidates = Answer post ->
                    posterior candidates c = Return post)
      /\ (forall tag, surrogate_posterior surrogate candidates = Fails tag ->
                      posterior candidates c = Raise (External tag))).
Proof.
  intros Hpure Hfit. unfold posterior, get_surrogate, measurements.
  destruct (objective c) as [obj|].
  - specialize (Hfit obj eq_refl).
    assert (E : (if isinstance_MetaRecommender (recommender c)
                 then propagate (get_current_recommender (recommender c))
                 else Return (recommender c)) = Return pure_recommender).
    { destruct (isinstance_MetaRecommender (recommender c)); [now rewrite Hpure | now subst]. }
    rewrite E.
    destruct (isinstance_BayesianRecommender pure_recommender);
      [rewrite (Hfit eq_refl); cbn [propagate]|].
    + split; [discriminate|]. split; [discriminate|].
      split; [intros _ _ ->; reflexivity|].
      intros _ _ ->. cbn [negb]. split; [intros post -> | intros tag ->]; reflexivity.
    + split; [discriminate|]. split; [reflexivity|]. split; discriminate.
  - split; [reflexivity|]. split; [congruence|]. split; congruence.
Qed.

End Methods.

End CampaignMethods.

(** ** A small campaign, with collaborators to run it *)

Module Examples.

Import CampaignMethods.

(** Equality of two cells that hold a value. *)
Definition scalar_eqb (a b : scalar) : bool :=
  match a, b with
  | SNum p, SNum q => Qeq_bool p q
  | SBool x, SBool y => Bool.eqb x y
  | SStr s, SStr t => String.eqb s t
  | _, _ => false
  end.

(** A matcher in the place of [fuzzy_row_match]: a candidate matches a
    submitted row that has the same value for every parameter. *)
Definition exact_row_match (left right : DataFrame) (ps : list BaseParameter) (_ : bool)
  : list Z :=
  map fst
      (filter (fun l => existsb (fun r => forallb (fun p => scalar_eqb (row_get (name p) (snd l))
                                                                       (row_get (name p) (snd r)))
                                                  ps)
                                (df_rows right))
              (df_rows left)).

(** A join in the place of the left join of pandas, on the columns that the
    two frames share: one row per matching pair, or one row for a left row
    without match. *)
Definition shared_columns (left right : DataFrame) : list string :=
  filter (fun k => match column_kind k (df_columns right) with Some _ => true | None => false end)
         (map fst (df_columns left)).

Definition left_join (left right : DataFrame) : foreign DataFrame :=
  match shared_columns left right with
  | [] => Fails 1
  | keys =>
      Answer
        {| df_columns := df_columns left ++ [("_merge"%string, kind_O)];
           df_rows :=
             flat_map
               (fun l =>
                  match filter (fun r => forallb (fun k => scalar_eqb (row_get k (snd l))
                                                                      (row_get k (snd r))) keys)
                               (df_rows right) with
                  | [] => [(fst l, row_set "_merge" (SStr "left_only") (snd l))]
                  | matches => map (fun _ => (fst l, row_set "_merge" (SStr "both") (snd l)))
                                   matches
                  end)
               (df_rows left) |}
  end.

(** Recommenders: one that proposes the first candidates that are not
    excluded, Bayesian or not, and a meta recommender around another one. *)
Inductive ToyRecommender : Type :=
| FirstCandidates (bayesian : bool)
| TwoPhase (current : ToyRecommender).

Fixpoint toy_recommend (r : ToyRecommender) (batch_size : Z) (a : AnnotatedSearchSpace)
  : foreign DataFrame :=
  match r with
  | FirstCandidates _ =>
      let candidates := exp_rep (discrete (annotated_searchspace a)) in
      let free := filter (fun row => negb (flagged _EXCLUDED (fst row) (annotated_metadata a)))
                         (df_rows candidates) in
      if Z.of_nat (length free) <? batch_size then Fails 2
      else Answer {| df_columns := df_columns candidates;
                     df_rows := firstn (Z.to_nat batch_size) free |}
  | TwoPhase current => toy_recommend current batch_size a
  end.

(** The surrogate of the toy recommenders: the recommender that fitted it
    and the number of measurements it was fitted on. *)
Record ToySurrogate : Type := {
  fitted_by : ToyRecommender;
  fitted_on : Z
}.

#[export] Instance toy_protocol : RecommenderProtocol ToyRecommender ToySurrogate := {
  recommender_recommend r batch_size a _ _ _ := (toy_recommend r batch_size a, r);
  isinstance_MetaRecommender r :=
    match r with TwoPhase _ => true | FirstCandidates _ => false end;
  get_current_recommender r :=
    match r with TwoPhase current => Answer current | FirstCandidates _ => Fails 3 end;
  isinstance_BayesianRecommender r :=
    match r with FirstCandidates b => b | TwoPhase _ => false end;
  recommender_get_surrogate r _ _ log := Answer {| fitted_by := r; fitted_on := len log |}
}.

(** Telemetry that answers, as the functions of the package do when
    [BAYBE_TELEMETRY_ENABLED] is a truth value. *)
#[export] Instance telemetry_up : TelemetryFunctions := {
  telemetry_record_value _ _ := Answer tt;
  telemetry_record_recommended_measurement_percentage _ _ _ _ := Answer tt
}.

(** Telemetry that raises when a value is recorded, as
    [telemetry_record_value] does when [BAYBE_TELEMETRY_ENABLED] holds a
    text that [strtobool] does not know. *)
Definition telemetry_down : TelemetryFunctions := {|
  telemetry_record_value _ _ := Fails 4;
  telemetry_record_recommended_measurement_percentage _ _ _ _ := Answer tt
|}.

(** The posterior of a toy surrogate: the number of measurements it was
    fitted on and the number of candidates it is asked about. Only the
    surrogate of a Bayesian recommender has the method. *)
Definition toy_hasattr_posterior (s : ToySurrogate) : bool :=
  isinstance_BayesianRecommender (fitted_by s).

Definition toy_posterior (s : ToySurrogate) (candidates : DataFrame) : foreign (Z * Z) :=
  Answer (fitted_on s, len candidates).

(** The candidates x = 1, 2, 3 under the labels 0, 1, 2. *)
Definition candidates : DataFrame :=
  {| df_columns := [("x"%string, kind_i)];
     df_rows := [(0, [("x"%string, SNum (inject_Z 1))]);
                 (1, [("x"%string, SNum (inject_Z 2))]);
                 (2, [("x"%string, SNum (inject_Z 3))])] |}.

Definition space : SearchSpace :=
  {| discrete := {| exp_rep := candidates; _excluded := [false; false; false] |};
     type := DISCRETE;
     searchspace_parameters := [{| name := "x"; is_numerical := true |}] |}.

(** A campaign with the target [y]. *)
Definition campaign0 : Campaign ToyRecommender :=
  Campaign_init space (Some {| objective_targets := [{| target_name := "y" |}] |})
                (FirstCandidates true).

(** A campaign with the targets [y] and [z], in this order. *)
Definition campaign_yz : Campaign ToyRecommender :=
  Campaign_init space
                (Some {| objective_targets := [{| target_name := "y" |}; {| target_name := "z" |}] |})
                (FirstCandidates true).

(** One measurement of the candidate x = 1. *)
Definition data1 : DataFrame :=
  {| df_columns := [("x"%string, kind_i); ("y"%string, kind_f)];
     df_rows := [(0, [("x"%string, SNum (inject_Z 1)); ("y"%string, SNum (1 # 2))])] |}.

(** A measurement whose target [y] is missing. *)
Definition data_nan : DataFrame :=
  {| df_columns := [("x"%string, kind_i); ("y"%string, kind_f)];
     df_rows := [(0, [("x"%string, SNum (inject_Z 1)); ("y"%string, SNaN)])] |}.

(** A measurement whose target [y] is a text and whose target [z] is
    missing. *)
Definition data_text_nan : DataFrame :=
  {| df_columns := [("x"%string, kind_i); ("y"%string, kind_O); ("z"%string, kind_f)];
     df_rows := [(0, [("x"%string, SNum (inject_Z 1)); ("y"%string, SStr "high");
                      ("z"%string, SNaN)])] |}.

(** The filter x = 1. *)
Definition filter_x1 : DataFrame :=
  {| df_columns := [("x"%string, kind_i)];
     df_rows := [(0, [("x"%string, SNum (inject_Z 1))])] |}.

Definition toy_after : call -> Campaign ToyRecommender -> Campaign ToyRecommender :=
  after exact_row_match left_join.

Definition toy_after_all : list call -> Campaign ToyRecommender -> Campaign ToyRecommender :=
  after_all exact_row_match left_join.

Definition toy_recommend_call (batch_size : Z) (pending : option DataFrame)
           (c : Campaign ToyRecommender) : outcome DataFrame * Campaign ToyRecommender :=
  call_recommend (RP := toy_protocol) batch_size pending c.

Lemma exact_row_match_index (left right : DataFrame) (ps : list BaseParameter) (b : bool) (l : Z) :
  In l (exact_row_match left right ps b) -> In l (df_index left).
Proof.
  unfold exact_row_match, df_index. intros H.
  apply in_map_iff in H as [r [<- Hr]]. apply filter_In in Hr as [Hr _]. now apply in_map.
Qed.

Lemma left_join_index (left right m : DataFrame) :
  left_join left right = Answer m -> incl (df_index m) (df_index left).
Proof.
  unfold left_join. destruct (shared_columns left right) as [|k keys]; [discriminate|].
  intros [= <-]. unfold df_index. cbn [df_rows].
  intros l Hl. apply in_map_iff in Hl as [r [<- Hr]].
  apply in_flat_map in Hr as [x [Hx Hr]].
  destruct (filter _ (df_rows right)) as [|y ys].
  - destruct Hr as [<-|[]]. cbn [fst]. exact (in_map fst _ _ Hx).
  - change (In r (map (fun _ : Z * Row => (fst x, row_set "_merge" (SStr "both") (snd x)))
                       (y :: ys))) in Hr.
    apply in_map_iff in Hr as [_ [<- _]]. cbn [fst]. exact (in_map fst _ _ Hx).
Qed.

(** The toy recommender never proposes an excluded candidate. *)
Lemma toy_recommend_not_excluded (r : ToyRecommender) (batch_size : Z) (a : AnnotatedSearchSpace)
      (rec : DataFrame) (l : Z) :
  toy_recommend r batch_size a = Answer rec -> In l (df_index rec) ->
  flagged _EXCLUDED l (annotated_metadata a) = false.
Proof.
  induction r as [b|current IH]; cbn [toy_recommend]; [|exact IH].
  destruct (_ <? batch_size); [discriminate|]. intros [= <-].
  unfold df_index. cbn [df_rows]. intros H.
  apply in_map_iff in H as [row [<- Hrow]].
  assert (Hin : In row (filter (fun row => negb (flagged _EXCLUDED (fst row) (annotated_metadata a)))
                               (df_rows (exp_rep (discrete (annotated_searchspace a)))))).
  { rewrite <- (firstn_skipn (Z.to_nat batch_size)). apply in_or_app. now left. }
  apply filter_In in Hin as [_ Hrow'].
  rename Hrow' into Hfree. clear Hrow. rename Hfree into Hrow.
  now apply negb_true_iff in Hrow.
Qed.

(** *** The fit counter *)

(** The campaign after one batch of measurements and one recommendation:
    its only row has the fit number 1. *)
Definition campaign_fitted : Campaign ToyRecommender :=
  toy_after_all [AddMeasurements data1 true; Recommend 1 None] campaign0.

(** After [add_measurements] the log has a row without fit number, and the
    next [recommend(1)] counts a fit and numbers the row. *)
Lemma recommend_fit_accounting_witness :
  (n_fits_done (toy_after (Recommend 1 None) (toy_after (AddMeasurements data1 true) campaign0))
   = n_fits_done (toy_after (AddMeasurements data1 true) campaign0) + 1
   <-> 0 < len (_measurements_exp (toy_after (AddMeasurements data1 true) campaign0)))
  /\ has_unfit_row (_measurements_exp (toy_after (AddMeasurements data1 true) campaign0)) = true.
Proof.
  split; [|reflexivity].
  apply (recommend_fit_accounting exact_row_match left_join 1 None
                                  (toy_after (AddMeasurements data1 true) campaign0));
    [lia | reflexivity].
Defined.

(** C1 does not hold as stated: in [campaign_fitted], reached by
    [add_measurements] and [recommend(1)], every row of the log carries a fit
    number; [recommend(2)] is not answered from the cache, which holds one
    row, and it increments [n_fits_done] from 1 to 2 all the same. *)
Lemma recommend_counts_fit_without_unfit_row :
  has_unfit_row (_measurements_exp campaign_fitted) = false
  /\ served_from_cache 2 None campaign_fitted = false
  /\ n_fits_done campaign_fitted = 1
  /\ n_fits_done (toy_after (Recommend 2 None) campaign_fitted) = 2.
Proof. repeat split. Qed.

(** *** The cache *)

(** The first two candidates. *)
Definition batch2 : DataFrame :=
  {| df_columns := [("x"%string, kind_i)];
     df_rows := [(0, [("x"%string, SNum (inject_Z 1))]); (1, [("x"%string, SNum (inject_Z 2))])] |}.

Definition campaign_recommended : Campaign ToyRecommender :=
  snd (toy_recommend_call 2 None campaign0).

(** [recommend(2)] twice on the fresh campaign. *)
Lemma recommend_twice_is_idempotent_witness :
  toy_recommend_call 2 None campaign0 = (Return batch2, campaign_recommended)
  /\ toy_recommend_call 2 None campaign_recommended = (Return batch2, campaign_recommended).
Proof.
  split; [reflexivity|].
  apply (recommend_twice_is_idempotent 2 None None campaign0 campaign_recommended batch2);
    [lia | reflexivity | reflexivity | reflexivity].
Defined.

(** *** Missing target values *)

(** A missing value of the only target. *)
Lemma add_measurements_missing_target_value_witness :
  call_add_measurements exact_row_match data_nan true campaign0
  = (Raise (ValueError (MissingTargetValues "y")),
     with_cached_recommendation empty_DataFrame campaign0, data_nan).
Proof.
  apply (proj2 (add_measurements_missing_target_value
                  exact_row_match data_nan true campaign0 {| target_name := "y" |}
                  {| dtype := kind_f; values := [SNaN] |}
                  (or_introl eq_refl) eq_refl eq_refl)
               [] [] eq_refl eq_refl).
Defined.

(** C3 does not hold as stated: the column of target [z] has a missing
    value, but the column of target [y], which the loop visits first, holds
    a text; the call raises the [TypeError] of [y], not the missing-value
    [ValueError]. *)
Lemma add_measurements_raises_TypeError_first :
  In {| target_name := "z" |} (targets campaign_yz)
  /\ (exists col, getitem data_text_nan "z" = Return col /\ isna_any col = true)
  /\ fst (fst (call_add_measurements exact_row_match data_text_nan true campaign_yz))
     = Raise (TypeError (NonNumericTarget "y")).
Proof.
  split; [right; left; reflexivity|].
  split; [eexists; split; reflexivity | reflexivity].
Qed.

(** *** A valid batch *)

Lemma add_measurements_appends_batch_witness :
  fst (fst (call_add_measurements exact_row_match data1 true campaign0)) = Return tt
  /\ n_batches_done (snd (fst (call_add_measurements exact_row_match data1 true campaign0))) = 1
  /\ len (_measurements_exp
            (snd (fst (call_add_measurements exact_row_match data1 true campaign0)))) = 1.
Proof.
  destruct (add_measurements_appends_batch
              exact_row_match data1 true campaign0 eq_refl eq_refl
              (aligned_init space _ _) (log_typed_init space _ _)
              (exact_row_match_index _ _ _ _)) as (H1 & _ & _ & H2 & H3 & _).
  split; [exact (H1 eq_refl eq_refl)|]. split; [exact H2 | exact H3].
Defined.

(** C4 does not hold as stated: the columns of [data1] are present and
    valid, but with telemetry that raises the call does not succeed. It
    raises the exception of the telemetry call, and it does so after the
    batch was counted and logged. *)
Lemma add_measurements_raises_after_logging :
  forallb (target_ok data1) (targets campaign0) = true
  /\ forallb (parameter_ok data1) (parameters campaign0) = true
  /\ fst (fst (call_add_measurements (TL := telemetry_down) exact_row_match data1 true
                                     campaign0))
     = Raise (External 4)
  /\ n_batches_done
       (snd (fst (call_add_measurements (TL := telemetry_down) exact_row_match data1 true
                                        campaign0))) = 1
  /\ len (_measurements_exp
            (snd (fst (call_add_measurements (TL := telemetry_down) exact_row_match data1 true
                                             campaign0)))) = 1.
Proof. repeat split. Qed.

(** *** The flags *)

(** C6 does not hold as stated: with telemetry that raises, [recommend(1)]
    on the fresh campaign returns no batch, it raises; and the candidate 0,
    which the recommender had proposed, has its [recommended] flag up
    afterwards. *)
Lemma recommend_raises_after_flagging :
  flagged _RECOMMENDED 0 (_searchspace_metadata campaign0) = false
  /\ fst (call_recommend (TL := telemetry_down) 1 None campaign0) = Raise (External 4)
  /\ flagged _RECOMMENDED 0
             (_searchspace_metadata (snd (call_recommend (TL := telemetry_down) 1 None
                                                         campaign0))) = true.
Proof. repeat split. Qed.

(** *** The surrogate *)

(** A campaign with one batch of measurements and a meta recommender whose
    current recommender is Bayesian. *)
Definition campaign_two_phase : Campaign ToyRecommender :=
  with_recommender (TwoPhase (FirstCandidates true))
                   (toy_after (AddMeasurements data1 true) campaign0).

(** The surrogate is the one of the current recommender of the meta
    recommender, fitted on the one row of the log. *)
Lemma get_surrogate_unsupported_cases_witness :
  get_surrogate campaign_two_phase
  = Return {| fitted_by := FirstCandidates true; fitted_on := 1 |}.
Proof.
  destruct (get_surrogate_unsupported_cases
              campaign_two_phase (FirstCandidates true)
              {| fitted_by := FirstCandidates true; fitted_on := 1 |}) as (_ & _ & H & _).
  - reflexivity.
  - intros obj _ _. reflexivity.
  - apply H; [discriminate | reflexivity].
Defined.

Lemma posterior_unsupported_cases_witness :
  posterior toy_hasattr_posterior toy_posterior filter_x1 campaign_two_phase = Return (1, 1).
Proof.
  destruct (posterior_unsupported_cases
              toy_hasattr_posterior toy_posterior filter_x1
              campaign_two_phase (FirstCandidates true)
              {| fitted_by := FirstCandidates true; fitted_on := 1 |}) as (_ & _ & _ & H).
  - reflexivity.
  - intros obj _ _. reflexivity.
  - apply H; [discriminate | reflexivity | reflexivity | reflexivity].
Defined.

(** C5 fails on the code: after [add_measurements(data1)] the log has the
    columns [BatchNr] and [FitNr], and the caller's [data1] has neither. *)
Theorem add_measurements_copies_data :
  fst (fst (call_add_measurements exact_row_match data1 true campaign0)) = Return tt
  /\ snd (call_add_measurements exact_row_match data1 true campaign0) = data1
  /\ column_kind "BatchNr" (df_columns (snd (call_add_measurements exact_row_match data1 true campaign0)))
     = None
  /\ column_kind "FitNr" (df_columns (snd (call_add_measurements exact_row_match data1 true campaign0)))
     = None
  /\ column_kind "BatchNr"
                 (df_columns (_measurements_exp
                                (snd (fst (call_add_measurements exact_row_match data1 true
                                                                 campaign0)))))
     = Some kind_i.
Proof. repeat split. Qed.

(** *** Exclusion *)

Lemma toggle_dry_run_previews_witness :
  snd (call_toggle_discrete_candidates left_join filter_x1 true false true campaign0) = campaign0
  /\ fst (call_toggle_discrete_candidates left_join filter_x1 true false false campaign0)
     = fst (call_toggle_discrete_candidates left_join filter_x1 true false true campaign0).
Proof.
  destruct (toggle_dry_run_previews left_join filter_x1 true false campaign0
                                    (aligned_init space _ _)
                                    (left_join_index _ _)) as (H1 & H2 & _).
  split; assumption.
Defined.

(** With the toy recommender, a batch that is not answered from the cache
    holds no excluded candidate. *)
Lemma fresh_recommendation_not_excluded (batch_size : Z) (pending : option DataFrame)
      (c : Campaign ToyRecommender) (rec : DataFrame) (l : Z) :
  served_from_cache batch_size pending c = false ->
  fst (toy_recommend_call batch_size pending c) = Return rec ->
  In l (df_index rec) ->
  flagged _EXCLUDED l (_searchspace_metadata c) = false.
Proof.
  intros Hc Hret Hl.
  destruct (recommend_not_cached_delegates batch_size pending c rec Hc Hret) as [log Hans].
  cbn [recommender_recommend toy_protocol fst] in Hans.
  exact (toy_recommend_not_excluded _ _ _ _ _ Hans Hl).
Qed.

(** The campaign after [recommend(1)], which proposed the candidate 0, and
    the exclusion of that candidate. *)
Definition campaign_excluded : Campaign ToyRecommender :=
  toy_after_all [Recommend 1 None; ToggleDiscreteCandidates filter_x1 true false false] campaign0.

(** C7 fails on the code: [toggle_discrete_candidates] leaves the cache
    alone, and the next [recommend(1)] answers from it with the candidate 0,
    whose [excluded] flag is up. The recommender is not at fault
    ([fresh_recommendation_not_excluded]): it is not asked. *)
Theorem recommend_returns_excluded_candidate_from_cache :
  flagged _EXCLUDED 0 (_searchspace_metadata campaign_excluded) = true
  /\ served_from_cache 1 None campaign_excluded = true
  /\ exists rec, fst (toy_recommend_call 1 None campaign_excluded) = Return rec
                 /\ df_index rec = [0].
Proof.
  split; [reflexivity|]. split; [reflexivity|]. eexists. split; reflexivity.
Qed.

(** *** More calls on the small campaign *)

Lemma add_measurements_succeeds_iff_valid_witness :
  fst (fst (call_add_measurements exact_row_match data1 true campaign0)) = Return tt
  /\ fst (fst (call_add_measurements (TL := telemetry_down) exact_row_match data1 true
                                     campaign0)) <> Return tt.
Proof.
  split.
  - apply (add_measurements_succeeds_iff_valid exact_row_match data1 true campaign0
                                               (aligned_init space _ _)
                                               (exact_row_match_index _ _ _ _)).
    repeat split.
  - intros H.
    apply (add_measurements_succeeds_iff_valid (TL := telemetry_down)
                                               exact_row_match data1 true campaign0
                                               (aligned_init space _ _)
                                               (exact_row_match_index _ _ _ _)) in H.
    destruct H as (_ & _ & H & _). discriminate H.
Defined.

(** A missing target value raises before anything is counted; telemetry
    that raises does so after the batch was counted. *)
Lemma add_measurements_raises_early_or_late_witness :
  call_add_measurements exact_row_match data_nan true campaign0
  = (Raise (ValueError (MissingTargetValues "y")),
     with_cached_recommendation empty_DataFrame campaign0, data_nan)
  /\ n_batches_done
       (snd (fst (call_add_measurements (TL := telemetry_down) exact_row_match data1 true
                                        campaign0)))
     = n_batches_done campaign0 + 1.
Proof.
  split.
  - destruct (add_measurements_raises_early_or_late
                exact_row_match data_nan true campaign0 _
                (aligned_init space _ _) (exact_row_match_index _ _ _ _) eq_refl)
      as [[_ H]|[H _]]; [exact H | discriminate H].
  - destruct (add_measurements_raises_early_or_late
                (TL := telemetry_down) exact_row_match data1 true campaign0 (External 4)
                (aligned_init space _ _) (exact_row_match_index _ _ _ _) eq_refl)
      as [[H _]|(_ & _ & H & _)]; [discriminate H | exact H].
Defined.

Lemma add_measurements_marks_matches_witness :
  flagged _MEASURED 0 (_searchspace_metadata (toy_after (AddMeasurements data1 true) campaign0))
  = true.
Proof.
  apply (proj1 (proj1 (add_measurements_marks_matches (TL := telemetry_up) exact_row_match left_join data1 true
                                                      campaign0 0 ltac:(reflexivity)) ltac:(reflexivity))).
  left. reflexivity.
Defined.

Lemma recommend_marks_batch_witness :
  _cached_recommendation (toy_after (Recommend 2 None) campaign0) = batch2
  /\ flagged _RECOMMENDED 1 (_searchspace_metadata (toy_after (Recommend 2 None) campaign0)) = true.
Proof.
  destruct (recommend_marks_batch (TL := telemetry_up) exact_row_match left_join 2 None campaign0 batch2 1
                                  ltac:(reflexivity) ltac:(reflexivity)) as (H1 & H2 & _).
  split; [exact H1|]. apply (proj1 (H2 ltac:(reflexivity))). right. left. reflexivity.
Defined.

(** Four candidates are asked of a search space of three: the toy
    recommender raises. *)
Lemma recommender_failure_keeps_bookkeeping_witness :
  fst (toy_recommend_call 4 None (toy_after (AddMeasurements data1 true) campaign0))
  = Raise (External 2)
  /\ n_fits_done (toy_after (Recommend 4 None) (toy_after (AddMeasurements data1 true) campaign0))
     = 1.
Proof.
  destruct (recommender_failure_keeps_bookkeeping
              exact_row_match left_join 4 None
              (toy_after (AddMeasurements data1 true) campaign0) 2
              ltac:(lia) ltac:(reflexivity) ltac:(reflexivity)) as (H1 & H2 & _).
  split; [exact H1 | exact H2].
Defined.

(** The cache holds two candidates, two are asked for, and one experiment
    is pending. *)
Lemma recommend_with_pending_asks_recommender_witness :
  served_from_cache 2 None campaign_recommended = true
  /\ served_from_cache 2 (Some data1) campaign_recommended = false.
Proof.
  split; [reflexivity|].
  apply (proj1 (recommend_with_pending_asks_recommender 2 (Some data1) campaign_recommended
                                                        batch2 ltac:(lia) ltac:(reflexivity) ltac:(reflexivity))).
Defined.

Lemma toggle_sets_excluded_witness :
  flagged _EXCLUDED 0
          (_searchspace_metadata
             (toy_after (ToggleDiscreteCandidates filter_x1 true false false) campaign0))
  = true.
Proof.
  apply (proj1 (toggle_sets_excluded exact_row_match left_join filter_x1 true false campaign0
                                     filter_x1 0 ltac:(reflexivity))).
  left. reflexivity.
Defined.

(** The join of the candidates with the filter x = 1. *)
Definition merged_x1 : DataFrame :=
  {| df_columns := [("x"%string, kind_i); ("_merge"%string, kind_O)];
     df_rows := [(0, [("x"%string, SNum (inject_Z 1)); ("_merge"%string, SStr "both")]);
                 (1, [("x"%string, SNum (inject_Z 2)); ("_merge"%string, SStr "left_only")]);
                 (2, [("x"%string, SNum (inject_Z 3)); ("_merge"%string, SStr "left_only")])] |}.

Lemma toggle_anti_is_complement_witness :
  exists selected unselected,
    selected_points left_join filter_x1 false campaign0 = Return selected
    /\ selected_points left_join filter_x1 true campaign0 = Return unselected
    /\ (In 0 (df_index selected) <-> ~ In 0 (df_index unselected)).
Proof.
  destruct (toggle_anti_is_complement left_join filter_x1 campaign0 merged_x1 0)
    as (selected & unselected & H1 & H2 & H3 & _).
  - reflexivity.
  - discriminate.
  - intros r [<-|[<-|[<-|[]]]]; cbn; auto.
  - intros r r' [<-|[<-|[<-|[]]]] [<-|[<-|[<-|[]]]] E; cbn in E; try discriminate; reflexivity.
  - exists selected, unselected. split; [exact H1|]. split; [exact H2|].
    apply H3. left. reflexivity.
Defined.

End Examples.

(** ** [parameters.py]: the grid of all value combinations *)

Module ParameterGrid.

(** The class variable [type] of the parameter classes, which is the key
    under which [__init_subclass__] registers a class in
    [Parameter.SUBCLASSES]. *)
Inductive parameter_type : Type :=
| CAT
| NUM_DISCRETE
| SUBSTANCE
| CUSTOM
| NUM_CONTINUOUS.

(** The keys of [Parameter.SUBCLASSES], in the order of registration. *)
Definition SUBCLASSES : list parameter_type :=
  [CAT; NUM_DISCRETE; SUBSTANCE; CUSTOM; NUM_CONTINUOUS].

Definition type_eqb (a b : parameter_type) : bool :=
  match a, b with
  | CAT, CAT | NUM_DISCRETE, NUM_DISCRETE | SUBSTANCE, SUBSTANCE | CUSTOM, CUSTOM
  | NUM_CONTINUOUS, NUM_CONTINUOUS => true
  | _, _ => false
  end.

(** What [parameter_outer_prod_to_df] reads of a parameter. *)
Record GridParameter : Type := {
  grid_type : parameter_type;
  grid_name : string;
  grid_values : list scalar
}.

(** [p.type in allowed_types]. *)
Definition allowed (p : GridParameter) : bool := existsb (type_eqb (grid_type p)) SUBCLASSES.

(** The tuples of [pd.MultiIndex.from_product(iterables)]: every choice of
    one element per list, the first list varying slowest. *)
Fixpoint from_product (iterables : list (list scalar)) : list (list scalar) :=
  match iterables with
  | [] => [[]]
  | values :: rest => flat_map (fun v => map (cons v) (from_product rest)) values
  end.

Fixpoint has_duplicate (names : list string) : bool :=
  match names with
  | [] => false
  | n :: rest => existsb (String.eqb n) rest || has_duplicate rest
  end.

(** [parameter_outer_prod_to_df]: the column names and the rows of the
    frame. pandas raises [ValueError] for a product of no list at all (a
    [MultiIndex] needs a level), and [reset_index] raises [ValueError] when
    two levels have one name. *)
Definition parameter_outer_prod_to_df (parameters : list GridParameter)
  : outcome (list string * list (list scalar)) :=
  let lst_of_values := map grid_values (filter allowed parameters) in
  let lst_of_names := map grid_name (filter allowed parameters) in
  match lst_of_values with
  | [] => Raise (External 10)
  | _ => if has_duplicate lst_of_names then Raise (External 11)
         else Return (lst_of_names, from_product lst_of_values)
  end.

Lemma filter_allowed (parameters : list GridParameter) : filter allowed parameters = parameters.
Proof.
  induction parameters as [|p ps IH]; [reflexivity|]. cbn [filter].
  assert (allowed p = true) as -> by (unfold allowed; destruct (grid_type p); reflexivity).
  now rewrite IH.
Qed.

Lemma has_duplicate_false (names : list string) : has_duplicate names = false <-> NoDup names.
Proof.
  induction names as [|n names IH]; [split; [constructor | reflexivity]|].
  cbn [has_duplicate]. rewrite orb_false_iff, IH. split.
  - intros [H Hnd]. constructor; [|assumption]. intros Hin.
    assert (existsb (String.eqb n) names = true); [|congruence].
    apply existsb_exists. exists n. split; [assumption | apply String.eqb_refl].
  - intros H. inversion H as [|? ? Hn Hnd]. subst. split; [|assumption].
    destruct (existsb (String.eqb n) names) eqn:E; [|reflexivity].
    apply existsb_exists in E as [y [Hy Hny]]. apply String.eqb_eq in Hny. now subst.
Qed.

Lemma length_flat_map_const {A B : Type} (f : A -> list B) (l : list A) (m : nat) :
  (forall x, In x l -> length (f x) = m) -> length (flat_map f l) = (length l * m)%nat.
Proof.
  induction l as [|a l IH]; intros H; [reflexivity|].
  cbn [flat_map length]. rewrite length_app.
  rewrite IH by (intros x Hx; apply H; now right).
  rewrite (H a) by now left. lia.
Qed.

Lemma length_from_product (iterables : list (list scalar)) :
  length (from_product iterables)
  = fold_right (fun values n => (length values * n)%nat) 1%nat iterables.
Proof.
  induction iterables as [|values rest IH]; [reflexivity|].
  cbn [from_product fold_right]. rewrite <- IH.
  apply length_flat_map_const. intros v _. apply length_map.
Qed.

Lemma In_from_product (iterables : list (list scalar)) :
  forall t, In t (from_product iterables) <-> Forall2 (fun v values => In v values) t iterables.
Proof.
  induction iterables as [|values rest IH]; intros t; cbn [from_product].
  - split.
    + intros [<-|[]]. constructor.
    + intros H. inversion H. now left.
  - rewrite in_flat_map. split.
    + intros [v [Hv Ht]]. apply in_map_iff in Ht as [t' [<- Ht']].
      constructor; [assumption|]. now apply IH.
    + intros H. inversion H as [|v ? t' ? Hv Ht']. subst.
      exists v. split; [assumption|]. apply in_map_iff. exists t'. split; [reflexivity|].
      now apply IH.
Qed.

Lemma NoDup_from_product (iterables : list (list scalar)) :
  Forall (@NoDup scalar) iterables -> NoDup (from_product iterables).
Proof.
  induction iterables as [|values rest IH]; intros H; cbn [from_product].
  - constructor; [intros [] | constructor].
  - inversion H as [|? ? Hv Hrest]. subst. specialize (IH Hrest).
    clear H Hrest. induction values as [|v values IHv]; cbn [flat_map]; [constructor|].
    inversion Hv as [|? ? Hnin Hv']. subst.
    apply NoDup_app.
    + apply NoDup_map_inv with (f := @tl scalar).
      rewrite map_map. cbn [tl]. now rewrite map_id.
    + now apply IHv.
    + intros t Ht Ht'. apply in_map_iff in Ht as [t1 [<- _]].
      apply in_flat_map in Ht' as [w [Hw Ht']]. apply in_map_iff in Ht' as [t2 [E _]].
      injection E as -> _. contradiction.
Qed.

(** For at least one parameter and names that differ,
    [parameter_outer_prod_to_df] answers a frame with one column per
    parameter, in their order, whose rows are exactly the choices of one
    value per parameter: their number is the product of the numbers of
    values, every such choice is a row, every row is such a choice, and no
    choice comes twice when no parameter lists a value twice. No parameter
    is left out, whatever its type. *)
Theorem parameter_outer_prod_is_the_grid (parameters : list GridParameter) :
  parameters <> [] -> NoDup (map grid_name parameters) ->
  exists rows,
    parameter_outer_prod_to_df parameters = Return (map grid_name parameters, rows)
    /\ length rows
       = fold_right (fun p n => (length (grid_values p) * n)%nat) 1%nat parameters
    /\ (forall t, In t rows
                  <-> Forall2 (fun v p => In v (grid_values p)) t parameters)
    /\ ((forall p, In p parameters -> NoDup (grid_values p)) -> NoDup rows).
Proof.
  intros Hne Hnd. exists (from_product (map grid_values parameters)).
  unfold parameter_outer_prod_to_df. rewrite filter_allowed.
  split; [|split; [|split]].
  - destruct parameters as [|p ps]; [contradiction|]. cbn [map].
    apply has_duplicate_false in Hnd. cbn [map] in Hnd. now rewrite Hnd.
  - rewrite length_from_product. clear. induction parameters as [|p ps IH]; [reflexivity|].
    cbn [map fold_right]. now rewrite IH.
  - intros t. rewrite In_from_product. clear. revert t.
    induction parameters as [|p ps IH]; intros t; cbn [map].
    + split; intros H; inversion H; constructor.
    + split; intros H; inversion H; subst; constructor; try assumption; now apply IH.
  - intros H. apply NoDup_from_product. apply Forall_map. now apply Forall_forall.
Qed.

(** Two parameters with two and three values: six rows. *)
Lemma parameter_outer_prod_is_the_grid_witness :
  exists rows,
    parameter_outer_prod_to_df
      [{| grid_type := NUM_DISCRETE; grid_name := "x";
          grid_values := [SNum (inject_Z 1); SNum (inject_Z 2)] |};
       {| grid_type := CAT; grid_name := "s";
          grid_values := [SStr "a"; SStr "b"; SStr "c"] |}]
    = Return (["x"%string; "s"%string], rows)
    /\ length rows = 6%nat.
Proof.
  destruct (parameter_outer_prod_is_the_grid
              [{| grid_type := NUM_DISCRETE; grid_name := "x";
                  grid_values := [SNum (inject_Z 1); SNum (inject_Z 2)] |};
               {| grid_type := CAT; grid_name := "s";
                  grid_values := [SStr "a"; SStr "b"; SStr "c"] |}])
    as (rows & H1 & H2 & _).
  - discriminate.
  - apply has_duplicate_false. reflexivity.
  - exists rows. split; assumption.
Defined.

(** Without parameter, and with two parameters of one name, the call
    raises. *)
Lemma parameter_outer_prod_raises (p : GridParameter) :
  parameter_outer_prod_to_df [] = Raise (External 10)
  /\ parameter_outer_prod_to_df [p; p] = Raise (External 11).
Proof.
  split; [reflexivity|]. unfold parameter_outer_prod_to_df. rewrite filter_allowed.
  cbn [map has_duplicate existsb]. now rewrite String.eqb_refl.
Qed.

End ParameterGrid.

(** ** [campaign.py]: the version tag of a serialized campaign *)

Module Serialization.

Section Version.

(** The values of a dictionary, the package version, the campaigns and the
    two hooks that cattrs generates for the class. *)
Variable V : Type.
Variable __version__ : V.
Variable C : Type.
Variable unstructure_hook : C -> list (string * V).
Variable structure_hook : list (string * V) -> outcome C.

(** A Python [dict] with text keys: the items in the order of insertion. *)
Definition dict : Type := list (string * V).

(** [d.get(key)]. *)
Fixpoint dict_get (key : string) (d : dict) : option V :=
  match d with
  | [] => None
  | (k, v) :: rest => if String.eqb k key then Some v else dict_get key rest
  end.

(** [{**d, key: v}]: the value of an existing key is replaced where the key
    stands, a new key comes last. *)
Fixpoint dict_set (key : string) (v : V) (d : dict) : dict :=
  match d with
  | [] => [(key, v)]
  | (k, x) :: rest => if String.eqb k key then (k, v) :: rest else (k, x) :: dict_set key v rest
  end.

(** [d.pop(key, None)]: the dictionary without the key. *)
Fixpoint dict_pop (key : string) (d : dict) : dict :=
  match d with
  | [] => []
  | (k, x) :: rest => if String.eqb k key then dict_pop key rest else (k, x) :: dict_pop key rest
  end.

(** [_add_version]. *)
Definition _add_version (dict_ : dict) : dict := dict_set "version" __version__ dict_.

(** [_drop_version]. *)
Definition _drop_version (dict_ : dict) : dict := dict_pop "version" dict_.

(** The hook registered for unstructuring. *)
Definition unstructure (x : C) : dict := _add_version (unstructure_hook x).

(** The hook registered for structuring. *)
Definition structure (d : dict) : outcome C := structure_hook (_drop_version d).

Lemma dict_pop_absent (key : string) (d : dict) : dict_get key d = None -> dict_pop key d = d.
Proof.
  induction d as [|[k x] d IH]; cbn; [reflexivity|].
  destruct (String.eqb k key); [discriminate|]. intros H. now rewrite IH.
Qed.

Lemma dict_get_pop_same (key : string) (d : dict) : dict_get key (dict_pop key d) = None.
Proof.
  induction d as [|[k x] d IH]; cbn; [reflexivity|].
  destruct (String.eqb k key) eqn:E; [exact IH|]. cbn. now rewrite E.
Qed.

Lemma dict_get_pop_other (key key' : string) (d : dict) :
  key <> key' -> dict_get key' (dict_pop key d) = dict_get key' d.
Proof.
  intros Hne. induction d as [|[k x] d IH]; cbn; [reflexivity|].
  destruct (String.eqb_spec k key) as [->|Hk].
  - rewrite IH. destruct (String.eqb_spec key key'); [contradiction | reflexivity].
  - cbn. now rewrite IH.
Qed.

Lemma dict_get_set_same (key : string) (v : V) (d : dict) : dict_get key (dict_set key v d) = Some v.
Proof.
  induction d as [|[k x] d IH]; cbn.
  - now rewrite String.eqb_refl.
  - destruct (String.eqb k key) eqn:E; cbn; rewrite E; [reflexivity | exact IH].
Qed.

Lemma dict_get_set_other (key key' : string) (v : V) (d : dict) :
  key <> key' -> dict_get key' (dict_set key v d) = dict_get key' d.
Proof.
  intros Hne. induction d as [|[k x] d IH]; cbn.
  - destruct (String.eqb_spec key key'); [contradiction | reflexivity].
  - destruct (String.eqb_spec k key) as [->|Hk]; cbn.
    + destruct (String.eqb_spec key key'); [contradiction | reflexivity].
    + now rewrite IH.
Qed.

Lemma dict_pop_set (key : string) (v : V) (d : dict) :
  dict_pop key (dict_set key v d) = dict_pop key d.
Proof.
  induction d as [|[k x] d IH]; cbn.
  - now rewrite String.eqb_refl.
  - destruct (String.eqb k key) eqn:E; cbn; rewrite E; [reflexivity | now rewrite IH].
Qed.

(** The version tag is carried by the serialized campaign and by nothing
    else: [_add_version] writes the key ["version"] and leaves every other
    key alone, [_drop_version] removes it and leaves every other key alone,
    dropping after adding gives back a dictionary that had no such key, and
    structuring what unstructuring produced is then what the hooks of cattrs
    do without the tag. *)
Theorem version_tag_round_trip (d : dict) (x : C) :
  dict_get "version" (_add_version d) = Some __version__
  /\ dict_get "version" (_drop_version d) = None
  /\ (forall key, key <> "version"%string ->
                  dict_get key (_add_version d) = dict_get key d
                  /\ dict_get key (_drop_version d) = dict_get key d)
  /\ _drop_version (_add_version d) = _drop_version d
  /\ (dict_get "version" d = None -> _drop_version (_add_version d) = d)
  /\ (dict_get "version" (unstructure_hook x) = None ->
      structure (unstructure x) = structure_hook (unstructure_hook x)).
Proof.
  unfold structure, unstructure, _add_version, _drop_version.
  split; [apply dict_get_set_same|]. split; [apply dict_get_pop_same|].
  split; [intros key Hk; split;
          [apply dict_get_set_other | apply dict_get_pop_other]; congruence|].
  split; [apply dict_pop_set|].
  split; intros H; rewrite dict_pop_set, dict_pop_absent by assumption; reflexivity.
Qed.

End Version.

End Serialization.

(** ** [telemetry.py] *)

Module Telemetry.

Section Recording.

(** The environment variables, [strtobool] of the package's utilities
    (which raises for a text that is no truth value), the user name, the
    host name, and the first ten digits of the upper-case sha256 digest of
    a text. *)
Variable environ : string -> option string.
Variable strtobool : string -> outcome bool.
Variable getuser : string.
Variable gethostname : string.
Variable upper : string -> string.
Variable sha256_digits : string -> string.

(** The values that are recorded. *)
Variable Value : Type.

(** [os.environ.get(key, None) or fallback]: a variable that is unset or
    empty gives way to the fallback. *)
Definition environ_or (key fallback : string) : string :=
  match environ key with
  | Some EmptyString | None => fallback
  | Some value => value
  end.

(** [get_user_details]: the pair of the host hash and the user hash. *)
Definition get_user_details : string * string :=
  (environ_or "BAYBE_DEBUG_FAKE_HOSTHASH" (sha256_digits gethostname),
   environ_or "BAYBE_DEBUG_FAKE_USERHASH" (sha256_digits (upper getuser))).

(** [is_enabled]. *)
Definition is_enabled : outcome bool :=
  strtobool (match environ "BAYBE_TELEMETRY_ENABLED" with
             | Some value => value
             | None => "true"%string
             end).

(** The module state: the histograms that the meter was asked to create, by
    name and in order, the dictionary [_instruments], which maps a name to
    the place of its histogram among those created, and the values recorded,
    each with the place of its histogram and the user details. *)
Record State : Type := {
  created : list string;
  _instruments : list (string * nat);
  recorded : list (nat * Value * (string * string))
}.

Fixpoint lookup (name : string) (d : list (string * nat)) : option nat :=
  match d with
  | [] => None
  | (k, h) :: rest => if String.eqb k name then Some h else lookup name rest
  end.

(** [telemetry_record_value(instrument_name, value)]. *)
Definition telemetry_record_value (instrument_name : string) (value : Value) (s : State)
  : outcome unit * State :=
  match is_enabled with
  | Raise e => (Raise e, s)
  | Return false => (Return tt, s)
  | Return true =>
      match lookup instrument_name (_instruments s) with
      | Some histogram =>
          (Return tt,
           {| created := created s; _instruments := _instruments s;
              recorded := recorded s ++ [(histogram, value, get_user_details)] |})
      | None =>
          let histogram := length (created s) in
          (Return tt,
           {| created := created s ++ [instrument_name];
              _instruments := _instruments s ++ [(instrument_name, histogram)];
              recorded := recorded s ++ [(histogram, value, get_user_details)] |})
      end
  end.

(** The exception of [strtobool] leaves [telemetry_record_value], and
    nothing is recorded. *)
Lemma telemetry_record_value_raises (instrument_name : string) (value : Value) (s : State)
      (e : exn) :
  is_enabled = Raise e -> telemetry_record_value instrument_name value s = (Raise e, s).
Proof. intros H. unfold telemetry_record_value. now rewrite H. Qed.

(** The state after a sequence of recordings. *)
Definition record_all (calls : list (string * Value)) (s : State) : State :=
  fold_left (fun s call => snd (telemetry_record_value (fst call) (snd call) s)) calls s.

(** The module state when the module was loaded. *)
Definition initial : State := {| created := []; _instruments := []; recorded := [] |}.

(** The dictionary maps each created name, once, to its place. *)
Definition consistent (s : State) : Prop :=
  _instruments s = combine (created s) (seq 0 (length (created s))) /\ NoDup (created s).

Lemma lookup_combine_None (names : list string) (name : string) :
  forall start, lookup name (combine names (seq start (length names))) = None -> ~ In name names.
Proof.
  induction names as [|n names IH]; intros start H; [intros []|].
  cbn in H. destruct (String.eqb_spec n name) as [->|Hne]; [discriminate|].
  intros [E|Hin]; [contradiction|]. exact (IH _ H Hin).
Qed.

Lemma lookup_combine_Some (names : list string) (name : string) (h : nat) :
  forall start, lookup name (combine names (seq start (length names))) = Some h ->
                nth_error names (h - start) = Some name /\ (start <= h)%nat.
Proof.
  induction names as [|n names IH]; intros start H; [discriminate|].
  cbn in H. destruct (String.eqb_spec n name) as [->|Hne].
  - injection H as <-. rewrite Nat.sub_diag. split; [reflexivity | lia].
  - destruct (IH _ H) as [H1 H2].
    replace (h - start)%nat with (Datatypes.S (h - Datatypes.S start)) by lia.
    split; [exact H1 | lia].
Qed.

Lemma combine_seq_app_from (names : list string) (name : string) :
  forall start,
    combine (names ++ [name]) (seq start (Datatypes.S (length names)))
    = combine names (seq start (length names)) ++ [(name, (start + length names)%nat)].
Proof.
  induction names as [|n names IH]; intros start.
  - cbn. now rewrite Nat.add_0_r.
  - cbn [app length].
    change (seq start (Datatypes.S (Datatypes.S (length names))))
      with (start :: seq (Datatypes.S start) (Datatypes.S (length names))).
    change (seq start (Datatypes.S (length names)))
      with (start :: seq (Datatypes.S start) (length names)).
    cbn [combine]. rewrite (IH (Datatypes.S start)).
    cbn [app].
    replace (Datatypes.S start + length names)%nat
      with (start + Datatypes.S (length names))%nat by lia.
    reflexivity.
Qed.

Lemma combine_seq_app (names : list string) (name : string) :
  combine (names ++ [name]) (seq 0 (length (names ++ [name])))
  = combine names (seq 0 (length names)) ++ [(name, length names)].
Proof.
  rewrite length_app. cbn [length]. rewrite Nat.add_1_r.
  now rewrite combine_seq_app_from.
Qed.

Lemma consistent_record (name : string) (value : Value) (s : State) :
  consistent s -> consistent (snd (telemetry_record_value name value s)).
Proof.
  intros [Hd Hnd]. unfold telemetry_record_value.
  destruct is_enabled as [[|]|e]; cbn [snd]; [|now split|now split].
  destruct (lookup name (_instruments s)) eqn:E; cbn [snd]; [now split|].
  unfold consistent. cbn [created _instruments]. split.
  - rewrite Hd. symmetry. apply combine_seq_app.
  - rewrite Hd in E. apply lookup_combine_None in E.
    apply NoDup_app; [assumption | constructor; [intros [] | constructor]|].
    intros x Hx [<-|[]]. contradiction.
Qed.

Lemma record_all_disabled (calls : list (string * Value)) (s : State) :
  is_enabled = Return false -> record_all calls s = s.
Proof.
  intros H. unfold record_all. induction calls as [|call calls IH]; [reflexivity|].
  cbn [fold_left]. unfold telemetry_record_value at 2. rewrite H. exact IH.
Qed.

Lemma record_all_enabled (calls : list (string * Value)) :
  is_enabled = Return true ->
  forall s, consistent s ->
            consistent (record_all calls s)
            /\ length (recorded (record_all calls s)) = (length (recorded s) + length calls)%nat
            /\ (forall name, In name (created s) -> In name (created (record_all calls s)))
            /\ (forall call, In call calls -> In (fst call) (created (record_all calls s))).
Proof.
  intros H. unfold record_all. induction calls as [|call calls IH]; intros s Hs; cbn [fold_left].
  - split; [exact Hs|]. split; [cbn; lia|]. split; [auto | intros call []].
  - pose proof (consistent_record (fst call) (snd call) s Hs) as Hs'.
    destruct (IH _ Hs') as (I1 & I2 & I3 & I4).
    assert (Hstep : length (recorded (snd (telemetry_record_value (fst call) (snd call) s)))
                    = Datatypes.S (length (recorded s))
                    /\ (forall name, In name (created s) ->
                                     In name (created (snd (telemetry_record_value
                                                              (fst call) (snd call) s))))
                    /\ In (fst call) (created (snd (telemetry_record_value
                                                      (fst call) (snd call) s)))).
    { unfold telemetry_record_value. rewrite H.
      destruct (lookup (fst call) (_instruments s)) as [h|] eqn:E; cbn [snd recorded created].
      - rewrite length_app. cbn. split; [lia|]. split; [auto|].
        destruct Hs as [Hd _]. rewrite Hd in E.
        apply lookup_combine_Some in E as [E _]. eapply nth_error_In. exact E.
      - rewrite length_app. cbn. split; [lia|]. split.
        + intros name Hn. apply in_or_app. now left.
        + apply in_or_app. right. now left. }
    destruct Hstep as (S1 & S2 & S3).
    split; [exact I1|]. split; [rewrite I2, S1; cbn; lia|]. split.
    + intros name Hn. apply I3. now apply S2.
    + intros c [<-|Hc]; [apply I3; exact S3 | now apply I4].
Qed.

(** With telemetry switched off, no sequence of recordings creates an
    instrument or records a value: the module state stays what it was. With
    telemetry switched on, every recording records one value, the
    instrument of every recorded name exists afterwards, and no instrument
    is created twice, however often its name was recorded. *)
Theorem telemetry_records (calls : list (string * Value)) :
  (is_enabled = Return false -> forall s, record_all calls s = s)
  /\ (is_enabled = Return true ->
      NoDup (created (record_all calls initial))
      /\ length (recorded (record_all calls initial)) = length calls
      /\ (forall call, In call calls -> In (fst call) (created (record_all calls initial)))
      /\ (length (created (record_all calls initial)) <= length calls)%nat).
Proof.
  split; [intros H s; now apply record_all_disabled|].
  intros H.
  assert (H0 : consistent initial) by (split; [reflexivity | constructor]).
  destruct (record_all_enabled calls H initial H0) as ([Hd Hnd] & H2 & _ & H4).
  split; [exact Hnd|]. split; [exact H2|]. split; [exact H4|].
  clear H2 H4 Hd Hnd. unfold record_all.
  assert (G : forall s, (length (created (fold_left
                           (fun s call => snd (telemetry_record_value (fst call) (snd call) s))
                           calls s))
                         <= length (created s) + length calls)%nat).
  { induction calls as [|call calls IH]; intros s; cbn [fold_left]; [cbn; lia|].
    specialize (IH (snd (telemetry_record_value (fst call) (snd call) s))).
    assert ((length (created (snd (telemetry_record_value (fst call) (snd call) s)))
             <= Datatypes.S (length (created s)))%nat).
    { unfold telemetry_record_value. rewrite H.
      destruct (lookup _ _); cbn [snd created]; [lia|]. rewrite length_app. cbn. lia. }
    cbn [length]. lia. }
  exact (G initial).
Qed.

End Recording.

End Telemetry.
